(** * Water_test: the data.js fetch helpers

    A shallow embedding of [data.js] (configuration and fetch helpers for the
    ECCC OGC API and for ArcGIS feature servers), in its version that tries a
    CQL filter first and falls back on an unfiltered request, and the
    properties of its station-data reconciliation layer.

    The helpers are asynchronous JavaScript functions.  Each one is sequential
    (every [await] is followed by the rest of the body), so it is embedded as
    a function in a small state-and-exception monad: the state records the
    requests handed to [fetch] and the text sent to the diagnostic sink, the
    exception is the value the returned promise rejects with.

    Responses are read as GeoJSON: the body of an items request is an object
    whose [features], when present, is an array of feature objects; the
    [properties] of a feature are [null] or an object of primitive
    attributes; its [geometry] is any value.  The body of a layer request
    and the value a promise rejects with are any value. *)

From Stdlib Require Import ZArith String Ascii List Bool Lia.
From Stdlib Require Import PrimFloat SpecFloat FloatOps.
From Stdlib Require Import DecimalString.
From Stdlib Require Import Permutation.
Import ListNotations.

Local Open Scope list_scope.
Local Open Scope string_scope.

Set Implicit Arguments.
Set Warnings "-register-all,-inexact-float".

(** ** JavaScript values *)

(** Primitive values.  The attribute tables served by the OGC collections are
    flat: every attribute of a feature is a primitive, and reading an
    attribute the feature does not have gives [undefined]. *)
Inductive prim : Type :=
| PUndef
| PNull
| PBool (b : bool)
| PNum (n : float)
| PStr (s : string).

(** Structured values: geometries, layer bodies and the values a promise
    rejects with.  [JError name message] is an instance of [Error] (or of one
    of its subclasses, [name] telling which). *)
Inductive jsval : Type :=
| JPrim (p : prim)
| JArr (elems : list jsval)
| JObj (members : list (string * jsval))
| JError (name message : string).

Definition undefined : jsval := JPrim PUndef.
Definition null : jsval := JPrim PNull.

(** [!!v] on a primitive: [undefined], [null], [false], [0], [-0], [NaN] and
    the empty string are falsy. *)
Definition truthy (v : prim) : bool :=
  match v with
  | PUndef | PNull => false
  | PBool b => b
  | PNum n => negb (PrimFloat.is_zero n || PrimFloat.is_nan n)
  | PStr s => negb (String.eqb s EmptyString)
  end.

(** [!!v] on any value: objects, arrays and errors are truthy. *)
Definition js_truthy (v : jsval) : bool :=
  match v with
  | JPrim p => truthy p
  | _ => true
  end.

(** [a || b] *)
Definition prim_or (a b : prim) : prim := if truthy a then a else b.

(** An object whose members are primitives: the [properties] of a feature. *)
Definition row : Type := list (string * prim).

(** [r.name] on such an object. *)
Fixpoint get (r : row) (name : string) : prim :=
  match r with
  | [] => PUndef
  | (k, v) :: rest => if String.eqb k name then v else get rest name
  end.

(** [v.name] on a value that is not [undefined] or [null], for a [name] that
    no prototype defines ([coordinates], [message]). *)
Fixpoint js_lookup (members : list (string * jsval)) (name : string) : jsval :=
  match members with
  | [] => undefined
  | (k, v) :: rest => if String.eqb k name then v else js_lookup rest name
  end.

Definition js_get (v : jsval) (name : string) : jsval :=
  match v with
  | JObj members => js_lookup members name
  | JError _ message => if String.eqb name "message" then JPrim (PStr message)
                        else undefined
  | _ => undefined
  end.

(** ** Map, with insertion order

    [Map.prototype.get], [set] and [values].  A [Map] compares keys with
    SameValueZero and lists its entries in the order the keys were first
    inserted; [set] on a key already present replaces the value in place. *)

Definition Number_sameValueZero (x y : float) : bool :=
  match Prim2SF x, Prim2SF y with
  | S754_nan, S754_nan => true
  | S754_zero _, S754_zero _ => true
  | S754_infinity s, S754_infinity s' => Bool.eqb s s'
  | S754_finite s m e, S754_finite s' m' e' =>
      Bool.eqb s s' && Pos.eqb m m' && Z.eqb e e'
  | _, _ => false
  end.

Definition sameValueZero (a b : prim) : bool :=
  match a, b with
  | PUndef, PUndef => true
  | PNull, PNull => true
  | PBool x, PBool y => Bool.eqb x y
  | PNum x, PNum y => Number_sameValueZero x y
  | PStr x, PStr y => String.eqb x y
  | _, _ => false
  end.

Definition JsMap : Type := list (prim * row).

Fixpoint Map_get (m : JsMap) (key : prim) : option row :=
  match m with
  | [] => None
  | (k, v) :: rest => if sameValueZero k key then Some v else Map_get rest key
  end.

Fixpoint Map_set (m : JsMap) (key : prim) (value : row) : JsMap :=
  match m with
  | [] => [(key, value)]
  | (k, v) :: rest =>
      if sameValueZero k key then (k, value) :: rest
      else (k, v) :: Map_set rest key value
  end.

Definition Map_values (m : JsMap) : list row := map snd m.

(** ** Date

    The time value of [new Date(v)], in milliseconds since the epoch; [None]
    is the time value [NaN] of an invalid date. *)

Definition maxTime : Z := 8640000000000000.

(** TimeClip(ToIntegerOrInfinity(n)) *)
Definition TimeClip (n : float) : option Z :=
  match Prim2SF n with
  | S754_zero _ => Some 0%Z
  | S754_finite s m e =>
      let a := (if 0 <=? e then Zpos m * 2 ^ e else Zpos m / 2 ^ (- e))%Z in
      if (maxTime <? a)%Z then None else Some (if s then - a else a)%Z
  | _ => None
  end.

(** ** Requests, responses and the world of a call *)

(** A request: the URL a [URL] object was built from and the search
    parameters set on it, in the order they were set. *)
Record Request : Type := {
  url : string;
  searchParams : list (string * string)
}.

(** What [r.json()] settles to: the parsed body, or a [SyntaxError]. *)
Inductive Body (B : Type) : Type :=
| Json (value : B)
| NotJson (message : string).

(** What [fetch] settles to: it rejects with a [TypeError] when the request
    cannot be made, and resolves with a response of any status otherwise. *)
Inductive FetchOutcome (B : Type) : Type :=
| NetworkFailure (message : string)
| Response (status : Z) (body : Body B).

Arguments NotJson {B} message.
Arguments NetworkFailure {B} message.

(** [r.ok]: the status is in the range 200-299. *)
Definition ok (status : Z) : bool := ((200 <=? status) && (status <=? 299))%Z.

(** The state a call runs in: the requests made so far, the text of the
    element with id [debug] (when the page has one) and the console. *)
Record World : Type := {
  requests : list Request;
  debugElement : option string;
  console : list string
}.

(** How an asynchronous call settles: the promise is fulfilled with a value
    or rejected with the value thrown. *)
Inductive Completion (A : Type) : Type :=
| Return (a : A)
| Throw (e : jsval).

Arguments Throw {A} e.

Definition Async (A : Type) : Type := World -> Completion A * World.

Definition ret {A : Type} (a : A) : Async A := fun w => (Return a, w).

Definition throw {A : Type} (e : jsval) : Async A := fun w => (Throw e, w).

Definition bind {A B : Type} (m : Async A) (k : A -> Async B) : Async B :=
  fun w =>
    match m w with
    | (Return a, w') => k a w'
    | (Throw e, w') => (Throw e, w')
    end.

(** [m.catch(handler)], and [try { await m } catch (e) { handler }]. *)
Definition catch {A : Type} (m : Async A) (handler : jsval -> Async A) : Async A :=
  fun w =>
    match m w with
    | (Return a, w') => (Return a, w')
    | (Throw e, w') => handler e w'
    end.

Definition lift {A : Type} (c : Completion A) : Async A := fun w => (c, w).

Declare Scope async_scope.
Delimit Scope async_scope with async.
Notation "x <- m ;; k" := (bind m (fun x => k))
  (at level 61, m at next level, right associativity) : async_scope.
Notation "m ;;; k" := (bind m (fun _ => k))
  (at level 61, right associativity) : async_scope.

Definition Error (message : string) : jsval := JError "Error" message.
Definition TypeError (message : string) : jsval := JError "TypeError" message.
Definition SyntaxError (message : string) : jsval := JError "SyntaxError" message.

Definition newline : string := String "010"%char EmptyString.

(** The decimal numeral of an integer, as a template literal prints a status
    or a length. *)
Definition decimal (z : Z) : string := NilZero.string_of_int (Z.to_int z).

(** [logDebug(msg)]
<<
  const el = document.getElementById('debug');
  if (el) el.textContent += `${msg}\n`;
  console.log(msg);
>> *)
Definition logged (w : World) (msg : string) : World :=
  {| requests := requests w;
     debugElement :=
       match debugElement w with
       | Some text => Some (text ++ msg ++ newline)
       | None => None
       end;
     console := (console w ++ [msg])%list |}.

Definition logDebug (msg : string) : Async unit :=
  fun w => (Return tt, logged w msg).

(** The world after one more request. *)
Definition issued (w : World) (req : Request) : World :=
  {| requests := (requests w ++ [req])%list;
     debugElement := debugElement w;
     console := console w |}.

(** [fetch(url.toString(), { cache: 'no-store' })] against a network that
    answers every request in a fixed way. *)
Definition fetch {B : Type} (network : Request -> FetchOutcome B)
    (req : Request) : Async (Z * Body B) :=
  fun w =>
    match network req with
    | NetworkFailure message => (Throw (TypeError message), issued w req)
    | Response status body => (Return (status, body), issued w req)
    end.

(** [r.json()] *)
Definition json {B : Type} (body : Body B) : Async B :=
  match body with
  | Json value => ret value
  | NotJson message => throw (SyntaxError message)
  end.

(** ** GeoJSON as the helpers read it *)

(** A feature: its [properties] ([None] when the member is [null] or
    absent) and its [geometry] ([undefined] when absent). *)
Record Feature : Type := {
  properties : option row;
  geometry : jsval
}.

(** The body of an OGC items response; [features] is [None] when the member
    is absent.  A body that parses without being of this shape ([null], a
    [features] member that is not an array, a feature that is [null], an
    attribute that is not a primitive) is not a value of this type: the
    helpers throw a [TypeError] of their own on some of them, and every
    statement about a helper is about responses whose parsed body is such a
    collection. *)
Record FeatureCollection : Type := {
  features : option (list Feature)
}.

(** The record [{ lat, lon, props }]. *)
Record StationMeta : Type := {
  lat : jsval;
  lon : jsval;
  props : row
}.

Definition OGC_BASE : string := "https://api.weather.gc.ca/collections".

(** [Array.isArray(v)] *)
Definition isArray (v : jsval) : bool :=
  match v with
  | JArr _ => true
  | _ => false
  end.

(** [v[i]] on an array; [undefined] past its end and on a value that has no
    such member. *)
Definition index (v : jsval) (i : nat) : jsval :=
  match v with
  | JArr elems => nth i elems undefined
  | _ => undefined
  end.

(** [s.replace(/\/+$/, '')]: the string without its trailing slashes. *)
Fixpoint dropSlashes (rev_chars : list ascii) : list ascii :=
  match rev_chars with
  | "/"%char :: rest => dropSlashes rest
  | _ => rev_chars
  end.

Definition stripTrailingSlashes (s : string) : string :=
  string_of_list_ascii (rev (dropSlashes (rev (list_ascii_of_string s)))).

Section Host.

(** What the engine supplies: [Date.parse] on a string ([None] for [NaN])
    and [Number.prototype.toString]. *)
Variable Date_parse : string -> option Z.
Variable Number_toString : float -> string.

(** [new Date(v)] *)
Definition newDate (v : prim) : option Z :=
  match v with
  | PUndef => None
  | PNull => Some 0%Z
  | PBool b => Some (if b then 1 else 0)%Z
  | PNum n => TimeClip n
  | PStr s => Date_parse s
  end.

(** [a > b] on two dates: both are converted to their time values, and a
    comparison with [NaN] is false. *)
Definition Date_gt (a b : option Z) : bool :=
  match a, b with
  | Some x, Some y => (y <? x)%Z
  | _, _ => false
  end.

(** [a >= b] on two dates. *)
Definition Date_ge (a b : option Z) : bool :=
  match a, b with
  | Some x, Some y => (y <=? x)%Z
  | _, _ => false
  end.

(** The timestamp of a row: [new Date(row.DATE)]. *)
Definition timestamp (r : row) : option Z := newDate (get r "DATE").

(** The parameter key of a row: [row.PARAMETER]. *)
Definition paramKey (r : row) : prim := get r "PARAMETER".

(** ** The deduplication pass of [fetchHydrometricRealtimeLatest]

<<
const byParam = new Map();
for (const row of rows) {
  const key = row.PARAMETER;
  const prev = byParam.get(key);
  if (!prev || new Date(row.DATE) > new Date(prev.DATE)) byParam.set(key, row);
}
return Array.from(byParam.values());
>>
    A row is an object, hence truthy: [!prev] holds exactly when the key
    is not in the map yet. *)

Definition keepLatest_step (byParam : JsMap) (r : row) : JsMap :=
  let key := get r "PARAMETER" in
  match Map_get byParam key with
  | None => Map_set byParam key r
  | Some prev =>
      if Date_gt (newDate (get r "DATE")) (newDate (get prev "DATE"))
      then Map_set byParam key r
      else byParam
  end.

Definition keepLatest_fold (rows : list row) (byParam : JsMap) : JsMap :=
  fold_left keepLatest_step rows byParam.

Definition keepLatest (rows : list row) : list row :=
  Map_values (keepLatest_fold rows []).

(** ** Conversion to string *)

(** [String(v)] on a primitive; on [true], on a number and on a string it
    is also what [v.toString()] returns. *)
Definition prim_toString (v : prim) : string :=
  match v with
  | PUndef => "undefined"
  | PNull => "null"
  | PBool b => if b then "true" else "false"
  | PNum n => Number_toString n
  | PStr s => s
  end.

Definition has_member (name : string) (members : list (string * jsval)) : bool :=
  existsb (fun kv => String.eqb (fst kv) name) members.

(** ToString, as a template literal applies it; [None] when the conversion
    raises a [TypeError].  An array is joined with commas, its [undefined]
    and [null] elements giving the empty string; a plain object gives
    ["[object Object]"], unless a member of its own hides [toString] (parsed
    JSON holds no function, so nothing callable is found and the inherited
    [valueOf] returns the object itself); an error gives its name and
    message. *)
Fixpoint ToString (v : jsval) : option string :=
  match v with
  | JPrim p => Some (prim_toString p)
  | JArr elems =>
      (fix join (l : list jsval) : option string :=
         match l with
         | [] => Some EmptyString
         | x :: rest =>
             let sx := match x with
                       | JPrim PUndef | JPrim PNull => Some EmptyString
                       | _ => ToString x
                       end in
             match sx, rest with
             | Some s, [] => Some s
             | Some s, _ :: _ =>
                 match join rest with
                 | Some t => Some (s ++ "," ++ t)
                 | None => None
                 end
             | None, _ => None
             end
         end) elems
  | JObj members =>
      if has_member "toString" members then None else Some "[object Object]"
  | JError name message =>
      Some (if String.eqb name EmptyString then message
            else if String.eqb message EmptyString then name
            else name ++ ": " ++ message)
  end.

(** [`${e.message || e}`] in a [catch] handler.  Reading [message] from
    [undefined] or [null] raises a [TypeError] (its message is worded as V8
    words it); any other value without a truthy [message] is printed
    itself. *)
Definition describe (e : jsval) : Completion string :=
  match e with
  | JPrim PUndef =>
      Throw (TypeError "Cannot read properties of undefined (reading 'message')")
  | JPrim PNull =>
      Throw (TypeError "Cannot read properties of null (reading 'message')")
  | _ =>
      let m := js_get e "message" in
      match ToString (if js_truthy m then m else e) with
      | Some s => Return s
      | None => Throw (TypeError "Cannot convert object to primitive value")
      end
  end.

Local Open Scope async_scope.

(** ** Station identifiers *)

(** [(p?.STATION_NUMBER || '').toString()] for the [properties] [p] of a
    feature. *)
Definition stationOf (p : option row) : string :=
  prim_toString
    (prim_or (match p with Some r => get r "STATION_NUMBER" | None => PUndef end)
             (PStr EmptyString)).

(** [f.properties || {}] *)
Definition propertiesOrEmpty (f : Feature) : row :=
  match properties f with
  | Some r => r
  | None => []
  end.

(** [json.features || []] *)
Definition featuresOrEmpty (collection : FeatureCollection) : list Feature :=
  match features collection with
  | Some l => l
  | None => []
  end.

(** [(json.features || []).map(f => f.properties || {})] *)
Definition rowsOf (collection : FeatureCollection) : list row :=
  map propertiesOrEmpty (featuresOrEmpty collection).

Section StationData.

(** The OGC API, as it answers each request. *)
Variable network : Request -> FetchOutcome FeatureCollection.

(** *** [fetchHydrometricStationMeta] *)

Definition meta_cqlRequest (stationNumber : string) : Request :=
  {| url := OGC_BASE ++ "/hydrometric-stations/items";
     searchParams :=
       [("filter", "STATION_NUMBER='" ++ stationNumber ++ "'");
        ("filter-lang", "cql-text");
        ("f", "json");
        ("limit", "1")] |}.

Definition meta_unfilteredRequest : Request :=
  {| url := OGC_BASE ++ "/hydrometric-stations/items";
     searchParams := [("f", "json"); ("limit", "1000")] |}.

Definition meta_tryCql (stationNumber : string) : Async FeatureCollection :=
  r <- fetch network (meta_cqlRequest stationNumber) ;;
  if negb (ok (fst r))
  then throw (Error ("stations meta " ++ stationNumber ++ ": " ++ decimal (fst r)))
  else json (snd r).

Definition meta_tryUnfiltered (stationNumber : string) : Async FeatureCollection :=
  r <- fetch network meta_unfilteredRequest ;;
  if negb (ok (fst r))
  then throw (Error ("stations meta (fallback) " ++ stationNumber ++ ": "
                     ++ decimal (fst r)))
  else json (snd r).

(** [feats.find(x => (x.properties?.STATION_NUMBER || '').toString()
    === stationNumber) || feats[0]]; a feature is an object, so [find]
    gives a falsy value only when it finds nothing. *)
Definition selectFeature (feats : list Feature) (stationNumber : string)
  : option Feature :=
  match find (fun x => String.eqb (stationOf (properties x)) stationNumber) feats with
  | Some x => Some x
  | None => nth_error feats 0
  end.

(** [new Error(`No geometry for station ${stationNumber}`)] *)
Definition noGeometry (stationNumber : string) : jsval :=
  Error ("No geometry for station " ++ stationNumber).

(** [f.geometry.coordinates], for a geometry that is not [undefined] or
    [null]. *)
Definition coordinatesOf (f : Feature) : jsval := js_get (geometry f) "coordinates".

(** The body of [fetchHydrometricStationMeta] once the collection is in:
<<
const feats = json.features || [];
logDebug(`stations returned: ${feats.length}`);
const f = feats.find(...) || feats[0];
if (!f || !f.geometry || !Array.isArray(f.geometry.coordinates)) {
  throw new Error(`No geometry for station ${stationNumber}`);
}
const [lon, lat] = f.geometry.coordinates;
return { lat, lon, props: f.properties || {} };
>> *)
Definition meta_resolve (stationNumber : string) (collection : FeatureCollection)
  : Async StationMeta :=
  let feats := featuresOrEmpty collection in
  logDebug ("stations returned: " ++ decimal (Z.of_nat (length feats))) ;;;
  match selectFeature feats stationNumber with
  | None => throw (noGeometry stationNumber)
  | Some f =>
      if negb (js_truthy (geometry f)) || negb (isArray (coordinatesOf f))
      then throw (noGeometry stationNumber)
      else
        ret {| lat := index (coordinatesOf f) 1;
               lon := index (coordinatesOf f) 0;
               props := propertiesOrEmpty f |}
  end.

Definition fetchHydrometricStationMeta (stationNumber : string)
  : Async StationMeta :=
  collection <-
    catch (meta_tryCql stationNumber)
          (fun e =>
             s <- lift (describe e) ;;
             logDebug ("⚠️ stations CQL failed: " ++ s) ;;;
             meta_tryUnfiltered stationNumber) ;;
  meta_resolve stationNumber collection.

(** *** [fetchHydrometricRealtimeLatest] *)

Definition realtime_cqlRequest (stationNumber : string) : Request :=
  {| url := OGC_BASE ++ "/hydrometric-realtime/items";
     searchParams :=
       [("filter", "STATION_NUMBER='" ++ stationNumber ++ "'");
        ("filter-lang", "cql-text");
        ("f", "json");
        ("limit", "5000")] |}.

Definition realtime_unfilteredRequest : Request :=
  {| url := OGC_BASE ++ "/hydrometric-realtime/items";
     searchParams := [("f", "json"); ("limit", "5000")] |}.

Definition realtime_tryCql (stationNumber : string) : Async FeatureCollection :=
  r <- fetch network (realtime_cqlRequest stationNumber) ;;
  if negb (ok (fst r))
  then throw (Error ("realtime " ++ stationNumber ++ ": " ++ decimal (fst r)))
  else json (snd r).

Definition realtime_tryUnfiltered (stationNumber : string)
  : Async FeatureCollection :=
  r <- fetch network realtime_unfilteredRequest ;;
  if negb (ok (fst r))
  then throw (Error ("realtime (fallback) " ++ stationNumber ++ ": "
                     ++ decimal (fst r)))
  else json (snd r).

(** [(r.STATION_NUMBER || '').toString() === stationNumber] *)
Definition rowMatches (stationNumber : string) (r : row) : bool :=
  String.eqb (stationOf (Some r)) stationNumber.

(** [rows.length && !rows[0].STATION_NUMBER]: there is a first row and it
    has no usable station number. *)
Definition keepsAll (rows : list row) : bool :=
  match rows with
  | [] => false
  | first :: _ => negb (truthy (get first "STATION_NUMBER"))
  end.

(** The rows kept for a station, before deduplication. *)
Definition localRows (stationNumber : string) (rows : list row) : list row :=
  if keepsAll rows then rows else filter (rowMatches stationNumber) rows.

(** The body of [fetchHydrometricRealtimeLatest] once the collection is
    in. *)
Definition realtime_resolve (stationNumber : string)
    (collection : FeatureCollection) : Async (list row) :=
  let rows := rowsOf collection in
  (if keepsAll rows
   then logDebug ("realtime returned: " ++ decimal (Z.of_nat (length rows))
                  ++ " records")
   else logDebug ("realtime returned: "
                  ++ decimal (Z.of_nat (length (filter (rowMatches stationNumber) rows)))
                  ++ " records for " ++ stationNumber)) ;;;
  ret (keepLatest (localRows stationNumber rows)).

Definition fetchHydrometricRealtimeLatest (stationNumber : string)
  : Async (list row) :=
  collection <-
    catch (realtime_tryCql stationNumber)
          (fun e =>
             s <- lift (describe e) ;;
             logDebug ("⚠️ realtime CQL failed: " ++ s) ;;;
             realtime_tryUnfiltered stationNumber) ;;
  realtime_resolve stationNumber collection.

End StationData.

(** ** [fetchArcGISLayerGeoJSON] *)

(** [bbox.join(",")] *)
Fixpoint joinNumbers (l : list float) : string :=
  match l with
  | [] => EmptyString
  | [x] => Number_toString x
  | x :: rest => Number_toString x ++ "," ++ joinNumbers rest
  end.

Definition layerRequest (featureServerUrl : string) (bbox : list float) : Request :=
  {| url := stripTrailingSlashes featureServerUrl ++ "/query";
     searchParams :=
       [("where", "1=1");
        ("outFields", "*");
        ("geometry", joinNumbers bbox);
        ("geometryType", "esriGeometryEnvelope");
        ("inSR", "4326");
        ("spatialRel", "esriSpatialRelIntersects");
        ("outSR", "4326");
        ("f", "geojson")] |}.

(** [featureServerUrl] is an absolute URL, as [new URL] requires. *)
Definition fetchArcGISLayerGeoJSON (network : Request -> FetchOutcome jsval)
    (featureServerUrl : string) (bbox : list float) : Async jsval :=
  r <- fetch network (layerRequest featureServerUrl bbox) ;;
  if negb (ok (fst r))
  then throw (Error ("ArcGIS layer: " ++ decimal (fst r)))
  else json (snd r).

(** ** [tryOrNull]
<<
try {
  return await promise;
} catch (e) {
  logDebug(`⚠️ ${label} ${e.message || e}`);
  return null;
}
>> *)
Definition tryOrNull (promise : Async jsval) (label : string) : Async jsval :=
  catch promise
        (fun e =>
           s <- lift (describe e) ;;
           logDebug ("⚠️ " ++ label ++ " " ++ s) ;;;
           ret null).

End Host.

(** ** A reference engine

    [Date.parse] and [Number.prototype.toString] written out, so that the
    helpers can be run on concrete responses.  The theorems below hold for
    every engine; only the worked examples use this one. *)
Module ReferenceHost.

(** *** [Date.parse] *)

(** The value of a decimal digit. *)
Definition digit (c : ascii) : option Z :=
  let n := Z.of_nat (nat_of_ascii c) in
  if ((48 <=? n) && (n <=? 57))%Z then Some (n - 48)%Z else None.

(** The number written by [len] digits at the head of [cs], and the rest. *)
Fixpoint digits (len : nat) (acc : Z) (cs : list ascii) : option (Z * list ascii) :=
  match len, cs with
  | O, _ => Some (acc, cs)
  | S len', c :: rest =>
      match digit c with
      | Some d => digits len' (10 * acc + d)%Z rest
      | None => None
      end
  | S _, [] => None
  end.

Definition expect (c : ascii) (cs : list ascii) : option (list ascii) :=
  match cs with
  | c' :: rest => if Ascii.eqb c c' then Some rest else None
  | [] => None
  end.

Definition leap (y : Z) : bool :=
  ((y mod 4 =? 0) && (negb (y mod 100 =? 0) || (y mod 400 =? 0)))%Z.

Definition daysInMonth (y m : Z) : Z :=
  (if m =? 2 then (if leap y then 29 else 28)
   else if (m =? 4) || (m =? 6) || (m =? 9) || (m =? 11) then 30 else 31)%Z.

(** Days from 1970-01-01 to the given day of the proleptic Gregorian
    calendar. *)
Definition daysFromCivil (y m d : Z) : Z :=
  (let y' := if m <=? 2 then y - 1 else y in
   let era := y' / 400 in
   let yoe := y' - era * 400 in
   let doy := (153 * (if 2 <? m then m - 3 else m + 9) + 2) / 5 + d - 1 in
   let doe := yoe * 365 + yoe / 4 - yoe / 100 + doy in
   era * 146097 + doe - 719468)%Z.

Definition bindo {A B : Type} (o : option A) (k : A -> option B) : option B :=
  match o with
  | Some a => k a
  | None => None
  end.

(** [Date.parse] on the format the API writes, [YYYY-MM-DDTHH:mm:ssZ]; any
    other string is not a date. *)
Definition Date_parse (s : string) : option Z :=
  bindo (digits 4 0%Z (list_ascii_of_string s)) (fun '(y, cs) =>
  bindo (expect "-"%char cs) (fun cs =>
  bindo (digits 2 0%Z cs) (fun '(mo, cs) =>
  bindo (expect "-"%char cs) (fun cs =>
  bindo (digits 2 0%Z cs) (fun '(d, cs) =>
  bindo (expect "T"%char cs) (fun cs =>
  bindo (digits 2 0%Z cs) (fun '(h, cs) =>
  bindo (expect ":"%char cs) (fun cs =>
  bindo (digits 2 0%Z cs) (fun '(mi, cs) =>
  bindo (expect ":"%char cs) (fun cs =>
  bindo (digits 2 0%Z cs) (fun '(sec, cs) =>
  match cs with
  | ["Z"%char] =>
      if ((1 <=? mo) && (mo <=? 12) && (1 <=? d) && (d <=? daysInMonth y mo)
          && (h <=? 23) && (mi <=? 59) && (sec <=? 59))%Z
      then Some ((((daysFromCivil y mo d * 24 + h) * 60 + mi) * 60 + sec) * 1000)%Z
      else None
  | _ => None
  end))))))))))).

(** *** [Number.prototype.toString]

    The shortest decimal numeral that reads back as the same binary64
    value, laid out as Number::toString prescribes. *)

Local Open Scope Z_scope.

(** The comparison of [x * 2^e2 * 10^e10] with [y], for integers [x] and [y]
    and exponents of either sign. *)
Definition scaled_compare (x e2 e10 y : Z) : comparison :=
  let l := x * (if 0 <=? e2 then 2 ^ e2 else 1) * (if 0 <=? e10 then 10 ^ e10 else 1) in
  let r := y * (if 0 <=? e2 then 1 else 2 ^ (- e2)) * (if 0 <=? e10 then 1 else 10 ^ (- e10)) in
  l ?= r.

(** The least [n], searched upwards from the one given, with
    [m * 2^e < 10^n]. *)
Fixpoint magnitude (fuel : nat) (m e n : Z) : Z :=
  match fuel with
  | O => n
  | S fuel' =>
      match scaled_compare m e (- n) 1 with
      | Lt => n
      | _ => magnitude fuel' m e (n + 1)
      end
  end.

(** [s * 10^p] lies in the rounding interval of [m * 2^e], which runs from
    [low * 2^(e-2)] to [high * 2^(e-2)] and holds its ends when [m] is
    even. *)
Definition rounds_to (m e s p : Z) : bool :=
  let boundary := (Z.eqb m (2 ^ 52)) && (-1074 <? e) in
  let low := if boundary then 4 * m - 1 else 4 * m - 2 in
  let high := 4 * m + 2 in
  let closed := Z.even m in
  let cl := scaled_compare low (e - 2) (- p) s in
  let ch := scaled_compare high (e - 2) (- p) s in
  (match cl with Lt => true | Eq => closed | Gt => false end)
  && (match ch with Gt => true | Eq => closed | Lt => false end).

(** The distance of [s * 10^p] to [m * 2^e] is at most that of [(s+1) * 10^p]:
    [2 * m * 2^e <= (2 s + 1) * 10^p]. *)
Definition lower_is_closer (m e s p : Z) : bool :=
  match scaled_compare (2 * m) e (- p) (2 * s + 1) with
  | Gt => false
  | _ => true
  end.

(** The shortest digits [s], an integer of [k] digits, and the exponent [n]
    with [s * 10^(n-k)] reading back as [m * 2^e]; the candidates for [k]
    digits are the floor of [m * 2^e / 10^(n-k)] and its successor. *)
Fixpoint shortest (fuel : nat) (m e n k : Z) : Z * Z :=
  let p := n - k in
  let s :=
    (m * (if 0 <=? e then 2 ^ e else 1) * (if 0 <=? p then 1 else 10 ^ (- p)))
    / ((if 0 <=? e then 1 else 2 ^ (- e)) * (if 0 <=? p then 10 ^ p else 1)) in
  let lo_ok := rounds_to m e s p in
  let hi_ok := rounds_to m e (s + 1) p in
  let pick :=
    if lo_ok && hi_ok then Some (if lower_is_closer m e s p then s else s + 1)
    else if lo_ok then Some s
    else if hi_ok then Some (s + 1)
    else None in
  match pick, fuel with
  | Some c, _ => if c =? 10 ^ k then (10 ^ (k - 1), n + 1) else (c, n)
  | None, O => (s, n)
  | None, S fuel' => shortest fuel' m e n (k + 1)
  end.

Local Close Scope Z_scope.

Fixpoint zeros (n : nat) : string :=
  match n with
  | O => EmptyString
  | S n' => String "0"%char (zeros n')
  end.

Definition point : string := ".".

(** Number::toString for a positive finite value [m * 2^e]; the search for
    its magnitude starts below the decimal logarithm of [2^(log2 m + e)]. *)
Definition positive_toString (m e : Z) : string :=
  let n0 := magnitude 8 m e ((Z.log2 m + e) * 30103 / 100000 - 1) in
  let '(s, n) := shortest 17 m e n0 1 in
  let digits := decimal s in
  let k := Z.of_nat (String.length digits) in
  if ((k <=? n) && (n <=? 21))%Z then digits ++ zeros (Z.to_nat (n - k))
  else if ((0 <? n) && (n <=? 21))%Z then
    substring 0 (Z.to_nat n) digits ++ point
    ++ substring (Z.to_nat n) (Z.to_nat (k - n)) digits
  else if ((-6 <? n) && (n <=? 0))%Z then
    "0" ++ point ++ zeros (Z.to_nat (- n)) ++ digits
  else
    let ex := (n - 1)%Z in
    let exps := (if (0 <=? ex)%Z then "+" ++ decimal ex else decimal ex) in
    if (k =? 1)%Z then digits ++ "e" ++ exps
    else substring 0 1 digits ++ point
         ++ substring 1 (Z.to_nat (k - 1)) digits ++ "e" ++ exps.

Definition Number_toString (x : float) : string :=
  match Prim2SF x with
  | S754_nan => "NaN"
  | S754_zero _ => "0"
  | S754_infinity s => if s then "-Infinity" else "Infinity"
  | S754_finite s m e =>
      (if s then "-" else EmptyString) ++ positive_toString (Zpos m) e
  end.

End ReferenceHost.

(** ** Vocabulary of the statements *)

(** No two entries of a map have the same key. *)
Fixpoint keysDistinct (m : JsMap) : Prop :=
  match m with
  | [] => True
  | (k, _) :: rest =>
      (forall k' v', In (k', v') rest -> sameValueZero k k' = false)
      /\ keysDistinct rest
  end.

(** The number of rows of [rows] whose parameter key is [key]. *)
Definition countKey (key : prim) (rows : list row) : nat :=
  length (filter (fun r => sameValueZero (paramKey r) key) rows).

(** A row without a [PARAMETER] attribute. *)
Definition lacksParameter (r : row) : bool :=
  match paramKey r with
  | PUndef => true
  | _ => false
  end.

(** What the fold of [keepLatest] maintains, [seen] being the rows folded so
    far: keys are distinct; an entry holds a row of [seen] that has the
    entry's key and, when its timestamp is valid, no row of [seen] with that
    key has a later valid timestamp; every row of [seen] finds an entry. *)
Definition keepLatest_inv (Date_parse : string -> option Z)
    (m : JsMap) (seen : list row) : Prop :=
  keysDistinct m
  /\ (forall k v, In (k, v) m ->
        sameValueZero k (paramKey v) = true
        /\ In v seen
        /\ (forall t, timestamp Date_parse v = Some t ->
             forall r t', In r seen -> sameValueZero k (paramKey r) = true ->
                          timestamp Date_parse r = Some t' -> (t' <= t)%Z))
  /\ (forall r, In r seen -> Map_get m (paramKey r) <> None).

(** The deduplication property as the specification words it: one returned
    row for each parameter key of the input, whose timestamp is at least
    that of every other input row with the key. *)
Definition dedupCorrect (Date_parse : string -> option Z)
    (rows out : list row) : Prop :=
  (forall r, In r rows -> countKey (paramKey r) out = 1)
  /\ (forall o r, In o out -> In r rows ->
                  sameValueZero (paramKey r) (paramKey o) = true -> r <> o ->
                  Date_ge (timestamp Date_parse o) (timestamp Date_parse r) = true).

(** The comparison as the specification words it: a row with a valid
    timestamp replaces a kept row of its key whose timestamp is invalid. *)
Definition invalidComparesEarlier (Date_parse : string -> option Z) : Prop :=
  forall kept r : row,
    sameValueZero (paramKey kept) (paramKey r) = true ->
    timestamp Date_parse kept = None ->
    timestamp Date_parse r <> None ->
    keepLatest Date_parse [kept; r] = [r].

(** The body a request delivers, if it delivers one: the response has a
    success status and its body parses. *)
Definition settled {B : Type} (outcome : FetchOutcome B) : option B :=
  match outcome with
  | Response status (Json value) => if ok status then Some value else None
  | _ => None
  end.

(** How an attempt settles on an outcome of its request: with the parsed
    body of a response whose status is a success, and otherwise with the
    [TypeError] of [fetch], an [Error] made of [label] and the status, or the
    [SyntaxError] of [json]. *)
Definition attempt {B : Type} (label : string) (outcome : FetchOutcome B)
  : Completion B :=
  match outcome with
  | NetworkFailure message => Throw (TypeError message)
  | Response status body =>
      if ok status
      then match body with
           | Json value => Return value
           | NotJson message => Throw (SyntaxError message)
           end
      else Throw (Error (label ++ ": " ++ decimal status))
  end.

(** The result set does not hold the requested station as its first
    entry. *)
Definition ineffective (Number_toString : float -> string)
    (stationNumber : string) (collection : FeatureCollection) : Prop :=
  match featuresOrEmpty collection with
  | [] => True
  | f :: _ => stationOf Number_toString (properties f) <> stationNumber
  end.

(** Fallback as the specification words it: a primary response that
    succeeds without holding the requested station first makes the helper
    issue the unfiltered request. *)
Definition fallbackOnIneffective (Number_toString : float -> string) : Prop :=
  forall network stationNumber w collection,
    settled (network (meta_cqlRequest stationNumber)) = Some collection ->
    ineffective Number_toString stationNumber collection ->
    In meta_unfilteredRequest
       (requests (snd (fetchHydrometricStationMeta Number_toString network
                         stationNumber w))).

(** A geometry with a pair of coordinates. *)
Definition hasCoordinatePair (f : Feature) : Prop :=
  js_truthy (geometry f) = true
  /\ exists lon lat, coordinatesOf f = JArr [lon; lat].

(** Geometry validation as the specification words it: the helper throws
    exactly when no feature is selected or the selected feature has no pair
    of coordinates. *)
Definition geometryValidated (Number_toString : float -> string) : Prop :=
  forall stationNumber collection w,
    (exists e, fst (meta_resolve Number_toString stationNumber collection w) = Throw e)
    <-> match selectFeature Number_toString (featuresOrEmpty collection) stationNumber with
        | None => True
        | Some f => ~ hasCoordinatePair f
        end.

(** Emptiness as the specification words it: when no row of the response
    matches the station, the helper returns the empty sequence. *)
Definition emptyWhenNoMatch (Date_parse : string -> option Z)
    (Number_toString : float -> string) : Prop :=
  forall network stationNumber w collection,
    settled (network (realtime_cqlRequest stationNumber)) = Some collection ->
    (forall r, In r (rowsOf collection) ->
               rowMatches Number_toString stationNumber r = false) ->
    fst (fetchHydrometricRealtimeLatest Date_parse Number_toString network
           stationNumber w) = Return [].

(** [needle] occurs in [s]. *)
Fixpoint contains (needle s : string) : bool :=
  String.prefix needle s
  || match s with
     | EmptyString => false
     | String _ rest => contains needle rest
     end.

(** An error that carries an endpoint and a status: both can be read off
    its message. *)
Definition carries (e : jsval) (endpoint : string) (status : Z) : Prop :=
  exists message,
    js_get e "message" = JPrim (PStr message)
    /\ contains endpoint message = true
    /\ contains (decimal status) message = true.

(** The layer error as the specification words it. *)
Definition layerErrorCarriesEndpoint (Number_toString : float -> string) : Prop :=
  forall network featureServerUrl bbox w status body,
    network (layerRequest Number_toString featureServerUrl bbox)
      = Response status body ->
    ok status = false ->
    exists e,
      fst (fetchArcGISLayerGeoJSON Number_toString network featureServerUrl bbox w)
        = Throw e
      /\ carries e featureServerUrl status.

(** The station identifier of a feature, as [find] reads it. *)
Definition stationIdOf (Number_toString : float -> string) (x : Feature) : string :=
  stationOf Number_toString (properties x).

(** The collection the real-time helper works on: that of the primary
    request when it delivers one, otherwise what the fallback attempt
    settles on. *)
Definition realtime_collection (network : Request -> FetchOutcome FeatureCollection)
    (stationNumber : string) : Completion FeatureCollection :=
  match settled (network (realtime_cqlRequest stationNumber)) with
  | Some c => Return c
  | None => attempt ("realtime (fallback) " ++ stationNumber)
                    (network realtime_unfilteredRequest)
  end.

(** ** Sample data *)

Definition level_undated : row :=
  [("STATION_NUMBER", PStr "05JF003"); ("PARAMETER", PStr "Level");
   ("VALUE", PNum 1.1)].

Definition level_unparsable : row :=
  [("STATION_NUMBER", PStr "05JF003"); ("PARAMETER", PStr "Level");
   ("VALUE", PNum 1.1); ("DATE", PStr "not a date")].

Definition level_0000 : row :=
  [("STATION_NUMBER", PStr "05JF003"); ("PARAMETER", PStr "Level");
   ("VALUE", PNum 1.2); ("DATE", PStr "2024-01-01T00:00:00Z")].

Definition level_0000_again : row :=
  [("STATION_NUMBER", PStr "05JF003"); ("PARAMETER", PStr "Level");
   ("VALUE", PNum 1.3); ("DATE", PStr "2024-01-01T00:00:00Z")].

Definition level_0100 : row :=
  [("STATION_NUMBER", PStr "05JF003"); ("PARAMETER", PStr "Level");
   ("VALUE", PNum 1.5); ("DATE", PStr "2024-01-01T01:00:00Z")].

Definition flow_0030 : row :=
  [("STATION_NUMBER", PStr "05JF003"); ("PARAMETER", PStr "Flow");
   ("VALUE", PNum 3.0); ("DATE", PStr "2024-01-01T00:30:00Z")].

Definition unkeyed_0000 : row :=
  [("STATION_NUMBER", PStr "05JF003"); ("VALUE", PNum 7);
   ("DATE", PStr "2024-01-01T00:00:00Z")].

Definition unkeyed_0100 : row :=
  [("STATION_NUMBER", PStr "05JF003"); ("VALUE", PNum 8);
   ("DATE", PStr "2024-01-01T01:00:00Z")].

Definition pointAt (coordinates : list jsval) : jsval :=
  JObj [("type", JPrim (PStr "Point")); ("coordinates", JArr coordinates)].

Definition station (id : string) (lon lat : float) : Feature :=
  {| properties := Some [("STATION_NUMBER", PStr id)];
     geometry := pointAt [JPrim (PNum lon); JPrim (PNum lat)] |}.

Definition station_A : Feature := station "A" (-104.1) 50.1.
Definition station_B : Feature := station "B" (-104.2) 50.2.
Definition station_C : Feature := station "C" (-104.3) 50.3.

Definition wascana : Feature :=
  {| properties := Some [("STATION_NUMBER", PStr "05JF003");
                         ("NAME", PStr "Wascana Creek")];
     geometry := pointAt [JPrim (PNum (-104.617)); JPrim (PNum 50.445)] |}.

(** A station whose point has no coordinates, and one whose point has
    three. *)
Definition station_nowhere : Feature :=
  {| properties := Some [("STATION_NUMBER", PStr "05JF003")];
     geometry := pointAt [] |}.

Definition station_elevated : Feature :=
  {| properties := Some [("STATION_NUMBER", PStr "05JF003")];
     geometry := pointAt [JPrim (PNum (-104.617)); JPrim (PNum 50.445);
                          JPrim (PNum 577)] |}.

Definition observation (r : row) : Feature :=
  {| properties := Some r; geometry := null |}.

Definition hasParam (name : string) (req : Request) : bool :=
  existsb (fun kv => String.eqb (fst kv) name) (searchParams req).

Definition collectionOf (feats : list Feature) : FeatureCollection :=
  {| features := Some feats |}.

(** A server that accepts the [filter] parameter and ignores it: the
    filtered request, limited to one result, gets the first station. *)
Definition filterIgnoringServer (req : Request) : FetchOutcome FeatureCollection :=
  if hasParam "filter" req
  then Response 200 (Json (collectionOf [station_A]))
  else Response 200 (Json (collectionOf [station_A; station_B; station_C])).

(** A server that refuses the [filter] parameter. *)
Definition filterRefusingServer (req : Request) : FetchOutcome FeatureCollection :=
  if hasParam "filter" req
  then Response 400 (Json {| features := None |})
  else Response 200 (Json (collectionOf [station_A; station_B; station_C])).

(** A server that answers every request with the given features. *)
Definition serverWith (feats : list Feature) (req : Request)
  : FetchOutcome FeatureCollection :=
  Response 200 (Json (collectionOf feats)).

(** A server that is down. *)
Definition serverDown (req : Request) : FetchOutcome FeatureCollection :=
  Response 503 (NotJson "Unexpected token < in JSON at position 0").

(** A layer server that answers every request with status 500. *)
Definition layerServerFailing (req : Request) : FetchOutcome jsval :=
  Response 500 (Json (JObj [("error", JPrim (PStr "Internal Server Error"))])).

Definition regina_bbox : list float := [-105.20; 50.20; -104.20; 50.80]%float.

(** A page with an empty [debug] element and nothing requested yet. *)
Definition freshPage : World :=
  {| requests := []; debugElement := Some EmptyString; console := [] |}.

Definition level_anonymous : row :=
  [("PARAMETER", PStr "Level"); ("VALUE", PNum 1.2);
   ("DATE", PStr "2024-01-01T00:00:00Z")].

Definition dams_endpoint : string :=
  "https://geohub.example/arcgis/rest/services/Dams/FeatureServer/0".

Definition dams_layer : jsval :=
  JObj [("type", JPrim (PStr "FeatureCollection"));
        ("features",
         JArr [JObj [("type", JPrim (PStr "Feature"));
                     ("properties", JObj [("NAME", JPrim (PStr "Wascana Dam"))]);
                     ("geometry", pointAt [JPrim (PNum (-104.6)); JPrim (PNum 50.4)])]])].

(** A layer server that answers every request with the given body. *)
Definition layerServerWith (body : jsval) (req : Request) : FetchOutcome jsval :=
  Response 200 (Json body).

(** ** Vocabulary of the further properties *)

(** No two rows of a list have the same parameter key. *)
Fixpoint distinctKeys (rows : list row) : Prop :=
  match rows with
  | [] => True
  | r :: rest =>
      (forall r', In r' rest -> sameValueZero (paramKey r) (paramKey r') = false)
      /\ distinctKeys rest
  end.

(** The keys of a list in the order they first appear. *)
Definition addKey (seen : list prim) (key : prim) : list prim :=
  if existsb (fun k => sameValueZero k key) seen then seen else (seen ++ [key])%list.

Definition firstKeys (keys : list prim) : list prim := fold_left addKey keys [].

(** The first row of a list that has the given parameter key. *)
Definition firstOfKey (key : prim) (rows : list row) : option row :=
  find (fun r => sameValueZero (paramKey r) key) rows.

(** Every row has a valid timestamp. *)
Definition allDated (Date_parse : string -> option Z) (rows : list row) : Prop :=
  forall r, In r rows -> timestamp Date_parse r <> None.

(** No row occurs twice, and no two rows of one key have the same
    timestamp. *)
Definition tieFree (Date_parse : string -> option Z) (rows : list row) : Prop :=
  NoDup rows
  /\ forall a b, In a rows -> In b rows ->
                 sameValueZero (paramKey a) (paramKey b) = true ->
                 timestamp Date_parse a = timestamp Date_parse b -> a = b.

(** What the fold of [keepLatest] maintains about the first row of each
    key, [seen] being the rows folded so far: when that row has no valid
    timestamp it is the row kept, and otherwise the row kept has a valid
    timestamp. *)
Definition keepLatest_first_inv (Date_parse : string -> option Z)
    (m : JsMap) (seen : list row) : Prop :=
  forall k v, In (k, v) m ->
    exists f, firstOfKey k seen = Some f
              /\ (timestamp Date_parse f = None -> v = f)
              /\ (timestamp Date_parse f <> None -> timestamp Date_parse v <> None).

(** ** The first data.js: [fetchHydrometricRealtime]

    The helper the page started with: one request filtered by a
    [STATION_NUMBER] parameter, and the deduplication written with
    [Map.prototype.has]. *)
Module First.

(** [byParam.has(key)] *)
Definition Map_has (m : JsMap) (key : prim) : bool :=
  existsb (fun e => sameValueZero (fst e) key) m.

(** The record [{ station, latest }]. *)
Record Realtime : Type := {
  station : string;
  latest : list row
}.

Definition realtimeRequest (stationNumber : string) : Request :=
  {| url := "https://api.weather.gc.ca/collections/hydrometric-realtime/items";
     searchParams :=
       [("STATION_NUMBER", stationNumber); ("limit", "5000"); ("f", "json")] |}.

Section Host.

Variable Date_parse : string -> option Z.

(** One turn of the loop; [None] is the [TypeError] of reading [DATE] from
    an [undefined] [prev].
<<
const key = r.PARAMETER;
if (!byParam.has(key)) { byParam.set(key, r); continue; }
const prev = byParam.get(key);
if (new Date(r.DATE) > new Date(prev.DATE)) byParam.set(key, r);
>> *)
Definition keepLatest_step (byParam : JsMap) (r : row) : option JsMap :=
  let key := get r "PARAMETER" in
  if negb (Map_has byParam key) then Some (Map_set byParam key r)
  else
    match Map_get byParam key with
    | None => None
    | Some prev =>
        if Date_gt (newDate Date_parse (get r "DATE"))
                   (newDate Date_parse (get prev "DATE"))
        then Some (Map_set byParam key r)
        else Some byParam
    end.

Fixpoint keepLatest_loop (rows : list row) (byParam : JsMap) : option JsMap :=
  match rows with
  | [] => Some byParam
  | r :: rest =>
      match keepLatest_step byParam r with
      | Some byParam' => keepLatest_loop rest byParam'
      | None => None
      end
  end.

Local Open Scope async_scope.

Definition fetchHydrometricRealtime
    (network : Request -> FetchOutcome FeatureCollection)
    (stationNumber : string) : Async Realtime :=
  resp <- fetch network (realtimeRequest stationNumber) ;;
  if negb (ok (fst resp))
  then throw (Error ("WSC fetch failed: " ++ decimal (fst resp)))
  else
    collection <- json (snd resp) ;;
    match keepLatest_loop (rowsOf collection) [] with
    | Some byParam =>
        ret {| station := stationNumber; latest := Map_values byParam |}
    | None =>
        throw (TypeError "Cannot read properties of undefined (reading 'DATE')")
    end.

End Host.

End First.

(** ** The data.js before the fallback

    The station helpers as they were before the CQL filter and the
    unfiltered fallback: one request filtered by a [STATION_NUMBER]
    parameter, the first feature taken as the station, no local filter. *)
Module Earlier.

Definition metaRequest (stationNumber : string) : Request :=
  {| url := OGC_BASE ++ "/hydrometric-stations/items";
     searchParams :=
       [("STATION_NUMBER", stationNumber); ("f", "json"); ("limit", "1")] |}.

Definition realtimeRequest (stationNumber : string) : Request :=
  {| url := OGC_BASE ++ "/hydrometric-realtime/items";
     searchParams :=
       [("STATION_NUMBER", stationNumber); ("f", "json"); ("limit", "5000")] |}.

Section Host.

Variable Date_parse : string -> option Z.
Variable network : Request -> FetchOutcome FeatureCollection.

Local Open Scope async_scope.

(** [const f = (json.features || [])[0];] and the geometry check of the
    later helper. *)
Definition fetchHydrometricStationMeta (stationNumber : string)
  : Async StationMeta :=
  r <- fetch network (metaRequest stationNumber) ;;
  if negb (ok (fst r))
  then throw (Error ("stations meta " ++ stationNumber ++ ": " ++ decimal (fst r)))
  else
    collection <- json (snd r) ;;
    match nth_error (featuresOrEmpty collection) 0 with
    | None => throw (noGeometry stationNumber)
    | Some f =>
        if negb (js_truthy (geometry f)) || negb (isArray (coordinatesOf f))
        then throw (noGeometry stationNumber)
        else
          ret {| lat := index (coordinatesOf f) 1;
                 lon := index (coordinatesOf f) 0;
                 props := propertiesOrEmpty f |}
    end.

Definition fetchHydrometricRealtimeLatest (stationNumber : string)
  : Async (list row) :=
  r <- fetch network (realtimeRequest stationNumber) ;;
  if negb (ok (fst r))
  then throw (Error ("realtime " ++ stationNumber ++ ": " ++ decimal (fst r)))
  else
    collection <- json (snd r) ;;
    ret (keepLatest Date_parse (rowsOf collection)).

End Host.

End Earlier.

(** ** What a helper settles on *)

(** The collection the station helper works on: that of the primary request
    when it delivers one, otherwise what the fallback attempt settles on. *)
Definition meta_collection (network : Request -> FetchOutcome FeatureCollection)
    (stationNumber : string) : Completion FeatureCollection :=
  match settled (network (meta_cqlRequest stationNumber)) with
  | Some c => Return c
  | None => attempt ("stations meta (fallback) " ++ stationNumber)
                    (network meta_unfilteredRequest)
  end.

(** The record [{ lat, lon, props }] made of a feature. *)
Definition recordOf (f : Feature) : StationMeta :=
  {| lat := index (coordinatesOf f) 1;
     lon := index (coordinatesOf f) 0;
     props := propertiesOrEmpty f |}.

(** A feature the station helper accepts: its geometry is truthy and has an
    array of coordinates. *)
Definition located (f : Feature) : bool :=
  js_truthy (geometry f) && isArray (coordinatesOf f).

(** What [fetchHydrometricStationMeta] settles on, read off the answers of
    the network. *)
Definition metaOutcome (Number_toString : float -> string)
    (network : Request -> FetchOutcome FeatureCollection)
    (stationNumber : string) : Completion StationMeta :=
  match meta_collection network stationNumber with
  | Throw e => Throw e
  | Return c =>
      match selectFeature Number_toString (featuresOrEmpty c) stationNumber with
      | Some f => if located f then Return (recordOf f)
                  else Throw (noGeometry stationNumber)
      | None => Throw (noGeometry stationNumber)
      end
  end.

(** What [fetchHydrometricRealtimeLatest] settles on. *)
Definition realtimeOutcome (Date_parse : string -> option Z)
    (Number_toString : float -> string)
    (network : Request -> FetchOutcome FeatureCollection)
    (stationNumber : string) : Completion (list row) :=
  match realtime_collection network stationNumber with
  | Throw e => Throw e
  | Return c => Return (keepLatest Date_parse
                          (localRows Number_toString stationNumber (rowsOf c)))
  end.

(** [tryOrNull] on a promise whose value is not a [jsval] of this file:
    [null] is [None].
<<
try {
  return await promise;
} catch (e) {
  logDebug(`⚠️ ${label} ${e.message || e}`);
  return null;
}
>> *)
Definition tryOrNullAt {A : Type} (Number_toString : float -> string)
    (promise : Async A) (label : string) : Async (option A) :=
  catch (bind promise (fun v => ret (Some v)))
        (fun e =>
           bind (lift (describe Number_toString e))
                (fun s => bind (logDebug ("⚠️ " ++ label ++ " " ++ s))
                               (fun _ => ret None))).

(** A promise that is rejected, in whatever world it runs, is rejected with
    an error object. *)
Definition rejectsWithErrors {A : Type} (promise : Async A) : Prop :=
  forall w e, fst (promise w) = Throw e -> exists name message, e = JError name message.

(** The text a debug panel receives for a list of lines. *)
Fixpoint panelText (msgs : list string) : string :=
  match msgs with
  | [] => EmptyString
  | msg :: rest => msg ++ newline ++ panelText rest
  end.

(** The world [w'] is the world [w] with more requests and more lines: the
    lines went to the console and, when the page has a debug panel, to the
    panel as well. *)
Definition extends_with (w w' : World) (reqs : list Request) (msgs : list string)
  : Prop :=
  requests w' = (requests w ++ reqs)%list
  /\ console w' = (console w ++ msgs)%list
  /\ debugElement w'
     = match debugElement w with
       | Some text => Some (text ++ panelText msgs)
       | None => None
       end.

Definition extends (w w' : World) : Prop :=
  exists reqs msgs, extends_with w w' reqs msgs.

(** A call that only adds requests and lines, whatever it settles on. *)
Definition appends {A : Type} (m : Async A) : Prop :=
  forall w, extends w (snd (m w)).

(** ** Trailing slashes *)

(** A run of [n] slashes. *)
Definition slashes (n : nat) : string := string_of_list_ascii (repeat "/"%char n).

(** ** main.js: the stations and the layers on the map

    The part of the script that calls the helpers: the loop over
    [CONFIG.wscStations], the loop over [CONFIG.wsaLayers] and the last
    line.  What Leaflet draws is the host's; the script is followed as far as
    what it hands to Leaflet: the markers put on the layer of the stations
    and the collections put on the map. *)
Module Main.

(** [s.split('/')] *)
Fixpoint split (s : string) : list string :=
  match s with
  | EmptyString => [EmptyString]
  | String c rest =>
      if Ascii.eqb c "/"
      then EmptyString :: split rest
      else match split rest with
           | first :: others => String c first :: others
           | [] => [String c EmptyString]
           end
  end.

(** [l.slice(-n)] *)
Definition slice_last {A : Type} (n : nat) (l : list A) : list A :=
  skipn (length l - n) l.

(** [l.join('/')] *)
Definition join (l : list string) : string := String.concat "/" l.

(** The double quote. *)
Definition dq : string := String "034"%char EmptyString.

(** [L.marker([lat, lon], { title }).bindPopup(html)] *)
Record Marker : Type := {
  position : jsval * jsval;
  title : string;
  popup : string
}.

(** [L.geoJSON(geojson, ...)], with the name its popups show. *)
Record Overlay : Type := {
  name : string;
  data : jsval
}.

(** The page the script runs in: the world of the helpers, the markers of
    [hydroLayer] and the collections added to the map. *)
Record Page : Type := {
  world : World;
  hydroLayer : list Marker;
  mapLayers : list Overlay
}.

Definition Script (A : Type) : Type := Page -> Completion A * Page.

Definition ret {A : Type} (a : A) : Script A := fun p => (Return a, p).

Definition bind {A B : Type} (m : Script A) (k : A -> Script B) : Script B :=
  fun p =>
    match m p with
    | (Return a, p') => k a p'
    | (Throw e, p') => (Throw e, p')
    end.

Definition onWorld (p : Page) (w : World) : Page :=
  {| world := w; hydroLayer := hydroLayer p; mapLayers := mapLayers p |}.

(** The page [p'] is the page [p] with more on it: nothing of the world is
    lost, and the markers and the layers of [p] are still there, before the
    new ones. *)
Definition grown (p p' : Page) : Prop :=
  extends (world p) (world p')
  /\ (exists markers, hydroLayer p' = (hydroLayer p ++ markers)%list)
  /\ (exists layers, mapLayers p' = (mapLayers p ++ layers)%list).

(** [await] a call of data.js. *)
Definition await {A : Type} (m : Async A) : Script A :=
  fun p => (fst (m (world p)), onWorld p (snd (m (world p)))).

Declare Scope script_scope.
Delimit Scope script_scope with script.
Notation "x <- m ;; k" := (bind m (fun x => k))
  (at level 61, m at next level, right associativity) : script_scope.
Notation "m ;;; k" := (bind m (fun _ => k))
  (at level 61, right associativity) : script_scope.

(** [url.split('/').slice(-3).join('/')] *)
Definition layerName (url : string) : string := join (slice_last 3 (split url)).

(** [!!v.length], for a [v] that is not [undefined] or [null]. *)
Definition hasLength (v : jsval) : bool :=
  match v with
  | JArr elems => negb (Nat.eqb (length elems) 0)
  | JPrim (PStr s) => negb (String.eqb s EmptyString)
  | JObj members => js_truthy (js_lookup members "length")
  | _ => false
  end.

(** The negation of
    [!geojson || !geojson.features || !geojson.features.length]. *)
Definition hasFeatures (geojson : jsval) : bool :=
  js_truthy geojson
  && js_truthy (js_get geojson "features")
  && hasLength (js_get geojson "features").

Section Host.

(** What the engine and Leaflet supply: [Date.parse],
    [Number.prototype.toString], [Date.prototype.toLocaleString] on a valid
    date, what [L.marker] throws for a pair of coordinates and what
    [L.geoJSON(...).addTo(map)] throws for a collection ([None] when they
    throw nothing). *)
Variable Date_parse : string -> option Z.
Variable Number_toString : float -> string.
Variable Date_toLocaleString : Z -> string.
Variable L_marker : jsval -> jsval -> option jsval.
Variable L_geoJSON : jsval -> option jsval.

(** The OGC API and the layer servers, as they answer each request. *)
Variable network : Request -> FetchOutcome FeatureCollection.
Variable layerNetwork : Request -> FetchOutcome jsval.

(** [CONFIG.bbox] *)
Variable bbox : list float.

(** [${v ?? ''}] *)
Definition orEmpty (v : prim) : string :=
  match v with
  | PUndef | PNull => EmptyString
  | _ => prim_toString Number_toString v
  end.

(** [new Date(v).toLocaleString()] *)
Definition localTime (v : prim) : string :=
  match newDate Date_parse v with
  | Some t => Date_toLocaleString t
  | None => "Invalid Date"
  end.

(** One row of the table of a popup. *)
Definition tableRow (r : row) : string :=
  "<tr><td>" ++ prim_toString Number_toString (get r "PARAMETER")
  ++ "</td><td>" ++ orEmpty (get r "VALUE") ++ " " ++ orEmpty (get r "UNIT")
  ++ "</td><td>" ++ localTime (get r "DATE") ++ "</td></tr>".

(** [table]: the latest values, when there are any. *)
Definition popupTable (latest : option (list row)) : string :=
  match latest with
  | Some ((_ :: _) as rows) =>
      "<table style=" ++ dq ++ "width:100%; font-size:12px" ++ dq ++ ">" ++ newline
      ++ "        <thead><tr><th>Param</th><th>Value</th><th>Time</th></tr></thead><tbody>"
      ++ String.concat EmptyString (map tableRow rows)
      ++ "</tbody></table>"
  | _ => "<em>No recent values</em>"
  end.

(** [html] *)
Definition popupHtml (stn : string) (latest : option (list row)) : string :=
  newline
  ++ "      <div style=" ++ dq ++ "min-width:240px" ++ dq ++ ">" ++ newline
  ++ "        <h4 style=" ++ dq ++ "margin:0 0 6px" ++ dq ++ ">WSC " ++ stn ++ "</h4>"
  ++ newline
  ++ "        " ++ popupTable latest ++ newline
  ++ "        <small>Source: ECCC OGC (hydrometric-stations / hydrometric-realtime)</small>"
  ++ newline
  ++ "      </div>".

(** [L.marker(...).bindPopup(html).addTo(hydroLayer)] *)
Definition addMarker (m : Marker) : Script unit :=
  fun p =>
    match L_marker (fst (position m)) (snd (position m)) with
    | Some e => (Throw e, p)
    | None =>
        (Return tt,
         {| world := world p;
            hydroLayer := (hydroLayer p ++ [m])%list;
            mapLayers := mapLayers p |})
    end.

(** [L.geoJSON(geojson, ...).addTo(map)] *)
Definition addGeoJSON (layer : Overlay) : Script unit :=
  fun p =>
    match L_geoJSON (data layer) with
    | Some e => (Throw e, p)
    | None =>
        (Return tt,
         {| world := world p;
            hydroLayer := hydroLayer p;
            mapLayers := (mapLayers p ++ [layer])%list |})
    end.

Local Open Scope script_scope.

(** [for (const stn of CONFIG.wscStations) { ... }] *)
Fixpoint stationLoop (stations : list string) : Script unit :=
  match stations with
  | [] => ret tt
  | stn :: rest =>
      await (logDebug ("⏳ Loading station " ++ stn ++ " meta…")) ;;;
      meta <- await (tryOrNullAt Number_toString
                       (fetchHydrometricStationMeta Number_toString network stn)
                       ("station meta " ++ stn ++ ":")) ;;
      match meta with
      | None => stationLoop rest
      | Some meta =>
          await (logDebug ("⏳ Loading station " ++ stn ++ " realtime…")) ;;;
          latest <- await (tryOrNullAt Number_toString
                             (fetchHydrometricRealtimeLatest Date_parse
                                Number_toString network stn)
                             ("realtime " ++ stn ++ ":")) ;;
          addMarker {| position := (lat meta, lon meta);
                       title := "WSC " ++ stn;
                       popup := popupHtml stn latest |} ;;;
          stationLoop rest
      end
  end.

(** [for (const url of CONFIG.wsaLayers) { ... }]; the entries are absolute
    URLs or empty. *)
Fixpoint layerLoop (urls : list string) : Script unit :=
  match urls with
  | [] => ret tt
  | url :: rest =>
      if String.eqb url EmptyString then layerLoop rest
      else
        await (logDebug ("⏳ Loading WSA layer: " ++ url)) ;;;
        geojson <- await (tryOrNull Number_toString
                            (fetchArcGISLayerGeoJSON Number_toString layerNetwork
                               url bbox)
                            ("WSA layer " ++ url ++ ":")) ;;
        if negb (hasFeatures geojson)
        then await (logDebug ("(no features) " ++ url)) ;;; layerLoop rest
        else
          addGeoJSON {| name := layerName url; data := geojson |} ;;;
          layerLoop rest
  end.

(** The stations, the layers and the last line of the script. *)
Definition loadData (stations urls : list string) : Script unit :=
  stationLoop stations ;;;
  layerLoop urls ;;;
  await (logDebug "✅ Finished loading").

End Host.

End Main.

(** ** Sample hosts of the script *)

(** A Leaflet that takes every marker, and one that refuses a marker whose
    latitude or longitude is not a number. *)
Definition Leaflet_accepting (lat lon : jsval) : option jsval := None.

Definition Leaflet_strict (lat lon : jsval) : option jsval :=
  match lat, lon with
  | JPrim (PNum _), JPrim (PNum _) => None
  | _, _ => Some (Error "Invalid LatLng object")
  end.

(** A Leaflet that takes every collection, and one that refuses them
    all. *)
Definition geoJSON_accepting (geojson : jsval) : option jsval := None.

Definition geoJSON_refusing (geojson : jsval) : option jsval :=
  Some (Error "Invalid GeoJSON object.").

(** A locale that prints a date as its time value. *)
Definition sample_toLocaleString (t : Z) : string := decimal t.

(** A page with an empty debug panel and an empty map. *)
Definition emptyMap : Main.Page :=
  {| Main.world := freshPage; Main.hydroLayer := []; Main.mapLayers := [] |}.

(** ** Reading the station identifier *)

(** The station-identifier attribute of a feature:
    [x.properties?.STATION_NUMBER]. *)
Definition idAttribute (x : Feature) : prim :=
  match properties x with
  | Some r => get r "STATION_NUMBER"
  | None => PUndef
  end.

(** Selection as the specification words it: the first feature whose
    identifier attribute, coerced to string, is the requested one, and the
    first feature when there is none. *)
Definition selectsByCoercion (Number_toString : float -> string) : Prop :=
  forall feats stationNumber,
    selectFeature Number_toString feats stationNumber
    = match find (fun x => String.eqb (prim_toString Number_toString (idAttribute x))
                                      stationNumber) feats with
      | Some x => Some x
      | None => nth_error feats 0
      end.

(** An identifier attribute that is a falsy number or [false]: [0], [-0],
    [NaN] and [false]. *)
Definition falsyIdentifier (v : prim) : bool :=
  match v with
  | PNum _ | PBool _ => negb (truthy v)
  | _ => false
  end.

(** The identifier as the amended statement reads it: the empty string
    when the attribute is absent or [null], its string form otherwise. *)
Definition identifierText (Number_toString : float -> string) (x : Feature) : string :=
  match idAttribute x with
  | PUndef | PNull => EmptyString
  | v => prim_toString Number_toString v
  end.

(** What the helper makes of a feature it has selected. *)
Definition recordOrNoGeometry (stationNumber : string) (f : Feature)
  : Completion StationMeta :=
  if located f then Return (recordOf f) else Throw (noGeometry stationNumber).

(** A station whose identifier is the number 0, and one without an
    identifier. *)
Definition station_zero : Feature :=
  {| properties := Some [("STATION_NUMBER", PNum 0)];
     geometry := pointAt [JPrim (PNum (-104.4)); JPrim (PNum 50.4)] |}.

Definition station_anonymous : Feature :=
  {| properties := Some [("NAME", PStr "Unnamed gauge")];
     geometry := pointAt [JPrim (PNum (-104.5)); JPrim (PNum 50.5)] |}.

(** * Properties *)

(** ** SameValueZero is an equivalence *)

Lemma Number_sameValueZero_refl (x : float) : Number_sameValueZero x x = true.
Proof.
  unfold Number_sameValueZero.
  destruct (Prim2SF x) as [s|s| |s m e]; simpl; auto.
  - apply eqb_reflx.
  - now rewrite eqb_reflx, Pos.eqb_refl, Z.eqb_refl.
Qed.

Lemma Number_sameValueZero_sym (x y : float) :
  Number_sameValueZero x y = Number_sameValueZero y x.
Proof.
  unfold Number_sameValueZero.
  destruct (Prim2SF x) as [s|s| |s m e], (Prim2SF y) as [s'|s'| |s' m' e'];
    simpl; auto.
  - destruct s, s'; reflexivity.
  - now rewrite (Pos.eqb_sym m), (Z.eqb_sym e); destruct s, s'.
Qed.

Lemma Number_sameValueZero_trans (x y z : float) :
  Number_sameValueZero x y = true -> Number_sameValueZero y z = true ->
  Number_sameValueZero x z = true.
Proof.
  unfold Number_sameValueZero.
  destruct (Prim2SF x) as [s|s| |s m e], (Prim2SF y) as [s'|s'| |s' m' e'];
    simpl; try discriminate;
    destruct (Prim2SF z) as [s''|s''| |s'' m'' e'']; simpl; try discriminate; auto.
  - intros H1 H2. apply eqb_prop in H1, H2. subst. apply eqb_reflx.
  - intros H1 H2.
    apply andb_prop in H1 as [H1 He]. apply andb_prop in H1 as [Hs Hm].
    apply andb_prop in H2 as [H2 He']. apply andb_prop in H2 as [Hs' Hm'].
    apply eqb_prop in Hs, Hs'. apply Pos.eqb_eq in Hm, Hm'.
    apply Z.eqb_eq in He, He'. subst.
    now rewrite eqb_reflx, Pos.eqb_refl, Z.eqb_refl.
Qed.

Lemma sameValueZero_refl (a : prim) : sameValueZero a a = true.
Proof.
  destruct a; simpl; auto.
  - apply eqb_reflx.
  - apply Number_sameValueZero_refl.
  - apply String.eqb_refl.
Qed.

Lemma sameValueZero_sym (a b : prim) : sameValueZero a b = sameValueZero b a.
Proof.
  destruct a, b; simpl; auto.
  - destruct b, b0; reflexivity.
  - apply Number_sameValueZero_sym.
  - apply String.eqb_sym.
Qed.

Lemma sameValueZero_trans (a b c : prim) :
  sameValueZero a b = true -> sameValueZero b c = true -> sameValueZero a c = true.
Proof.
  destruct a, b; simpl; try discriminate; destruct c; simpl; try discriminate; auto.
  - intros H1 H2. apply eqb_prop in H1, H2. subst. apply eqb_reflx.
  - apply Number_sameValueZero_trans.
  - intros H1 H2. apply String.eqb_eq in H1, H2. subst. apply String.eqb_refl.
Qed.

(** Two keys that are the same as a third agree on every other key. *)
Lemma sameValueZero_congr (a b c : prim) :
  sameValueZero a b = true -> sameValueZero a c = sameValueZero b c.
Proof.
  intros Hab.
  destruct (sameValueZero b c) eqn:Hbc.
  - eapply sameValueZero_trans; eauto.
  - destruct (sameValueZero a c) eqn:Hac; auto.
    rewrite sameValueZero_sym in Hab.
    rewrite <- Hbc. symmetry. eapply sameValueZero_trans; eauto.
Qed.

Lemma sameValueZero_undefined (a : prim) :
  sameValueZero a PUndef = true <-> a = PUndef.
Proof.
  destruct a; simpl; split; intros H; try discriminate; auto.
Qed.

(** ** Map *)

Lemma Map_get_congr (m : JsMap) (a b : prim) :
  sameValueZero a b = true -> Map_get m a = Map_get m b.
Proof.
  intros Hab. induction m as [|[k v] rest IH]; simpl; auto.
  rewrite (sameValueZero_sym k a), (sameValueZero_sym k b).
  rewrite (sameValueZero_congr _ _ k Hab), IH. reflexivity.
Qed.

Lemma Map_get_None (m : JsMap) (key : prim) :
  Map_get m key = None <->
  (forall k v, In (k, v) m -> sameValueZero k key = false).
Proof.
  induction m as [|[k v] rest IH]; simpl.
  - split; auto. intros _ k v [].
  - destruct (sameValueZero k key) eqn:E.
    + split; [discriminate|]. intros H.
      specialize (H k v (or_introl eq_refl)). congruence.
    + rewrite IH. split.
      * intros H k' v' [Heq|Hin]; [congruence|eauto].
      * eauto.
Qed.

Lemma Map_get_In (m : JsMap) (key : prim) (v : row) :
  Map_get m key = Some v ->
  exists k, In (k, v) m /\ sameValueZero k key = true.
Proof.
  induction m as [|[k x] rest IH]; simpl; [discriminate|].
  destruct (sameValueZero k key) eqn:E.
  - intros [= ->]. eauto.
  - intros H. destruct (IH H) as (k' & Hin & Hk). eauto.
Qed.

Lemma Map_get_unique (m : JsMap) (k key : prim) (v : row) :
  keysDistinct m -> In (k, v) m -> sameValueZero k key = true ->
  Map_get m key = Some v.
Proof.
  induction m as [|[k0 x] rest IH]; simpl; [intros _ []|].
  intros [Hfresh Hrest] [Heq|Hin] Hk.
  - injection Heq as -> ->. now rewrite Hk.
  - destruct (sameValueZero k0 key) eqn:E; [|eauto].
    exfalso. specialize (Hfresh _ _ Hin).
    rewrite (sameValueZero_congr k0 key k E), sameValueZero_sym in Hfresh.
    congruence.
Qed.

Lemma Map_set_In (m : JsMap) (key : prim) (v : row) (k : prim) (x : row) :
  keysDistinct m -> In (k, x) (Map_set m key v) ->
  (In (k, x) m /\ sameValueZero k key = false)
  \/ (x = v /\ sameValueZero k key = true).
Proof.
  induction m as [|[k0 x0] rest IH]; simpl.
  - intros _ [[= <- <-]|[]]. right. split; auto. apply sameValueZero_refl.
  - intros [Hfresh Hrest].
    destruct (sameValueZero k0 key) eqn:E; simpl.
    + intros [[= <- <-]|Hin]; [right; auto|].
      left. split; auto.
      specialize (Hfresh _ _ Hin).
      now rewrite (sameValueZero_congr k0 key k E), sameValueZero_sym in Hfresh.
    + intros [[= <- <-]|Hin]; [left; auto|].
      destruct (IH Hrest Hin) as [[H1 H2]|[H1 H2]]; auto.
Qed.

Lemma Map_set_distinct (m : JsMap) (key : prim) (v : row) :
  keysDistinct m -> keysDistinct (Map_set m key v).
Proof.
  induction m as [|[k0 x0] rest IH]; simpl.
  - intros _. split; auto. intros k' v' [].
  - intros [Hfresh Hrest].
    destruct (sameValueZero k0 key) eqn:E; simpl; [split; auto|].
    split; auto.
    intros k' v' Hin.
    destruct (Map_set_In _ _ _ _ _ Hrest Hin) as [[H1 _]|[_ H2]]; eauto.
    destruct (sameValueZero k0 k') eqn:E'; auto.
    rewrite sameValueZero_sym in H2.
    rewrite <- E. symmetry. eapply sameValueZero_trans; eauto.
    now rewrite sameValueZero_sym.
Qed.

Lemma Map_get_set (m : JsMap) (key : prim) (v : row) (key' : prim) :
  Map_get (Map_set m key v) key'
  = if sameValueZero key key' then Some v else Map_get m key'.
Proof.
  induction m as [|[k0 x0] rest IH]; simpl.
  - reflexivity.
  - destruct (sameValueZero k0 key) eqn:E; simpl.
    + rewrite (sameValueZero_congr k0 key key' E).
      now destruct (sameValueZero key key').
    + rewrite IH.
      destruct (sameValueZero k0 key') eqn:E'; auto.
      destruct (sameValueZero key key') eqn:E''; auto.
      exfalso. rewrite sameValueZero_sym in E''.
      rewrite (sameValueZero_trans _ _ _ E' E'') in E. discriminate.
Qed.

(** A key that is present labels exactly one entry. *)
Lemma Map_count_one (m : JsMap) (key : prim) :
  keysDistinct m -> Map_get m key <> None ->
  length (filter (fun e => sameValueZero (fst e) key) m) = 1.
Proof.
  induction m as [|[k0 x0] rest IH]; simpl; [congruence|].
  intros [Hfresh Hrest].
  destruct (sameValueZero k0 key) eqn:E; simpl.
  - intros _. f_equal.
    assert (Hnone : forall e, In e rest -> sameValueZero (fst e) key = false).
    { intros [k x] Hin. simpl. specialize (Hfresh _ _ Hin).
      now rewrite (sameValueZero_congr k0 key k E), sameValueZero_sym in Hfresh. }
    clear -Hnone. induction rest as [|e rest IH]; simpl; auto.
    rewrite (Hnone e) by now left. apply IH. intros; apply Hnone; now right.
  - auto.
Qed.

(** ** The fold of [keepLatest] *)

Section KeepLatest.

Variable Date_parse : string -> option Z.

Local Abbreviation ts := (timestamp Date_parse).
Local Abbreviation step := (keepLatest_step Date_parse).
Local Abbreviation inv := (keepLatest_inv Date_parse).

Lemma Date_gt_true (a b : option Z) :
  Date_gt a b = true <-> exists x y, a = Some x /\ b = Some y /\ (y < x)%Z.
Proof.
  destruct a as [x|], b as [y|]; simpl; split;
    try discriminate; try (intros (x' & y' & H1 & H2 & _); discriminate).
  - intros H. apply Z.ltb_lt in H. eauto.
  - intros (x' & y' & [= <-] & [= <-] & H). now apply Z.ltb_lt.
Qed.

Lemma Date_gt_false (x y : Z) : Date_gt (Some x) (Some y) = false -> (x <= y)%Z.
Proof. simpl. intros H. apply Z.ltb_ge in H. exact H. Qed.

(** Storing a row under its own key. *)
Lemma keepLatest_inv_set (m : JsMap) (seen : list row) (x : row) :
  inv m seen ->
  (forall prev, Map_get m (paramKey x) = Some prev ->
                Date_gt (ts x) (ts prev) = true) ->
  inv (Map_set m (paramKey x) x) (seen ++ [x])%list.
Proof.
  intros (Hd & Hent & Hpres) Hgt.
  split; [now apply Map_set_distinct|]. split.
  - intros k v Hin.
    destruct (Map_set_In _ _ _ _ _ Hd Hin) as [[Hold Hk]|[-> Hk]].
    + destruct (Hent _ _ Hold) as (Hkv & Hseen & Hmax).
      split; [exact Hkv|]. split; [apply in_or_app; now left|].
      intros t Ht r t' Hr Hkr Ht'.
      apply in_app_or in Hr as [Hr|[<-|[]]]; [eauto|congruence].
    + split; [exact Hk|]. split; [apply in_or_app; right; now left|].
      intros t Ht r t' Hr Hkr Ht'.
      apply in_app_or in Hr as [Hr|[<-|[]]]; [|assert (t' = t) by congruence; lia].
      assert (Hsame : sameValueZero (paramKey x) (paramKey r) = true).
      { rewrite sameValueZero_sym in Hk. eapply sameValueZero_trans; eauto. }
      destruct (Map_get m (paramKey x)) as [prev|] eqn:Hget.
      * specialize (Hgt prev eq_refl).
        apply Date_gt_true in Hgt as (tx & tp & Hx & Hp & Hlt).
        destruct (Map_get_In _ _ Hget) as (k0 & Hin0 & Hk0).
        destruct (Hent _ _ Hin0) as (_ & _ & Hmax).
        assert (t' <= tp)%Z.
        { apply (Hmax tp Hp r t' Hr); auto.
          eapply sameValueZero_trans; eauto. }
        assert (tx = t) by congruence. lia.
      * exfalso. apply (Hpres r Hr).
        now rewrite <- (Map_get_congr m _ _ Hsame).
  - intros r Hr. rewrite Map_get_set.
    destruct (sameValueZero (paramKey x) (paramKey r)) eqn:E; [discriminate|].
    apply in_app_or in Hr as [Hr|[<-|[]]]; [auto|].
    now rewrite sameValueZero_refl in E.
Qed.

(** Leaving the map as it is, the row met not being later than the one
    kept. *)
Lemma keepLatest_inv_skip (m : JsMap) (seen : list row) (x prev : row) :
  inv m seen ->
  Map_get m (paramKey x) = Some prev ->
  Date_gt (ts x) (ts prev) = false ->
  inv m (seen ++ [x])%list.
Proof.
  intros (Hd & Hent & Hpres) Hget Hgt.
  split; [exact Hd|]. split.
  - intros k v Hin.
    destruct (Hent _ _ Hin) as (Hkv & Hseen & Hmax).
    split; [exact Hkv|]. split; [apply in_or_app; now left|].
    intros t Ht r t' Hr Hkr Ht'.
    apply in_app_or in Hr as [Hr|[<-|[]]]; [eauto|].
    rewrite (Map_get_unique _ _ _ _ Hd Hin Hkr) in Hget.
    injection Hget as <-.
    rewrite Ht, Ht' in Hgt. now apply Date_gt_false.
  - intros r Hr.
    apply in_app_or in Hr as [Hr|[<-|[]]]; [auto|congruence].
Qed.

Lemma keepLatest_step_inv (m : JsMap) (seen : list row) (x : row) :
  inv m seen -> inv (step m x) (seen ++ [x])%list.
Proof.
  intros Hinv. unfold keepLatest_step.
  fold (paramKey x). fold (ts x).
  destruct (Map_get m (paramKey x)) as [prev|] eqn:Hget.
  - fold (ts prev).
    destruct (Date_gt (ts x) (ts prev)) eqn:Hgt.
    + apply keepLatest_inv_set; auto.
      intros p Hp. rewrite Hget in Hp. injection Hp as <-. exact Hgt.
    + eapply keepLatest_inv_skip; eauto.
  - apply keepLatest_inv_set; auto.
    intros p Hp. rewrite Hget in Hp. discriminate.
Qed.

Lemma keepLatest_fold_inv (rows : list row) (m : JsMap) (seen : list row) :
  inv m seen -> inv (keepLatest_fold Date_parse rows m) (seen ++ rows)%list.
Proof.
  revert m seen. induction rows as [|x rows IH]; intros m seen Hinv; simpl.
  - now rewrite app_nil_r.
  - replace (seen ++ x :: rows)%list with ((seen ++ [x]) ++ rows)%list
      by (now rewrite <- app_assoc).
    apply IH. now apply keepLatest_step_inv.
Qed.

Lemma keepLatest_inv_final (rows : list row) :
  inv (keepLatest_fold Date_parse rows []) rows.
Proof.
  apply (keepLatest_fold_inv rows (m := []) (seen := [])).
  split; [exact I|]. split; [intros k v []|intros r []].
Qed.

End KeepLatest.

(** ** Dates *)

Example TimeClip_samples :
  TimeClip 1704067200000 = Some 1704067200000%Z
  /\ TimeClip 1.5 = Some 1%Z
  /\ TimeClip (-1.5) = Some (-1)%Z
  /\ TimeClip (-0) = Some 0%Z
  /\ TimeClip 8.64e15 = Some maxTime
  /\ TimeClip 8.640000000000002e15 = None
  /\ TimeClip nan = None
  /\ TimeClip infinity = None.
Proof. repeat split; vm_compute; reflexivity. Qed.

Example Date_parse_samples :
  ReferenceHost.Date_parse "1970-01-01T00:00:00Z" = Some 0%Z
  /\ ReferenceHost.Date_parse "2024-01-01T00:00:00Z" = Some 1704067200000%Z
  /\ ReferenceHost.Date_parse "2024-01-01T01:00:00Z" = Some 1704070800000%Z
  /\ ReferenceHost.Date_parse "not a date" = None.
Proof. repeat split; vm_compute; reflexivity. Qed.

Example Number_toString_samples :
  map ReferenceHost.Number_toString
      [50.445; -104.617; 0.1; 1e21; 123456789; 0.000001; 1e-7; 5e-324;
       1.7976931348623157e308; 0.30000000000000004; 9007199254740992; -0]%float
  = ["50.445"; "-104.617"; "0.1"; "1e+21"; "123456789"; "0.000001"; "1e-7";
     "5e-324"; "1.7976931348623157e+308"; "0.30000000000000004";
     "9007199254740992"; "0"].
Proof. vm_compute. reflexivity. Qed.

(** ** Deduplication: latest observation per parameter *)

(** Scenario B of the specification: two Level rows and a Flow row give the
    later Level row and the Flow row, in the order the keys were met. *)
Example keepLatest_scenario_B :
  keepLatest ReferenceHost.Date_parse [level_0000; level_0100; flow_0030]
  = [level_0100; flow_0030].
Proof. vm_compute. reflexivity. Qed.

Lemma countKey_values (m : JsMap) (key : prim) :
  (forall k v, In (k, v) m -> sameValueZero k (paramKey v) = true) ->
  countKey key (Map_values m)
  = length (filter (fun e => sameValueZero (fst e) key) m).
Proof.
  unfold countKey, Map_values.
  induction m as [|[k v] rest IH]; simpl; intros H; auto.
  rewrite <- (sameValueZero_congr k (paramKey v) key) by (apply H; now left).
  destruct (sameValueZero k key); simpl; rewrite IH; auto.
Qed.

Lemma Map_values_In (m : JsMap) (v : row) :
  In v (Map_values m) -> exists k, In (k, v) m.
Proof.
  unfold Map_values. intros H. apply in_map_iff in H as ([k x] & Hx & Hin).
  simpl in Hx. subst. eauto.
Qed.

Lemma keepLatest_countKey (Date_parse : string -> option Z) (rows : list row) :
  forall r, In r rows -> countKey (paramKey r) (keepLatest Date_parse rows) = 1.
Proof.
  destruct (keepLatest_inv_final Date_parse rows) as (Hd & Hent & Hpres).
  intros r Hr. unfold keepLatest.
  rewrite countKey_values by (intros k v H; now apply Hent).
  apply Map_count_one; auto.
Qed.

Lemma keepLatest_In (Date_parse : string -> option Z) (rows : list row) :
  forall o, In o (keepLatest Date_parse rows) -> In o rows.
Proof.
  destruct (keepLatest_inv_final Date_parse rows) as (Hd & Hent & Hpres).
  intros o Ho. apply Map_values_In in Ho as (k & Hin).
  now destruct (Hent _ _ Hin) as (_ & Hseen & _).
Qed.

Lemma keepLatest_latest_valid (Date_parse : string -> option Z)
    (rows : list row) (o : row) :
  In o (keepLatest Date_parse rows) ->
  (forall r, In r rows -> sameValueZero (paramKey r) (paramKey o) = true ->
             timestamp Date_parse r <> None) ->
  forall r, In r rows -> sameValueZero (paramKey r) (paramKey o) = true ->
            Date_ge (timestamp Date_parse o) (timestamp Date_parse r) = true.
Proof.
  destruct (keepLatest_inv_final Date_parse rows) as (Hd & Hent & Hpres).
  intros Ho Hvalid r Hr Hsame.
  apply Map_values_In in Ho as (k & Hin).
  destruct (Hent _ _ Hin) as (Hk & Hseen & Hmax).
  destruct (timestamp Date_parse o) as [t|] eqn:Ht.
  - destruct (timestamp Date_parse r) as [t'|] eqn:Ht'.
    + simpl. apply Z.leb_le. apply (Hmax t eq_refl r t' Hr); auto.
      rewrite sameValueZero_sym in Hsame. eapply sameValueZero_trans; eauto.
    + exfalso. now apply (Hvalid r Hr Hsame).
  - exfalso. apply (Hvalid o Hseen); auto. apply sameValueZero_refl.
Qed.

Lemma firstOfKey_congr (a b : prim) (rows : list row) :
  sameValueZero a b = true -> firstOfKey a rows = firstOfKey b rows.
Proof.
  intros Hab. unfold firstOfKey. induction rows as [|r rows IH]; simpl; auto.
  rewrite IH, (sameValueZero_sym _ a), (sameValueZero_sym _ b).
  now rewrite (sameValueZero_congr _ _ (paramKey r) Hab).
Qed.

Lemma firstOfKey_app (key : prim) (seen : list row) (x : row) :
  firstOfKey key (seen ++ [x])
  = match firstOfKey key seen with
    | Some f => Some f
    | None => if sameValueZero (paramKey x) key then Some x else None
    end.
Proof.
  unfold firstOfKey. induction seen as [|r seen IH]; simpl; auto.
  destruct (sameValueZero (paramKey r) key); auto.
Qed.

Lemma firstOfKey_In (key : prim) (rows : list row) (f : row) :
  firstOfKey key rows = Some f ->
  In f rows /\ sameValueZero (paramKey f) key = true.
Proof. apply find_some. Qed.

Lemma keepLatest_step_first (Date_parse : string -> option Z)
    (m : JsMap) (seen : list row) (x : row) :
  keepLatest_inv Date_parse m seen ->
  keepLatest_first_inv Date_parse m seen ->
  keepLatest_first_inv Date_parse (keepLatest_step Date_parse m x) (seen ++ [x]).
Proof.
  intros (Hd & Hent & Hpres) Hfirst.
  assert (Hold : forall k v, In (k, v) m ->
            exists f, firstOfKey k (seen ++ [x]) = Some f
                      /\ (timestamp Date_parse f = None -> v = f)
                      /\ (timestamp Date_parse f <> None ->
                          timestamp Date_parse v <> None)).
  { intros k v Hin. destruct (Hfirst k v Hin) as (f & Hf & H1 & H2).
    exists f. rewrite firstOfKey_app, Hf. auto. }
  unfold keepLatest_step. fold (paramKey x). fold (timestamp Date_parse x).
  destruct (Map_get m (paramKey x)) as [prev|] eqn:Hget.
  - fold (timestamp Date_parse prev).
    destruct (Date_gt (timestamp Date_parse x) (timestamp Date_parse prev)) eqn:Hgt;
      [|exact Hold].
    intros k v Hin.
    destruct (Map_set_In _ _ _ _ _ Hd Hin) as [[Hin' _]|[-> Hk]]; [now apply Hold|].
    apply Date_gt_true in Hgt as (tx & tp & Hx & Hp & _).
    destruct (Map_get_In _ _ Hget) as (k0 & Hin0 & Hk0).
    destruct (Hfirst k0 prev Hin0) as (f & Hf & H1 & H2).
    exists f. split; [|split].
    + rewrite firstOfKey_app.
      rewrite (firstOfKey_congr k k0), Hf; auto.
      rewrite sameValueZero_sym in Hk0. eapply sameValueZero_trans; eauto.
    + intros Hnone. specialize (H1 Hnone). subst f. congruence.
    + intros _. congruence.
  - intros k v Hin.
    destruct (Map_set_In _ _ _ _ _ Hd Hin) as [[Hin' _]|[-> Hk]]; [now apply Hold|].
    exists x. split; [|split; auto].
    rewrite firstOfKey_app.
    destruct (firstOfKey k seen) as [f|] eqn:Hf.
    + exfalso. apply firstOfKey_In in Hf as [Hseen Hfk].
      apply (Hpres f Hseen).
      rewrite (Map_get_congr m (paramKey f) (paramKey x)); auto.
      eapply sameValueZero_trans; eauto.
    + now rewrite sameValueZero_sym, Hk.
Qed.

Lemma keepLatest_fold_first (Date_parse : string -> option Z)
    (rows : list row) (m : JsMap) (seen : list row) :
  keepLatest_inv Date_parse m seen ->
  keepLatest_first_inv Date_parse m seen ->
  keepLatest_first_inv Date_parse (keepLatest_fold Date_parse rows m) (seen ++ rows).
Proof.
  revert m seen. induction rows as [|x rows IH]; intros m seen Hinv Hfirst; simpl.
  - now rewrite app_nil_r.
  - replace (seen ++ x :: rows)%list with ((seen ++ [x]) ++ rows)%list
      by (now rewrite <- app_assoc).
    apply IH.
    + now apply keepLatest_step_inv.
    + now apply keepLatest_step_first.
Qed.

(** The first input row of a key decides whether the row returned for the
    key has a valid timestamp. *)
Lemma keepLatest_first_row (Date_parse : string -> option Z)
    (rows : list row) (o : row) :
  In o (keepLatest Date_parse rows) ->
  exists f,
    firstOfKey (paramKey o) rows = Some f
    /\ (timestamp Date_parse f = None -> o = f)
    /\ (timestamp Date_parse f <> None -> timestamp Date_parse o <> None).
Proof.
  intros Ho. apply Map_values_In in Ho as (k & Hin).
  destruct (keepLatest_inv_final Date_parse rows) as (_ & Hent & _).
  destruct (Hent _ _ Hin) as (Hk & _).
  assert (Hfirst : keepLatest_first_inv Date_parse
                     (keepLatest_fold Date_parse rows []) rows).
  { apply (@keepLatest_fold_first Date_parse rows [] []).
    - split; [exact I|]. split; [intros ? ? []|intros ? []].
    - intros ? ? []. }
  destruct (Hfirst k o Hin) as (f & Hf & H1 & H2).
  exists f. rewrite <- (firstOfKey_congr k (paramKey o)); auto.
Qed.

(** A returned row with a valid timestamp is at least as late as every
    input row of its key that has a valid timestamp. *)
Lemma keepLatest_latest_of_valid (Date_parse : string -> option Z)
    (rows : list row) (o r : row) :
  In o (keepLatest Date_parse rows) ->
  timestamp Date_parse o <> None ->
  In r rows -> sameValueZero (paramKey r) (paramKey o) = true ->
  timestamp Date_parse r <> None ->
  Date_ge (timestamp Date_parse o) (timestamp Date_parse r) = true.
Proof.
  destruct (keepLatest_inv_final Date_parse rows) as (Hd & Hent & Hpres).
  intros Ho Hvo Hr Hsame Hvr.
  apply Map_values_In in Ho as (k & Hin).
  destruct (Hent _ _ Hin) as (Hk & Hseen & Hmax).
  destruct (timestamp Date_parse o) as [t|] eqn:Ht; [|congruence].
  destruct (timestamp Date_parse r) as [t'|] eqn:Ht'; [|congruence].
  simpl. apply Z.leb_le. apply (Hmax t eq_refl r t' Hr); auto.
  rewrite sameValueZero_sym in Hsame. eapply sameValueZero_trans; eauto.
Qed.

(** C1 (amended): the deduplication pass returns exactly one row for each
    parameter key of its input, and every returned row is a row of the
    input.  The row returned for a key has a valid timestamp whenever the
    first input row with that key has one; and a returned row with a valid
    timestamp has a timestamp greater than or equal to that of every input
    row with its key that has a valid timestamp.  What is left out is the
    key whose first input row has no valid timestamp: that row is the one
    returned, whatever follows. *)
Theorem keepLatest_one_row_per_key (Date_parse : string -> option Z)
    (rows : list row) :
  let out := keepLatest Date_parse rows in
  (forall r, In r rows -> countKey (paramKey r) out = 1)
  /\ (forall o, In o out -> In o rows)
  /\ (forall o f, In o out ->
        firstOfKey (paramKey o) rows = Some f ->
        timestamp Date_parse f <> None ->
        timestamp Date_parse o <> None)
  /\ (forall o, In o out ->
        timestamp Date_parse o <> None ->
        forall r, In r rows -> sameValueZero (paramKey r) (paramKey o) = true ->
                  timestamp Date_parse r <> None ->
                  Date_ge (timestamp Date_parse o) (timestamp Date_parse r) = true).
Proof.
  intros out. split; [|split; [|split]].
  - apply keepLatest_countKey.
  - apply keepLatest_In.
  - intros o f Ho Hf Hvalid.
    destruct (keepLatest_first_row Date_parse rows o Ho) as (f' & Hf' & _ & Hdecides).
    rewrite Hf in Hf'. injection Hf' as <-. auto.
  - intros o Ho Hvo r Hr Hsame Hvr.
    now apply keepLatest_latest_of_valid with (rows := rows).
Qed.

(** The amended C1 on a Level row, a Level row whose date does not parse and
    a later Level row: the later row is the one returned, its timestamp is
    valid and it is at least that of the first row. *)
Lemma keepLatest_one_row_per_key_witness :
  let rows := [level_0000; level_unparsable; level_0100] in
  let out := keepLatest ReferenceHost.Date_parse rows in
  countKey (PStr "Level") out = 1
  /\ In level_0100 rows
  /\ timestamp ReferenceHost.Date_parse level_0100 <> None
  /\ Date_ge (timestamp ReferenceHost.Date_parse level_0100)
             (timestamp ReferenceHost.Date_parse level_0000) = true.
Proof.
  intros rows out.
  destruct (keepLatest_one_row_per_key ReferenceHost.Date_parse rows)
    as (Hone & Hsub & Hvalid & Hlatest).
  assert (Hout : In level_0100 out) by (vm_compute; auto).
  assert (Hv : timestamp ReferenceHost.Date_parse level_0100 <> None).
  { apply (Hvalid level_0100 level_0000 Hout).
    - vm_compute. reflexivity.
    - vm_compute. discriminate. }
  split; [|split; [|split]].
  - apply (Hone level_0000). simpl. auto.
  - apply Hsub. exact Hout.
  - exact Hv.
  - apply (Hlatest level_0100 Hout Hv).
    + simpl. auto.
    + vm_compute. reflexivity.
    + vm_compute. discriminate.
Defined.

(** C1 (counterexample): a Level row without a date followed by a dated
    Level row.  The undated row is the one returned, and its timestamp is
    not greater than or equal to that of the dated row. *)
Lemma keepLatest_undated_first_not_latest :
  keepLatest ReferenceHost.Date_parse [level_undated; level_0000] = [level_undated]
  /\ ~ dedupCorrect ReferenceHost.Date_parse [level_undated; level_0000]
         (keepLatest ReferenceHost.Date_parse [level_undated; level_0000]).
Proof.
  split; [vm_compute; reflexivity|].
  intros [_ H].
  specialize (H level_undated level_0000).
  assert (Date_ge (timestamp ReferenceHost.Date_parse level_undated)
                  (timestamp ReferenceHost.Date_parse level_0000) = true) as Hge.
  { apply H.
    - vm_compute. auto.
    - simpl. auto.
    - vm_compute. reflexivity.
    - discriminate. }
  vm_compute in Hge. discriminate.
Qed.

(** Rows without a PARAMETER attribute share one entry, which holds the
    latest of them. *)
Example keepLatest_unkeyed :
  keepLatest ReferenceHost.Date_parse
    [unkeyed_0000; level_0000; unkeyed_0100; flow_0030]
  = [unkeyed_0100; level_0000; flow_0030].
Proof. vm_compute. reflexivity. Qed.

(** ** The timestamp comparison *)

(** A comparison with an invalid date is false, whichever side it is on. *)
Lemma Date_gt_invalid (a b : option Z) :
  a = None \/ b = None -> Date_gt a b = false.
Proof. intros [-> | ->]; [|destruct a]; reflexivity. Qed.

(** C3 (amended): in the comparison of the fold, a row whose timestamp is
    invalid or unparsable never compares as later than another row, so it
    never replaces the row already kept for its parameter key; and the
    comparison has an answer for every pair of timestamp strings. *)
Theorem invalid_timestamp_never_later (Date_parse : string -> option Z) :
  (forall (r kept : row),
     timestamp Date_parse r = None ->
     Date_gt (timestamp Date_parse r) (timestamp Date_parse kept) = false)
  /\ (forall (byParam : JsMap) (r kept : row),
        Map_get byParam (paramKey r) = Some kept ->
        timestamp Date_parse r = None ->
        keepLatest_step Date_parse byParam r = byParam)
  /\ (forall a b : string,
        exists later : bool,
          Date_gt (newDate Date_parse (PStr a)) (newDate Date_parse (PStr b)) = later).
Proof.
  assert (Hfalse : forall r kept : row,
             timestamp Date_parse r = None ->
             Date_gt (timestamp Date_parse r) (timestamp Date_parse kept) = false).
  { intros r kept Hinvalid. apply Date_gt_invalid. now left. }
  split; [exact Hfalse|split].
  - intros byParam r kept Hget Hinvalid.
    unfold keepLatest_step. fold (paramKey r). rewrite Hget.
    fold (timestamp Date_parse r). fold (timestamp Date_parse kept).
    now rewrite Hfalse.
  - intros a b. eexists. reflexivity.
Qed.

(** The amended C3 on a row whose date does not parse, met after a dated
    row of its key. *)
Lemma invalid_timestamp_never_later_witness :
  Date_gt (timestamp ReferenceHost.Date_parse level_unparsable)
          (timestamp ReferenceHost.Date_parse level_0000) = false
  /\ keepLatest_step ReferenceHost.Date_parse
       [(PStr "Level", level_0000)] level_unparsable
     = [(PStr "Level", level_0000)].
Proof.
  destruct (invalid_timestamp_never_later ReferenceHost.Date_parse)
    as (Hfalse & Hstep & _).
  split.
  - apply Hfalse. reflexivity.
  - apply (Hstep [(PStr "Level", level_0000)] level_unparsable level_0000).
    + reflexivity.
    + reflexivity.
Defined.

(** C3 (counterexample): a kept Level row whose date does not parse is
    followed by a Level row with a valid date; the valid row does not
    replace it. *)
Lemma valid_row_does_not_replace_invalid :
  timestamp ReferenceHost.Date_parse level_unparsable = None
  /\ timestamp ReferenceHost.Date_parse level_0000 = Some 1704067200000%Z
  /\ keepLatest ReferenceHost.Date_parse [level_unparsable; level_0000]
     = [level_unparsable]
  /\ ~ invalidComparesEarlier ReferenceHost.Date_parse.
Proof.
  split; [reflexivity|]. split; [vm_compute; reflexivity|].
  split; [vm_compute; reflexivity|].
  intros H.
  specialize (H level_unparsable level_0000).
  assert (keepLatest ReferenceHost.Date_parse [level_unparsable; level_0000]
          = [level_0000]) as Heq.
  { apply H.
    - vm_compute. reflexivity.
    - reflexivity.
    - vm_compute. discriminate. }
  vm_compute in Heq. discriminate.
Qed.

(** A row that ties with a row folded before it, for the same key, is not
    later than the row kept for the key. *)
Lemma tie_not_later (Date_parse : string -> option Z)
    (before : list row) (first later : row) :
  In first before ->
  sameValueZero (paramKey first) (paramKey later) = true ->
  timestamp Date_parse first = timestamp Date_parse later ->
  exists kept,
    Map_get (keepLatest_fold Date_parse before []) (paramKey later) = Some kept
    /\ Date_gt (timestamp Date_parse later) (timestamp Date_parse kept) = false.
Proof.
  intros Hin Hkey Hts.
  destruct (keepLatest_inv_final Date_parse before) as (Hd & Hent & Hpres).
  specialize (Hpres first Hin).
  rewrite (Map_get_congr _ _ _ Hkey) in Hpres.
  destruct (Map_get _ (paramKey later)) as [kept|] eqn:Hget; [|congruence].
  exists kept. split; [reflexivity|].
  destruct (timestamp Date_parse later) as [t|] eqn:Ht; [|reflexivity].
  destruct (timestamp Date_parse kept) as [tk|] eqn:Htk; [|reflexivity].
  simpl. apply Z.ltb_ge.
  destruct (Map_get_In _ _ Hget) as (k & Hk & Hklater).
  destruct (Hent _ _ Hk) as (_ & _ & Hmax).
  apply (Hmax tk Htk first t Hin); auto.
  rewrite sameValueZero_sym in Hkey. eapply sameValueZero_trans; eauto.
Qed.

Lemma keepLatest_step_skip (Date_parse : string -> option Z)
    (byParam : JsMap) (r kept : row) :
  Map_get byParam (paramKey r) = Some kept ->
  Date_gt (timestamp Date_parse r) (timestamp Date_parse kept) = false ->
  keepLatest_step Date_parse byParam r = byParam.
Proof.
  intros Hget Hgt. unfold keepLatest_step. fold (paramKey r). rewrite Hget.
  fold (timestamp Date_parse r). fold (timestamp Date_parse kept).
  now rewrite Hgt.
Qed.

(** C6: a row that has the same parameter key and the same parsed timestamp
    as a row folded before it leaves the map as it is, so the later-folded
    row of a tie is dropped; of two rows that tie, the first is the one
    returned. *)
Theorem keepLatest_tie_keeps_first (Date_parse : string -> option Z) :
  (forall (before : list row) (first later : row),
     In first before ->
     sameValueZero (paramKey first) (paramKey later) = true ->
     timestamp Date_parse first = timestamp Date_parse later ->
     keepLatest_fold Date_parse (before ++ [later]) []
     = keepLatest_fold Date_parse before []
     /\ keepLatest Date_parse (before ++ [later]) = keepLatest Date_parse before)
  /\ (forall first later : row,
        sameValueZero (paramKey first) (paramKey later) = true ->
        timestamp Date_parse first = timestamp Date_parse later ->
        keepLatest Date_parse [first; later] = [first]).
Proof.
  assert (Hfold : forall before first later,
             In first before ->
             sameValueZero (paramKey first) (paramKey later) = true ->
             timestamp Date_parse first = timestamp Date_parse later ->
             keepLatest_fold Date_parse (before ++ [later]) []
             = keepLatest_fold Date_parse before []).
  { intros before first later Hin Hkey Hts.
    destruct (tie_not_later Date_parse before first later Hin Hkey Hts)
      as (kept & Hget & Hgt).
    unfold keepLatest_fold. rewrite fold_left_app. simpl.
    now apply keepLatest_step_skip with (kept := kept). }
  split.
  - intros before first later Hin Hkey Hts. split; [eauto|].
    unfold keepLatest. f_equal. eauto.
  - intros first later Hkey Hts. unfold keepLatest.
    change [first; later] with ([first] ++ [later])%list.
    rewrite (Hfold [first] first later); auto. now left.
Qed.

(** C6 on two Level rows with the same date: the first is kept. *)
Lemma keepLatest_tie_keeps_first_witness :
  keepLatest ReferenceHost.Date_parse [level_0000; level_0000_again]
  = [level_0000].
Proof.
  destruct (keepLatest_tie_keeps_first ReferenceHost.Date_parse) as (_ & Htwo).
  apply Htwo.
  - reflexivity.
  - reflexivity.
Defined.

(** Every row kept by the fold is one of the rows it was given, unchanged;
    the rows without a PARAMETER attribute share the one key [undefined],
    and together give exactly one kept row when there is any such row, none
    otherwise. *)
Lemma keepLatest_rows_from_input (Date_parse : string -> option Z)
    (rows : list row) :
  (forall o, In o (keepLatest Date_parse rows) -> In o rows)
  /\ (forall k v, In (k, v) (keepLatest_fold Date_parse rows []) ->
                  lacksParameter v = true -> k = PUndef)
  /\ length (filter lacksParameter (keepLatest Date_parse rows))
     = (if existsb lacksParameter rows then 1 else 0).
Proof.
  pose proof (keepLatest_countKey Date_parse rows) as Hone.
  pose proof (keepLatest_In Date_parse rows) as Hsub.
  destruct (keepLatest_inv_final Date_parse rows) as (_ & Hent & _).
  assert (Hlacks : forall r, lacksParameter r = sameValueZero (paramKey r) PUndef).
  { intros r. unfold lacksParameter. now destruct (paramKey r). }
  split; [exact Hsub|]. split.
  - intros k v Hin Hv. destruct (Hent _ _ Hin) as (Hk & _).
    rewrite Hlacks in Hv. apply sameValueZero_undefined.
    eapply sameValueZero_trans; eauto.
  - rewrite (filter_ext _ _ Hlacks).
    destruct (existsb lacksParameter rows) eqn:E.
    + apply existsb_exists in E as (r & Hr & Hl).
      rewrite Hlacks in Hl. apply sameValueZero_undefined in Hl.
      specialize (Hone r Hr). rewrite Hl in Hone. exact Hone.
    + assert (Hnone : forall o, In o (keepLatest Date_parse rows) ->
                                sameValueZero (paramKey o) PUndef = false).
      { intros o Ho. rewrite <- Hlacks.
        destruct (lacksParameter o) eqn:El; auto.
        assert (existsb lacksParameter rows = true) as Hex
            by (apply existsb_exists; exists o; auto).
        congruence. }
      clear Hone Hsub Hent.
      induction (keepLatest Date_parse rows) as [|o out IH]; simpl; auto.
      rewrite (Hnone o) by now left. apply IH.
      intros o' Ho'. apply Hnone. now right.
Qed.

(** ** Running a request *)

(** The shape shared by [tryCql], [tryUnfiltered] and the layer request:
    fetch, throw on a status that is not a success, parse the body. *)
Lemma fetch_then_json {B : Type} (network : Request -> FetchOutcome B)
    (req : Request) (label : string) (w : World) :
  bind (fetch network req)
       (fun r => if negb (ok (fst r))
                 then throw (Error (label ++ ": " ++ decimal (fst r)))
                 else json (snd r)) w
  = (attempt label (network req), issued w req).
Proof.
  unfold bind, fetch, attempt.
  destruct (network req) as [message|status [value|message]]; simpl; auto;
    destruct (ok status); reflexivity.
Qed.

Lemma attempt_settled {B : Type} (label : string) (outcome : FetchOutcome B)
    (value : B) :
  settled outcome = Some value -> attempt label outcome = Return value.
Proof.
  unfold settled, attempt.
  destruct outcome as [message|status [v|message]]; try discriminate.
  destruct (ok status); [|discriminate]. now intros [= ->].
Qed.

(** An attempt that delivers no body fails with an error object. *)
Lemma attempt_failed {B : Type} (label : string) (outcome : FetchOutcome B) :
  settled outcome = None ->
  exists name message, attempt label outcome = Throw (JError name message).
Proof.
  unfold settled, attempt, Error, TypeError, SyntaxError.
  destruct outcome as [message|status [value|message]]; simpl; eauto;
    destruct (ok status); try discriminate; eauto.
Qed.

Section Running.

Variable Number_toString : float -> string.
Variable network : Request -> FetchOutcome FeatureCollection.

Lemma meta_tryCql_run (stationNumber : string) (w : World) :
  meta_tryCql network stationNumber w
  = (attempt ("stations meta " ++ stationNumber)
             (network (meta_cqlRequest stationNumber)),
     issued w (meta_cqlRequest stationNumber)).
Proof.
  exact (fetch_then_json network (meta_cqlRequest stationNumber)
           ("stations meta " ++ stationNumber) w).
Qed.

Lemma meta_tryUnfiltered_run (stationNumber : string) (w : World) :
  meta_tryUnfiltered network stationNumber w
  = (attempt ("stations meta (fallback) " ++ stationNumber)
             (network meta_unfilteredRequest),
     issued w meta_unfilteredRequest).
Proof.
  exact (fetch_then_json network meta_unfilteredRequest
           ("stations meta (fallback) " ++ stationNumber) w).
Qed.

Lemma realtime_tryCql_run (stationNumber : string) (w : World) :
  realtime_tryCql network stationNumber w
  = (attempt ("realtime " ++ stationNumber)
             (network (realtime_cqlRequest stationNumber)),
     issued w (realtime_cqlRequest stationNumber)).
Proof.
  exact (fetch_then_json network (realtime_cqlRequest stationNumber)
           ("realtime " ++ stationNumber) w).
Qed.

Lemma realtime_tryUnfiltered_run (stationNumber : string) (w : World) :
  realtime_tryUnfiltered network stationNumber w
  = (attempt ("realtime (fallback) " ++ stationNumber)
             (network realtime_unfilteredRequest),
     issued w realtime_unfilteredRequest).
Proof.
  exact (fetch_then_json network realtime_unfilteredRequest
           ("realtime (fallback) " ++ stationNumber) w).
Qed.

(** An error object can always be described. *)
Lemma describe_error (name message : string) :
  exists s, describe Number_toString (JError name message) = Return s.
Proof.
  unfold describe. simpl.
  destruct (String.eqb message EmptyString); simpl; eauto.
Qed.

End Running.

(** ** Primary query and fallback *)

Section Fallback.

Variable Date_parse : string -> option Z.
Variable Number_toString : float -> string.
Variable network : Request -> FetchOutcome FeatureCollection.

Local Abbreviation stationMeta := (fetchHydrometricStationMeta Number_toString network).
Local Abbreviation realtimeLatest :=
  (fetchHydrometricRealtimeLatest Date_parse Number_toString network).

Lemma meta_resolve_requests (stationNumber : string) (c : FeatureCollection)
    (w : World) :
  requests (snd (meta_resolve Number_toString stationNumber c w)) = requests w.
Proof.
  unfold meta_resolve, bind, logDebug, throw, ret.
  destruct (selectFeature _ _ _) as [f|]; simpl; auto.
  destruct (negb _ || negb _); reflexivity.
Qed.

Lemma realtime_resolve_requests (stationNumber : string) (c : FeatureCollection)
    (w : World) :
  requests (snd (realtime_resolve Date_parse Number_toString stationNumber c w))
  = requests w.
Proof.
  unfold realtime_resolve, bind, logDebug, ret.
  destruct (keepsAll _); reflexivity.
Qed.

(** When the primary request delivers a collection, that collection is the
    one resolved, and nothing else is requested. *)
Lemma stationMeta_primary (stationNumber : string) (w : World)
    (c : FeatureCollection) :
  settled (network (meta_cqlRequest stationNumber)) = Some c ->
  stationMeta stationNumber w
  = meta_resolve Number_toString stationNumber c
      (issued w (meta_cqlRequest stationNumber)).
Proof.
  intros H. unfold fetchHydrometricStationMeta, bind, catch.
  now rewrite meta_tryCql_run, (attempt_settled _ _ H).
Qed.

(** When it does not, the failure is logged and the unfiltered request is
    made; its collection is the one resolved, and its failure is the
    helper's failure. *)
Lemma stationMeta_fallback (stationNumber : string) (w : World) :
  settled (network (meta_cqlRequest stationNumber)) = None ->
  exists s,
    let w' := issued (logged (issued w (meta_cqlRequest stationNumber))
                             ("⚠️ stations CQL failed: " ++ s))
                     meta_unfilteredRequest in
    stationMeta stationNumber w
    = match attempt ("stations meta (fallback) " ++ stationNumber)
                    (network meta_unfilteredRequest) with
      | Return c => meta_resolve Number_toString stationNumber c w'
      | Throw e => (Throw e, w')
      end.
Proof.
  intros H.
  destruct (attempt_failed ("stations meta " ++ stationNumber) _ H)
    as (name & message & Hfailed).
  destruct (describe_error Number_toString name message) as (s & Hs).
  exists s. unfold fetchHydrometricStationMeta, bind at 1, catch.
  rewrite meta_tryCql_run, Hfailed.
  unfold bind at 1, lift. rewrite Hs.
  unfold bind at 1, logDebug. rewrite meta_tryUnfiltered_run.
  destruct (attempt _ (network meta_unfilteredRequest)); reflexivity.
Qed.

Lemma realtimeLatest_primary (stationNumber : string) (w : World)
    (c : FeatureCollection) :
  settled (network (realtime_cqlRequest stationNumber)) = Some c ->
  realtimeLatest stationNumber w
  = realtime_resolve Date_parse Number_toString stationNumber c
      (issued w (realtime_cqlRequest stationNumber)).
Proof.
  intros H. unfold fetchHydrometricRealtimeLatest, bind, catch.
  now rewrite realtime_tryCql_run, (attempt_settled _ _ H).
Qed.

Lemma realtimeLatest_fallback (stationNumber : string) (w : World) :
  settled (network (realtime_cqlRequest stationNumber)) = None ->
  exists s,
    let w' := issued (logged (issued w (realtime_cqlRequest stationNumber))
                             ("⚠️ realtime CQL failed: " ++ s))
                     realtime_unfilteredRequest in
    realtimeLatest stationNumber w
    = match attempt ("realtime (fallback) " ++ stationNumber)
                    (network realtime_unfilteredRequest) with
      | Return c => realtime_resolve Date_parse Number_toString stationNumber c w'
      | Throw e => (Throw e, w')
      end.
Proof.
  intros H.
  destruct (attempt_failed ("realtime " ++ stationNumber) _ H)
    as (name & message & Hfailed).
  destruct (describe_error Number_toString name message) as (s & Hs).
  exists s. unfold fetchHydrometricRealtimeLatest, bind at 1, catch.
  rewrite realtime_tryCql_run, Hfailed.
  unfold bind at 1, lift. rewrite Hs.
  unfold bind at 1, logDebug. rewrite realtime_tryUnfiltered_run.
  destruct (attempt _ (network realtime_unfilteredRequest)); reflexivity.
Qed.

(** The requests of the two station helpers: the unfiltered request is made
    when the primary attempt fails (the request cannot be made, the status
    is not a success, or the body does not parse), and it is not made when
    the primary response is a success, whatever its result set holds. *)
Lemma fallback_only_when_primary_fails (stationNumber : string) (w : World) :
  (forall c, settled (network (meta_cqlRequest stationNumber)) = Some c ->
     stationMeta stationNumber w
     = meta_resolve Number_toString stationNumber c
         (issued w (meta_cqlRequest stationNumber))
     /\ requests (snd (stationMeta stationNumber w))
        = (requests w ++ [meta_cqlRequest stationNumber])%list)
  /\ (settled (network (meta_cqlRequest stationNumber)) = None ->
      requests (snd (stationMeta stationNumber w))
      = (requests w ++ [meta_cqlRequest stationNumber; meta_unfilteredRequest])%list)
  /\ (forall c, settled (network (realtime_cqlRequest stationNumber)) = Some c ->
      requests (snd (realtimeLatest stationNumber w))
      = (requests w ++ [realtime_cqlRequest stationNumber])%list)
  /\ (settled (network (realtime_cqlRequest stationNumber)) = None ->
      requests (snd (realtimeLatest stationNumber w))
      = (requests w ++ [realtime_cqlRequest stationNumber;
                        realtime_unfilteredRequest])%list).
Proof.
  split; [|split; [|split]].
  - intros c H. rewrite (stationMeta_primary _ _ H). split; [reflexivity|].
    now rewrite meta_resolve_requests.
  - intros H. destruct (stationMeta_fallback stationNumber w H) as (s & ->).
    destruct (attempt _ (network meta_unfilteredRequest)).
    + rewrite meta_resolve_requests. simpl. now rewrite <- app_assoc.
    + simpl. now rewrite <- app_assoc.
  - intros c H. rewrite (realtimeLatest_primary _ _ H).
    now rewrite realtime_resolve_requests.
  - intros H. destruct (realtimeLatest_fallback stationNumber w H) as (s & ->).
    destruct (attempt _ (network realtime_unfilteredRequest)).
    + rewrite realtime_resolve_requests. simpl. now rewrite <- app_assoc.
    + simpl. now rewrite <- app_assoc.
Qed.

End Fallback.

(** The requests made on a server that refuses the filter and on one that
    ignores it. *)
Lemma fallback_only_when_primary_fails_witness :
  requests (snd (fetchHydrometricStationMeta ReferenceHost.Number_toString
                   filterRefusingServer "B" freshPage))
  = [meta_cqlRequest "B"; meta_unfilteredRequest]
  /\ requests (snd (fetchHydrometricStationMeta ReferenceHost.Number_toString
                      filterIgnoringServer "B" freshPage))
     = [meta_cqlRequest "B"].
Proof.
  destruct (fallback_only_when_primary_fails ReferenceHost.Date_parse
              ReferenceHost.Number_toString filterRefusingServer "B" freshPage)
    as (_ & Hfails & _).
  destruct (fallback_only_when_primary_fails ReferenceHost.Date_parse
              ReferenceHost.Number_toString filterIgnoringServer "B" freshPage)
    as (Hsucceeds & _).
  split.
  - apply Hfails. reflexivity.
  - apply (Hsucceeds (collectionOf [station_A])). reflexivity.
Defined.

(** The run of the helper on a server that ignores the filter and answers
    the request for station B with station A: the response is a success
    that does not hold B, yet the only request made is the filtered one, and
    the record returned is that of A. *)
Lemma ineffective_primary_triggers_no_fallback :
  fetchHydrometricStationMeta ReferenceHost.Number_toString
    filterIgnoringServer "B" freshPage
  = (Return {| lat := JPrim (PNum 50.1); lon := JPrim (PNum (-104.1));
               props := [("STATION_NUMBER", PStr "A")] |},
     {| requests := [meta_cqlRequest "B"];
        debugElement := Some ("stations returned: 1" ++ newline);
        console := ["stations returned: 1"] |})
  /\ ~ fallbackOnIneffective ReferenceHost.Number_toString.
Proof.
  split; [vm_compute; reflexivity|].
  intros H.
  specialize (H filterIgnoringServer "B" freshPage (collectionOf [station_A])).
  assert (In meta_unfilteredRequest [meta_cqlRequest "B"]) as Hin.
  { apply H.
    - reflexivity.
    - simpl. discriminate. }
  destruct Hin as [Heq|[]]. discriminate.
Qed.

(** ** Selecting the station *)

Section Selection.

Variable Number_toString : float -> string.

Local Abbreviation idOf := (stationIdOf Number_toString).
Local Abbreviation select := (selectFeature Number_toString).

Lemma find_first_match (stationNumber : string)
    (before : list Feature) (x : Feature) (after : list Feature) :
  Forall (fun y => idOf y <> stationNumber) before ->
  idOf x = stationNumber ->
  find (fun y => String.eqb (idOf y) stationNumber) (before ++ x :: after) = Some x.
Proof.
  intros Hbefore Hx.
  induction Hbefore as [|y before Hy _ IH]; simpl.
  - apply String.eqb_eq in Hx. now rewrite Hx.
  - apply String.eqb_neq in Hy. now rewrite Hy.
Qed.

Lemma find_no_match (stationNumber : string) (feats : list Feature) :
  Forall (fun y => idOf y <> stationNumber) feats ->
  find (fun y => String.eqb (idOf y) stationNumber) feats = None.
Proof.
  intros H. induction H as [|y feats Hy _ IH]; simpl; auto.
  apply String.eqb_neq in Hy. now rewrite Hy.
Qed.

(** The feature selected is the first one whose station identifier, as
    the code reads it, is the requested one; when no feature has the
    requested identifier, it is the first feature of the set (none when the
    set is empty). *)
Lemma selectFeature_first_match_else_first (stationNumber : string)
    (feats : list Feature) :
  (forall before x after,
      feats = (before ++ x :: after)%list ->
      Forall (fun y => idOf y <> stationNumber) before ->
      idOf x = stationNumber ->
      select feats stationNumber = Some x)
  /\ (Forall (fun y => idOf y <> stationNumber) feats ->
      select feats stationNumber = hd_error feats).
Proof.
  split.
  - intros before x after -> Hbefore Hx. unfold selectFeature.
    now rewrite find_first_match.
  - intros Hnone. unfold selectFeature. rewrite find_no_match by assumption.
    now destruct feats.
Qed.

End Selection.

(** On the stations A, B and C a request for B selects B, a request for X
    selects A. *)
Lemma selectFeature_first_match_else_first_witness :
  selectFeature ReferenceHost.Number_toString
    [station_A; station_B; station_C] "B" = Some station_B
  /\ selectFeature ReferenceHost.Number_toString
       [station_A; station_B; station_C] "X" = Some station_A.
Proof.
  split.
  - destruct (selectFeature_first_match_else_first ReferenceHost.Number_toString
                "B" [station_A; station_B; station_C]) as (Hfirst & _).
    apply (Hfirst [station_A] station_B [station_C]).
    + reflexivity.
    + constructor; [discriminate|constructor].
    + reflexivity.
  - destruct (selectFeature_first_match_else_first ReferenceHost.Number_toString
                "X" [station_A; station_B; station_C]) as (_ & Hnone).
    apply Hnone.
    repeat (constructor; [discriminate|]). constructor.
Defined.

(** Scenario A of the specification. *)
Example stationMeta_scenario_A :
  fst (fetchHydrometricStationMeta ReferenceHost.Number_toString
         (serverWith [wascana]) "05JF003" freshPage)
  = Return {| lat := JPrim (PNum 50.445); lon := JPrim (PNum (-104.617));
              props := [("STATION_NUMBER", PStr "05JF003");
                        ("NAME", PStr "Wascana Creek")] |}.
Proof. vm_compute. reflexivity. Qed.

(** The fallback set holds A, B and C: a request for B returns the record
    of B, and a request for X the record of A, after a warning. *)
Example stationMeta_fallback_set :
  fst (fetchHydrometricStationMeta ReferenceHost.Number_toString
         filterRefusingServer "B" freshPage)
  = Return {| lat := JPrim (PNum 50.2); lon := JPrim (PNum (-104.2));
              props := [("STATION_NUMBER", PStr "B")] |}
  /\ fetchHydrometricStationMeta ReferenceHost.Number_toString
       filterRefusingServer "X" freshPage
     = (Return {| lat := JPrim (PNum 50.1); lon := JPrim (PNum (-104.1));
                  props := [("STATION_NUMBER", PStr "A")] |},
        {| requests := [meta_cqlRequest "X"; meta_unfilteredRequest];
           debugElement :=
             Some ("⚠️ stations CQL failed: stations meta X: 400" ++ newline
                   ++ "stations returned: 3" ++ newline);
           console := ["⚠️ stations CQL failed: stations meta X: 400";
                       "stations returned: 3"] |}).
Proof. split; vm_compute; reflexivity. Qed.

(** Scenario C of the specification, as the code runs it: the filtered
    request for X succeeds with no feature, so the unfiltered request is not
    made and the helper fails. *)
Example stationMeta_scenario_C :
  fetchHydrometricStationMeta ReferenceHost.Number_toString
    (fun req => if hasParam "filter" req
                then Response 200 (Json (collectionOf []))
                else Response 200 (Json (collectionOf [station_A; station_B])))
    "X" freshPage
  = (Throw (Error "No geometry for station X"),
     {| requests := [meta_cqlRequest "X"];
        debugElement := Some ("stations returned: 0" ++ newline);
        console := ["stations returned: 0"] |}).
Proof. vm_compute. reflexivity. Qed.

(** ** Geometry *)

Section Geometry.

Variable Number_toString : float -> string.

Local Abbreviation resolve := (meta_resolve Number_toString).
Local Abbreviation select := (selectFeature Number_toString).

(** C5 (amended): the helper throws the error naming the requested station
    exactly when no feature is selected, the geometry of the selected
    feature is missing, null or another falsy value, or its coordinates are
    not an array, and it throws nothing else.  When the coordinates are an array, it returns the
    second element as the latitude and the first as the longitude
    ([undefined] for an element the array does not have), with the
    properties of the selected feature; coordinates [lon, lat] come back
    swapped. *)
Theorem meta_resolve_geometry (stationNumber : string)
    (c : FeatureCollection) (w : World) :
  let selected := select (featuresOrEmpty c) stationNumber in
  (fst (resolve stationNumber c w) = Throw (noGeometry stationNumber)
   <-> match selected with
       | None => True
       | Some f => js_truthy (geometry f) = false
                   \/ isArray (coordinatesOf f) = false
       end)
  /\ (forall e, fst (resolve stationNumber c w) = Throw e ->
                e = noGeometry stationNumber)
  /\ (forall f elems,
        selected = Some f -> js_truthy (geometry f) = true ->
        coordinatesOf f = JArr elems ->
        fst (resolve stationNumber c w)
        = Return {| lat := nth 1 elems undefined;
                    lon := nth 0 elems undefined;
                    props := propertiesOrEmpty f |})
  /\ (forall f lon lat,
        selected = Some f -> js_truthy (geometry f) = true ->
        coordinatesOf f = JArr [lon; lat] ->
        fst (resolve stationNumber c w)
        = Return {| lat := lat; lon := lon; props := propertiesOrEmpty f |}).
Proof.
  intros selected.
  assert (Hrun : fst (resolve stationNumber c w)
                 = match selected with
                   | None => Throw (noGeometry stationNumber)
                   | Some f =>
                       if negb (js_truthy (geometry f))
                          || negb (isArray (coordinatesOf f))
                       then Throw (noGeometry stationNumber)
                       else Return {| lat := index (coordinatesOf f) 1;
                                      lon := index (coordinatesOf f) 0;
                                      props := propertiesOrEmpty f |}
                   end).
  { unfold meta_resolve, bind, logDebug, throw, ret. fold selected.
    destruct selected as [f|]; simpl; auto.
    destruct (negb _ || negb _); reflexivity. }
  split; [|split; [|split]].
  - rewrite Hrun. destruct selected as [f|]; [|tauto].
    destruct (js_truthy (geometry f)); simpl.
    + destruct (isArray _); simpl; split; auto; try discriminate.
      intros [H|H]; discriminate.
    + tauto.
  - intros e. rewrite Hrun. destruct selected as [f|]; [|congruence].
    destruct (negb _ || negb _); congruence.
  - intros f elems Hf Htruthy Hcoords. rewrite Hrun, Hf, Htruthy, Hcoords.
    reflexivity.
  - intros f lon lat Hf Htruthy Hcoords. rewrite Hrun, Hf, Htruthy, Hcoords.
    reflexivity.
Qed.

End Geometry.

(** The amended C5 on the Wascana Creek station. *)
Lemma meta_resolve_geometry_witness :
  fst (meta_resolve ReferenceHost.Number_toString "05JF003"
         (collectionOf [wascana]) freshPage)
  = Return {| lat := JPrim (PNum 50.445); lon := JPrim (PNum (-104.617));
              props := [("STATION_NUMBER", PStr "05JF003");
                        ("NAME", PStr "Wascana Creek")] |}.
Proof.
  destruct (meta_resolve_geometry ReferenceHost.Number_toString "05JF003"
              (collectionOf [wascana]) freshPage) as (_ & _ & _ & Hpair).
  apply (Hpair wascana (JPrim (PNum (-104.617))) (JPrim (PNum 50.445))).
  - reflexivity.
  - reflexivity.
  - reflexivity.
Defined.

(** C5 (counterexample): the point of the selected station has an empty
    array of coordinates, which is not a pair; nothing is thrown, and the
    record returned has no latitude and no longitude.  A point with three
    coordinates is accepted as well. *)
Lemma coordinates_length_not_checked :
  fst (meta_resolve ReferenceHost.Number_toString "05JF003"
         (collectionOf [station_nowhere]) freshPage)
  = Return {| lat := undefined; lon := undefined;
              props := [("STATION_NUMBER", PStr "05JF003")] |}
  /\ fst (meta_resolve ReferenceHost.Number_toString "05JF003"
            (collectionOf [station_elevated]) freshPage)
     = Return {| lat := JPrim (PNum 50.445); lon := JPrim (PNum (-104.617));
                 props := [("STATION_NUMBER", PStr "05JF003")] |}
  /\ ~ geometryValidated ReferenceHost.Number_toString.
Proof.
  split; [vm_compute; reflexivity|]. split; [vm_compute; reflexivity|].
  intros H.
  destruct (H "05JF003" (collectionOf [station_nowhere]) freshPage) as [_ Hthrows].
  destruct Hthrows as (e & He).
  - simpl. intros (_ & lon & lat & Hpair). discriminate.
  - vm_compute in He. discriminate.
Qed.

(** ** Empty results and failures of the real-time helper *)

Section Realtime.

Variable Date_parse : string -> option Z.
Variable Number_toString : float -> string.
Variable network : Request -> FetchOutcome FeatureCollection.

Local Abbreviation realtimeLatest :=
  (fetchHydrometricRealtimeLatest Date_parse Number_toString network).

Lemma realtime_resolve_result (stationNumber : string) (c : FeatureCollection)
    (w : World) :
  fst (realtime_resolve Date_parse Number_toString stationNumber c w)
  = Return (keepLatest Date_parse (localRows Number_toString stationNumber (rowsOf c))).
Proof.
  unfold realtime_resolve, bind, logDebug, ret.
  destruct (keepsAll (rowsOf c)); reflexivity.
Qed.

Lemma realtimeLatest_result (stationNumber : string) (w : World) :
  fst (realtimeLatest stationNumber w)
  = match realtime_collection network stationNumber with
    | Return c => Return (keepLatest Date_parse
                            (localRows Number_toString stationNumber (rowsOf c)))
    | Throw e => Throw e
    end.
Proof.
  unfold realtime_collection.
  destruct (settled (network (realtime_cqlRequest stationNumber))) as [c|] eqn:H.
  - rewrite (realtimeLatest_primary Date_parse Number_toString network _ w H).
    apply realtime_resolve_result.
  - destruct (realtimeLatest_fallback Date_parse Number_toString network
                stationNumber w H) as (s & ->).
    destruct (attempt _ (network realtime_unfilteredRequest)); simpl; auto.
    apply realtime_resolve_result.
Qed.

(** Once the collection is in, the rest of the helper (the local filter and
    the deduplication) always returns. *)
Lemma realtime_resolve_returns (stationNumber : string) (c : FeatureCollection)
    (w : World) :
  exists out,
    fst (realtime_resolve Date_parse Number_toString stationNumber c w) = Return out.
Proof. rewrite realtime_resolve_result. eauto. Qed.

Lemma filter_none {A : Type} (f : A -> bool) (l : list A) :
  (forall x, In x l -> f x = false) -> filter f l = [].
Proof.
  induction l as [|x l IH]; simpl; intros H; auto.
  rewrite (H x) by now left. apply IH. intros y Hy. apply H. now right.
Qed.

(** C7 (amended): the helper works on the collection of the primary
    request, or on that of the fallback request when the primary one fails.
    When no row of that collection matches the station and the collection
    is empty or its first row has a station number, the helper returns the
    empty sequence.  Whenever it has a collection to work on it returns a
    sequence and throws nothing.  When the primary request fails and the
    fallback request fails too (the request cannot be made, the status is
    not a success, or the body does not parse), the helper throws the
    failure of the fallback request. *)
Theorem realtime_empty_is_not_an_error (stationNumber : string) (w : World) :
  (forall c, realtime_collection network stationNumber = Return c ->
     keepsAll (rowsOf c) = false ->
     (forall r, In r (rowsOf c) -> rowMatches Number_toString stationNumber r = false) ->
     fst (realtimeLatest stationNumber w) = Return [])
  /\ (forall c, realtime_collection network stationNumber = Return c ->
      exists out, fst (realtimeLatest stationNumber w) = Return out)
  /\ (settled (network (realtime_cqlRequest stationNumber)) = None ->
      forall e, attempt ("realtime (fallback) " ++ stationNumber)
                        (network realtime_unfilteredRequest) = Throw e ->
                fst (realtimeLatest stationNumber w) = Throw e).
Proof.
  rewrite realtimeLatest_result. unfold realtime_collection.
  split; [|split].
  - intros c -> Hfirst Hnomatch. unfold localRows. rewrite Hfirst.
    now rewrite filter_none.
  - intros c ->. eauto.
  - intros -> e ->. reflexivity.
Qed.

(** The rows returned are rows of the response. *)
Lemma realtimeLatest_rows_from_response (stationNumber : string) (w : World)
    (c : FeatureCollection) (out : list row) :
  realtime_collection network stationNumber = Return c ->
  fst (realtimeLatest stationNumber w) = Return out ->
  forall o, In o out -> In o (rowsOf c).
Proof.
  intros Hc Hout o Ho. rewrite realtimeLatest_result, Hc in Hout.
  injection Hout as <-. apply keepLatest_In in Ho.
  unfold localRows in Ho. destruct (keepsAll (rowsOf c)); auto.
  now apply filter_In in Ho.
Qed.

(** C10: when the helper has a collection to work on, it returns a
    sequence whose every row is one of the rows of the filtered input,
    unchanged; the rows of that input without a PARAMETER attribute are
    kept under the one key [undefined], and together give exactly one
    returned row when there is any such row, none otherwise. *)
Theorem realtimeLatest_rows_from_input (stationNumber : string) (w : World)
    (c : FeatureCollection) :
  realtime_collection network stationNumber = Return c ->
  let input := localRows Number_toString stationNumber (rowsOf c) in
  exists out,
    fst (realtimeLatest stationNumber w) = Return out
    /\ out = Map_values (keepLatest_fold Date_parse input [])
    /\ (forall o, In o out -> In o input)
    /\ (forall k v, In (k, v) (keepLatest_fold Date_parse input []) ->
                    lacksParameter v = true -> k = PUndef)
    /\ length (filter lacksParameter out)
       = (if existsb lacksParameter input then 1 else 0).
Proof.
  intros Hc input. rewrite realtimeLatest_result, Hc.
  destruct (keepLatest_rows_from_input Date_parse input) as (Hsub & Hkey & Hone).
  exists (keepLatest Date_parse input). repeat split; auto.
Qed.

End Realtime.

(** C10 on a response with two rows without a PARAMETER attribute, a Level
    row and a Flow row: the later of the two rows without one is returned
    for both. *)
Lemma realtimeLatest_rows_from_input_witness :
  let rows := [unkeyed_0000; level_0000; unkeyed_0100; flow_0030] in
  exists out,
    fst (fetchHydrometricRealtimeLatest ReferenceHost.Date_parse
           ReferenceHost.Number_toString (serverWith (map observation rows))
           "05JF003" freshPage) = Return out
    /\ out = Map_values (keepLatest_fold ReferenceHost.Date_parse rows [])
    /\ (forall o, In o out -> In o rows)
    /\ (forall k v, In (k, v) (keepLatest_fold ReferenceHost.Date_parse rows []) ->
                    lacksParameter v = true -> k = PUndef)
    /\ length (filter lacksParameter out) = 1.
Proof.
  intros rows.
  apply (@realtimeLatest_rows_from_input ReferenceHost.Date_parse
           ReferenceHost.Number_toString (serverWith (map observation rows))
           "05JF003" freshPage (collectionOf (map observation rows))).
  reflexivity.
Defined.

(** The amended C7 on a response holding stations other than the one
    requested, and on a server that is down. *)
Lemma realtime_empty_is_not_an_error_witness :
  fst (fetchHydrometricRealtimeLatest ReferenceHost.Date_parse
         ReferenceHost.Number_toString
         (serverWith [observation level_0000; observation flow_0030])
         "05JF008" freshPage) = Return []
  /\ exists e,
       fst (fetchHydrometricRealtimeLatest ReferenceHost.Date_parse
              ReferenceHost.Number_toString serverDown "05JF008" freshPage)
       = Throw e.
Proof.
  split.
  - destruct (realtime_empty_is_not_an_error ReferenceHost.Date_parse
                ReferenceHost.Number_toString
                (serverWith [observation level_0000; observation flow_0030])
                "05JF008" freshPage) as (Hempty & _).
    apply (Hempty (collectionOf [observation level_0000; observation flow_0030])).
    + reflexivity.
    + reflexivity.
    + intros r [<-|[<-|[]]]; reflexivity.
  - destruct (realtime_empty_is_not_an_error ReferenceHost.Date_parse
                ReferenceHost.Number_toString serverDown "05JF008" freshPage)
      as (_ & _ & Hthrows).
    exists (Error "realtime (fallback) 05JF008: 503").
    apply Hthrows; reflexivity.
Defined.

(** C7 (counterexample): the response holds one row, which has no station
    number.  No row matches the requested station, yet the row is kept and
    returned. *)
Lemma unmatched_rows_kept_without_station_number :
  fst (fetchHydrometricRealtimeLatest ReferenceHost.Date_parse
         ReferenceHost.Number_toString
         (serverWith [observation level_anonymous]) "05JF003" freshPage)
  = Return [level_anonymous]
  /\ ~ emptyWhenNoMatch ReferenceHost.Date_parse ReferenceHost.Number_toString.
Proof.
  split; [vm_compute; reflexivity|].
  intros H.
  specialize (H (serverWith [observation level_anonymous]) "05JF003" freshPage
                (collectionOf [observation level_anonymous])).
  assert (fst (fetchHydrometricRealtimeLatest ReferenceHost.Date_parse
                 ReferenceHost.Number_toString
                 (serverWith [observation level_anonymous]) "05JF003" freshPage)
          = Return []) as Hempty.
  { apply H.
    - reflexivity.
    - intros r [<-|[]]. reflexivity. }
  vm_compute in Hempty. discriminate.
Qed.

(** ** The feature layer *)

Section Layer.

Variable Number_toString : float -> string.
Variable network : Request -> FetchOutcome jsval.

Local Abbreviation fetchLayer := (fetchArcGISLayerGeoJSON Number_toString network).
Local Abbreviation request := (layerRequest Number_toString).

Lemma fetchLayer_run (featureServerUrl : string) (bbox : list float) (w : World) :
  fetchLayer featureServerUrl bbox w
  = (attempt "ArcGIS layer" (network (request featureServerUrl bbox)),
     issued w (request featureServerUrl bbox)).
Proof.
  exact (fetch_then_json network (request featureServerUrl bbox) "ArcGIS layer" w).
Qed.

(** C8 (amended): on a response whose status is not a success, the helper
    throws an error whose message gives the HTTP status, and nothing of the
    endpoint; it has made the one request and logged nothing.  On a success
    it returns the parsed body as it is. *)
Theorem fetchLayer_status_error_and_passthrough
    (featureServerUrl : string) (bbox : list float) (w : World) :
  (forall status body,
     network (request featureServerUrl bbox) = Response status body ->
     ok status = false ->
     fetchLayer featureServerUrl bbox w
     = (Throw (Error ("ArcGIS layer: " ++ decimal status)),
        issued w (request featureServerUrl bbox)))
  /\ (forall status body,
        network (request featureServerUrl bbox) = Response status (Json body) ->
        ok status = true ->
        fetchLayer featureServerUrl bbox w
        = (Return body, issued w (request featureServerUrl bbox))).
Proof.
  split; intros status body Hresponse Hok; rewrite fetchLayer_run;
    unfold attempt; rewrite Hresponse, Hok; reflexivity.
Qed.

End Layer.

(** The amended C8 on a layer server that answers 500 and on one that
    answers with a layer. *)
Lemma fetchLayer_status_error_and_passthrough_witness :
  fst (fetchArcGISLayerGeoJSON ReferenceHost.Number_toString layerServerFailing
         dams_endpoint regina_bbox freshPage)
  = Throw (Error "ArcGIS layer: 500")
  /\ fst (fetchArcGISLayerGeoJSON ReferenceHost.Number_toString
            (layerServerWith dams_layer) dams_endpoint regina_bbox freshPage)
     = Return dams_layer.
Proof.
  split.
  - destruct (fetchLayer_status_error_and_passthrough
                ReferenceHost.Number_toString layerServerFailing
                dams_endpoint regina_bbox freshPage) as (Hfails & _).
    rewrite (Hfails 500%Z (Json (JObj [("error", JPrim (PStr "Internal Server Error"))]))).
    + reflexivity.
    + reflexivity.
    + reflexivity.
  - destruct (fetchLayer_status_error_and_passthrough
                ReferenceHost.Number_toString (layerServerWith dams_layer)
                dams_endpoint regina_bbox freshPage) as (_ & Hpasses).
    rewrite (Hpasses 200%Z dams_layer).
    + reflexivity.
    + reflexivity.
    + reflexivity.
Defined.

(** The request made for the Regina bounding box. *)
Example layerRequest_regina :
  layerRequest ReferenceHost.Number_toString (dams_endpoint ++ "//") regina_bbox
  = {| url := "https://geohub.example/arcgis/rest/services/Dams/FeatureServer/0/query";
       searchParams :=
         [("where", "1=1"); ("outFields", "*");
          ("geometry", "-105.2,50.2,-104.2,50.8");
          ("geometryType", "esriGeometryEnvelope"); ("inSR", "4326");
          ("spatialRel", "esriSpatialRelIntersects"); ("outSR", "4326");
          ("f", "geojson")] |}.
Proof. vm_compute. reflexivity. Qed.

(** C8 (counterexample): the layer server answers 500.  The error thrown
    has the message [ArcGIS layer: 500], in which the endpoint does not
    occur. *)
Lemma layer_error_has_no_endpoint :
  fst (fetchArcGISLayerGeoJSON ReferenceHost.Number_toString layerServerFailing
         dams_endpoint regina_bbox freshPage)
  = Throw (Error "ArcGIS layer: 500")
  /\ contains dams_endpoint "ArcGIS layer: 500" = false
  /\ ~ layerErrorCarriesEndpoint ReferenceHost.Number_toString.
Proof.
  split; [vm_compute; reflexivity|]. split; [vm_compute; reflexivity|].
  intros H.
  destruct (H layerServerFailing dams_endpoint regina_bbox freshPage 500%Z
              (Json (JObj [("error", JPrim (PStr "Internal Server Error"))])))
    as (e & He & message & Hmessage & Hendpoint & _).
  - reflexivity.
  - reflexivity.
  - vm_compute in He. injection He as <-.
    simpl in Hmessage. injection Hmessage as <-.
    vm_compute in Hendpoint. discriminate.
Qed.

(** ** [tryOrNull] *)

Section TryOrNull.

Variable Number_toString : float -> string.

Local Abbreviation guarded := (tryOrNull Number_toString).

(** A promise that is fulfilled gives its value. *)
Lemma tryOrNull_fulfilled (promise : Async jsval) (label : string)
    (w w' : World) (v : jsval) :
  promise w = (Return v, w') -> guarded promise label w = (Return v, w').
Proof. intros H. unfold tryOrNull, catch. now rewrite H. Qed.

(** A promise that is rejected with an error object gives [null], after the
    error is logged. *)
Lemma tryOrNull_rejected_error (promise : Async jsval) (label : string)
    (w w' : World) (name message : string) :
  promise w = (Throw (JError name message), w') ->
  exists s, guarded promise label w
            = (Return null, logged w' ("⚠️ " ++ label ++ " " ++ s)).
Proof.
  intros H. destruct (describe_error Number_toString name message) as (s & Hs).
  exists s. unfold tryOrNull, catch. rewrite H.
  unfold bind at 1, lift. now rewrite Hs.
Qed.

(** C9 (the code at the failing input): a promise rejected with
    [undefined] or with [null] makes the handler read [message] from a value
    that has no members; [tryOrNull] then throws a [TypeError] of its own,
    logs nothing and does not return [null]. *)
Theorem tryOrNull_rethrows_on_nullish_rejection (promise : Async jsval)
    (label : string) (w w' : World) :
  (promise w = (Throw undefined, w') ->
   guarded promise label w
   = (Throw (TypeError "Cannot read properties of undefined (reading 'message')"),
      w'))
  /\ (promise w = (Throw null, w') ->
      guarded promise label w
      = (Throw (TypeError "Cannot read properties of null (reading 'message')"),
         w')).
Proof.
  split; intros H; unfold tryOrNull, catch; rewrite H; reflexivity.
Qed.

End TryOrNull.

(** C9 on [Promise.reject()]. *)
Lemma tryOrNull_rethrows_on_nullish_rejection_witness :
  tryOrNull ReferenceHost.Number_toString (throw undefined) "WSC 05JF003" freshPage
  = (Throw (TypeError "Cannot read properties of undefined (reading 'message')"),
     freshPage).
Proof.
  destruct (tryOrNull_rethrows_on_nullish_rejection ReferenceHost.Number_toString
              (throw undefined) "WSC 05JF003" freshPage freshPage) as (Hundefined & _).
  apply Hundefined. reflexivity.
Defined.

(** A rejection with an error, as the helpers of this file produce, is
    turned into [null]. *)
Example tryOrNull_server_down :
  tryOrNull ReferenceHost.Number_toString
    (fetchArcGISLayerGeoJSON ReferenceHost.Number_toString layerServerFailing
       dams_endpoint regina_bbox)
    "layer" freshPage
  = (Return null,
     {| requests := [layerRequest ReferenceHost.Number_toString dams_endpoint regina_bbox];
        debugElement := Some ("⚠️ layer ArcGIS layer: 500" ++ newline);
        console := ["⚠️ layer ArcGIS layer: 500"] |}).
Proof. vm_compute. reflexivity. Qed.

(** * Further properties *)

(** ** The order and the size of the deduplicated rows *)

Lemma Map_set_fresh (m : JsMap) (key : prim) (v : row) :
  Map_get m key = None -> Map_set m key v = (m ++ [(key, v)])%list.
Proof.
  induction m as [|[k x] rest IH]; simpl; auto.
  destruct (sameValueZero k key); [discriminate|].
  intros H. now rewrite IH.
Qed.

Lemma Map_get_keys (m : JsMap) (key : prim) :
  existsb (fun k => sameValueZero k key) (map fst m)
  = match Map_get m key with Some _ => true | None => false end.
Proof.
  induction m as [|[k x] rest IH]; simpl; auto.
  destruct (sameValueZero k key); simpl; auto.
Qed.

Lemma Map_set_keys (m : JsMap) (key : prim) (v : row) :
  map fst (Map_set m key v) = addKey (map fst m) key.
Proof.
  unfold addKey. induction m as [|[k x] rest IH]; simpl; auto.
  destruct (sameValueZero k key); simpl; auto.
  rewrite IH. now destruct (existsb _ (map fst rest)).
Qed.

Lemma keepLatest_step_keys (Date_parse : string -> option Z)
    (m : JsMap) (r : row) :
  map fst (keepLatest_step Date_parse m r) = addKey (map fst m) (paramKey r).
Proof.
  unfold keepLatest_step. fold (paramKey r).
  destruct (Map_get m (paramKey r)) as [prev|] eqn:Hget.
  - destruct (Date_gt _ _); [apply Map_set_keys|].
    unfold addKey. now rewrite Map_get_keys, Hget.
  - apply Map_set_keys.
Qed.

Lemma keepLatest_fold_keys (Date_parse : string -> option Z)
    (rows : list row) (m : JsMap) :
  map fst (keepLatest_fold Date_parse rows m)
  = fold_left addKey (map paramKey rows) (map fst m).
Proof.
  revert m. induction rows as [|r rows IH]; intros m; simpl; auto.
  unfold keepLatest_fold in *. simpl. now rewrite IH, keepLatest_step_keys.
Qed.

Lemma addKey_length (seen : list prim) (key : prim) :
  length seen <= length (addKey seen key) <= S (length seen).
Proof.
  unfold addKey. destruct (existsb _ seen); [lia|].
  rewrite length_app. simpl. lia.
Qed.

Lemma firstKeys_length_from (keys seen : list prim) :
  length seen <= length (fold_left addKey keys seen) <= length seen + length keys.
Proof.
  revert seen. induction keys as [|k keys IH]; intros seen; simpl; [lia|].
  specialize (IH (addKey seen k)). pose proof (addKey_length seen k). lia.
Qed.

(** X1: the deduplicated sequence is never longer than the input, and it is
    empty exactly when the input is empty. *)
Theorem keepLatest_size (Date_parse : string -> option Z) (rows : list row) :
  length (keepLatest Date_parse rows) <= length rows
  /\ (keepLatest Date_parse rows = [] <-> rows = []).
Proof.
  assert (Hlen : length (keepLatest Date_parse rows)
                 = length (fold_left addKey (map paramKey rows) [])).
  { unfold keepLatest, Map_values. rewrite length_map.
    rewrite <- (length_map fst), keepLatest_fold_keys. reflexivity. }
  split.
  - rewrite Hlen.
    pose proof (firstKeys_length_from (map paramKey rows) []) as H.
    rewrite length_map in H. simpl in H. lia.
  - split.
    + intros Hnil. destruct rows as [|r rows]; auto.
      rewrite Hnil in Hlen. simpl in Hlen.
      pose proof (firstKeys_length_from (map paramKey rows) (addKey [] (paramKey r))).
      unfold addKey in *. simpl in *. lia.
    + intros ->. reflexivity.
Qed.

(** X2: the rows come out in the order in which their parameter keys first
    appear in the input: the row at each position has the key at the same
    position of the keys of the input listed without repetition. *)
Theorem keepLatest_key_order (Date_parse : string -> option Z) (rows : list row) :
  Forall2 (fun o key => sameValueZero key (paramKey o) = true)
          (keepLatest Date_parse rows)
          (firstKeys (map paramKey rows)).
Proof.
  unfold firstKeys.
  change (@nil prim) with (map fst (@nil (prim * row))).
  rewrite <- (keepLatest_fold_keys Date_parse). unfold keepLatest, Map_values.
  destruct (keepLatest_inv_final Date_parse rows) as (_ & Hent & _).
  induction (keepLatest_fold Date_parse rows []) as [|[k v] m IH]; simpl.
  - constructor.
  - constructor.
    + apply Hent. now left.
    + apply IH. intros k' v' Hin. apply Hent. now right.
Qed.

(** ** Rows whose keys are already distinct *)

Lemma keepLatest_fold_distinct (Date_parse : string -> option Z)
    (rows : list row) (m : JsMap) :
  distinctKeys rows ->
  (forall k v r, In (k, v) m -> In r rows -> sameValueZero k (paramKey r) = false) ->
  keepLatest_fold Date_parse rows m
  = (m ++ map (fun r => (paramKey r, r)) rows)%list.
Proof.
  revert m. induction rows as [|r rows IH]; intros m Hrows Hm; simpl.
  - now rewrite app_nil_r.
  - destruct Hrows as [Hhead Hrest].
    assert (Hget : Map_get m (paramKey r) = None).
    { apply Map_get_None. intros k v Hin. apply (Hm k v r Hin). now left. }
    unfold keepLatest_fold in *. simpl.
    unfold keepLatest_step at 2. fold (paramKey r).
    rewrite Hget, (Map_set_fresh _ _ _ Hget), IH; auto.
    + now rewrite <- app_assoc.
    + intros k v r' Hin Hr'. apply in_app_or in Hin as [Hin|[[= <- <-]|[]]].
      * apply (Hm k v r' Hin). now right.
      * now apply Hhead.
Qed.

Lemma keepLatest_distinctKeys (Date_parse : string -> option Z) (rows : list row) :
  distinctKeys (keepLatest Date_parse rows).
Proof.
  unfold keepLatest, Map_values.
  destruct (keepLatest_inv_final Date_parse rows) as (Hd & Hent & _).
  induction (keepLatest_fold Date_parse rows []) as [|[k v] m IH]; simpl; auto.
  destruct Hd as [Hfresh Hd]. split.
  - intros r' Hr'. apply in_map_iff in Hr' as ([k' v'] & <- & Hin). simpl.
    assert (Hk : sameValueZero k (paramKey v) = true) by (apply Hent; now left).
    assert (Hk' : sameValueZero k' (paramKey v') = true) by (apply Hent; now right).
    rewrite <- (sameValueZero_congr _ _ (paramKey v') Hk).
    rewrite sameValueZero_sym, <- (sameValueZero_congr _ _ k Hk').
    rewrite sameValueZero_sym. eauto.
  - apply IH; auto. intros k' v' Hin. apply Hent. now right.
Qed.

(** X3: rows whose parameter keys are all different pass through the
    deduplication unchanged and in the same order; in particular the
    deduplication of a deduplicated sequence changes nothing. *)
Theorem keepLatest_idempotent (Date_parse : string -> option Z) (rows : list row) :
  (distinctKeys rows -> keepLatest Date_parse rows = rows)
  /\ keepLatest Date_parse (keepLatest Date_parse rows) = keepLatest Date_parse rows.
Proof.
  assert (Hid : forall l, distinctKeys l -> keepLatest Date_parse l = l).
  { intros l Hl. unfold keepLatest, Map_values.
    rewrite keepLatest_fold_distinct; auto.
    - simpl. rewrite map_map. simpl. apply map_id.
    - intros k v r []. }
  split; [apply Hid|]. apply Hid, keepLatest_distinctKeys.
Qed.

(** X3 on the Level and Flow rows of scenario B. *)
Lemma keepLatest_idempotent_witness :
  keepLatest ReferenceHost.Date_parse [level_0100; flow_0030]
  = [level_0100; flow_0030].
Proof.
  destruct (keepLatest_idempotent ReferenceHost.Date_parse [level_0100; flow_0030])
    as (Hid & _).
  apply Hid. simpl. split; [|split; auto].
  - intros r' [<-|[]]. reflexivity.
  - intros r' [].
Defined.

(** ** The first row of a key *)

(** X4: whether a returned row has a valid timestamp is decided by the first
    input row of its parameter key.  When that first row has no valid
    timestamp it is the row returned, whatever follows; when it has one, the
    returned row has one too. *)
Theorem keepLatest_first_row_decides (Date_parse : string -> option Z)
    (rows : list row) (o : row) :
  In o (keepLatest Date_parse rows) ->
  exists f,
    firstOfKey (paramKey o) rows = Some f
    /\ (timestamp Date_parse f = None -> o = f)
    /\ (timestamp Date_parse f <> None -> timestamp Date_parse o <> None).
Proof.
  intros Ho. apply Map_values_In in Ho as (k & Hin).
  destruct (keepLatest_inv_final Date_parse rows) as (_ & Hent & _).
  destruct (Hent _ _ Hin) as (Hk & _).
  assert (Hfirst : keepLatest_first_inv Date_parse
                     (keepLatest_fold Date_parse rows []) rows).
  { apply (@keepLatest_fold_first Date_parse rows [] []).
    - split; [exact I|]. split; [intros ? ? []|intros ? []].
    - intros ? ? []. }
  destruct (Hfirst k o Hin) as (f & Hf & H1 & H2).
  exists f. rewrite <- (firstOfKey_congr k (paramKey o)); auto.
Qed.

(** X4 on a Level row whose date does not parse, followed by two dated
    Level rows: the first row is the one returned. *)
Lemma keepLatest_first_row_decides_witness :
  exists f,
    firstOfKey (PStr "Level") [level_unparsable; level_0000; level_0100] = Some f
    /\ (timestamp ReferenceHost.Date_parse f = None -> level_unparsable = f)
    /\ (timestamp ReferenceHost.Date_parse f <> None ->
        timestamp ReferenceHost.Date_parse level_unparsable <> None).
Proof.
  apply (keepLatest_first_row_decides ReferenceHost.Date_parse
           [level_unparsable; level_0000; level_0100] level_unparsable).
  vm_compute. auto.
Defined.

(** ** The order of the input *)

Lemma distinctKeys_NoDup (rows : list row) : distinctKeys rows -> NoDup rows.
Proof.
  induction rows as [|r rows IH]; simpl; [constructor|].
  intros [Hhead Hrest]. constructor; auto.
  intros Hin. specialize (Hhead r Hin).
  now rewrite sameValueZero_refl in Hhead.
Qed.

Lemma countKey_one_In (key : prim) (rows : list row) :
  countKey key rows = 1 ->
  exists o, In o rows /\ sameValueZero (paramKey o) key = true.
Proof.
  unfold countKey. intros H.
  destruct (filter _ rows) as [|o l] eqn:E; [discriminate|].
  assert (Hin : In o (filter (fun r => sameValueZero (paramKey r) key) rows))
    by (rewrite E; now left).
  apply filter_In in Hin. eauto.
Qed.

(** With valid timestamps and no ties, the rows returned are the rows that
    no row of their key is later than. *)
Lemma keepLatest_In_iff (Date_parse : string -> option Z) (rows : list row) (o : row) :
  allDated Date_parse rows -> tieFree Date_parse rows ->
  In o (keepLatest Date_parse rows)
  <-> In o rows
      /\ forall r, In r rows -> sameValueZero (paramKey r) (paramKey o) = true ->
                   Date_ge (timestamp Date_parse o) (timestamp Date_parse r) = true.
Proof.
  intros Hdated [_ Hties]. split.
  - intros Ho. split; [now apply (keepLatest_In Date_parse rows)|].
    apply keepLatest_latest_valid; auto.
  - intros [Ho Hmax].
    destruct (countKey_one_In _ _ (keepLatest_countKey Date_parse rows o Ho))
      as (o' & Ho' & Hkey).
    assert (Hrows : In o' rows) by now apply (keepLatest_In Date_parse rows).
    assert (Hge : Date_ge (timestamp Date_parse o') (timestamp Date_parse o) = true).
    { apply (keepLatest_latest_valid Date_parse rows); auto.
      now rewrite sameValueZero_sym. }
    specialize (Hmax o' Hrows Hkey).
    assert (o' = o) as <-; [|exact Ho'].
    apply Hties; auto.
    destruct (timestamp Date_parse o') as [a|], (timestamp Date_parse o) as [b|];
      simpl in *; try discriminate.
    apply Z.leb_le in Hge, Hmax. f_equal. lia.
Qed.

(** X5: when every row has a valid timestamp, no row occurs twice and no
    two rows of one key have the same timestamp, the rows returned do not
    depend on the order of the input: reordering the input reorders the
    result at most. *)
Theorem keepLatest_order_independent (Date_parse : string -> option Z)
    (rows rows' : list row) :
  allDated Date_parse rows -> tieFree Date_parse rows ->
  Permutation rows rows' ->
  Permutation (keepLatest Date_parse rows) (keepLatest Date_parse rows').
Proof.
  intros Hdated Hties Hperm.
  assert (Hdated' : allDated Date_parse rows').
  { intros r Hr. apply Hdated.
    now apply (Permutation_in _ (Permutation_sym Hperm)). }
  assert (Hties' : tieFree Date_parse rows').
  { destruct Hties as [Hnodup Hties]. split.
    - eapply Permutation_NoDup; eauto.
    - intros a b Ha Hb.
      apply Hties; apply (Permutation_in _ (Permutation_sym Hperm)); assumption. }
  apply NoDup_Permutation.
  - apply distinctKeys_NoDup, keepLatest_distinctKeys.
  - apply distinctKeys_NoDup, keepLatest_distinctKeys.
  - intros o. rewrite !keepLatest_In_iff by assumption.
    pose proof (Permutation_sym Hperm) as Hperm'.
    split; intros [Ho Hmax].
    + split; [now apply (Permutation_in _ Hperm)|].
      intros r Hr. apply Hmax. now apply (Permutation_in _ Hperm').
    + split; [now apply (Permutation_in _ Hperm')|].
      intros r Hr. apply Hmax. now apply (Permutation_in _ Hperm).
Qed.

(** X5 on scenario B and its rows in the opposite order. *)
Lemma keepLatest_order_independent_witness :
  Permutation
    (keepLatest ReferenceHost.Date_parse [level_0000; level_0100; flow_0030])
    (keepLatest ReferenceHost.Date_parse [flow_0030; level_0100; level_0000]).
Proof.
  apply keepLatest_order_independent.
  - intros r [<-|[<-|[<-|[]]]]; vm_compute; discriminate.
  - split.
    + repeat constructor; simpl; intuition discriminate.
    + intros a b [<-|[<-|[<-|[]]]] [<-|[<-|[<-|[]]]]; vm_compute;
        intros; try reflexivity; discriminate.
  - apply perm_trans with [level_0100; flow_0030; level_0000].
    + apply perm_trans with [level_0100; level_0000; flow_0030];
        [apply perm_swap|apply perm_skip, perm_swap].
    + apply perm_swap.
Defined.

(** ** The deduplication of the first data.js *)

Lemma Map_has_get (m : JsMap) (key : prim) :
  First.Map_has m key = match Map_get m key with Some _ => true | None => false end.
Proof.
  unfold First.Map_has. induction m as [|[k x] rest IH]; simpl; auto.
  destruct (sameValueZero k key); simpl; auto.
Qed.

Lemma First_step_agrees (Date_parse : string -> option Z) (m : JsMap) (r : row) :
  First.keepLatest_step Date_parse m r = Some (keepLatest_step Date_parse m r).
Proof.
  unfold First.keepLatest_step, keepLatest_step. rewrite Map_has_get.
  destruct (Map_get m (get r "PARAMETER")); simpl; auto.
  destruct (Date_gt _ _); reflexivity.
Qed.

Lemma First_loop_agrees (Date_parse : string -> option Z)
    (rows : list row) (m : JsMap) :
  First.keepLatest_loop Date_parse rows m = Some (keepLatest_fold Date_parse rows m).
Proof.
  revert m. induction rows as [|r rows IH]; intros m; simpl; auto.
  now rewrite First_step_agrees, IH.
Qed.

(** X6: the first [fetchHydrometricRealtime] makes exactly one request and
    nothing else.  When the request delivers a collection it returns the
    station number it was given together with the rows that the later
    deduplication returns for all the rows of the collection: the loop
    written with [has] never reads a missing entry and keeps the same rows.
    Otherwise it fails with the failure of the request. *)
Theorem First_fetchHydrometricRealtime_run (Date_parse : string -> option Z)
    (network : Request -> FetchOutcome FeatureCollection)
    (stationNumber : string) (w : World) :
  First.fetchHydrometricRealtime Date_parse network stationNumber w
  = (match attempt "WSC fetch failed" (network (First.realtimeRequest stationNumber)) with
     | Return c =>
         Return {| First.station := stationNumber;
                   First.latest := keepLatest Date_parse (rowsOf c) |}
     | Throw e => Throw e
     end,
     issued w (First.realtimeRequest stationNumber)).
Proof.
  unfold First.fetchHydrometricRealtime, bind, fetch, attempt.
  destruct (network (First.realtimeRequest stationNumber))
    as [message|status [c|message]]; simpl; auto;
    destruct (ok status); simpl; auto.
  now rewrite First_loop_agrees.
Qed.

(** ** What the station helpers settle on *)

Section Outcomes.

Variable Date_parse : string -> option Z.
Variable Number_toString : float -> string.
Variable network : Request -> FetchOutcome FeatureCollection.

Local Abbreviation stationMeta := (fetchHydrometricStationMeta Number_toString network).
Local Abbreviation realtimeLatest :=
  (fetchHydrometricRealtimeLatest Date_parse Number_toString network).
Local Abbreviation select := (selectFeature Number_toString).
Local Abbreviation idOf := (stationIdOf Number_toString).

Lemma meta_resolve_result (stationNumber : string) (c : FeatureCollection)
    (w : World) :
  fst (meta_resolve Number_toString stationNumber c w)
  = match select (featuresOrEmpty c) stationNumber with
    | Some f => if located f then Return (recordOf f)
                else Throw (noGeometry stationNumber)
    | None => Throw (noGeometry stationNumber)
    end.
Proof.
  unfold meta_resolve, bind, logDebug, throw, ret, located.
  destruct (select _ _) as [f|]; simpl; auto.
  rewrite <- negb_andb. destruct (js_truthy (geometry f) && _); reflexivity.
Qed.

(** What the station helper settles on depends on the answers of the
    network only, not on what was requested or logged before. *)
Lemma stationMeta_result (stationNumber : string) (w : World) :
  fst (stationMeta stationNumber w) = metaOutcome Number_toString network stationNumber.
Proof.
  unfold metaOutcome, meta_collection.
  destruct (settled (network (meta_cqlRequest stationNumber))) as [c|] eqn:H.
  - rewrite (stationMeta_primary Number_toString network _ w H).
    apply meta_resolve_result.
  - destruct (stationMeta_fallback Number_toString network stationNumber w H)
      as (s & ->).
    destruct (attempt _ (network meta_unfilteredRequest)); simpl; auto.
    apply meta_resolve_result.
Qed.

Lemma realtimeLatest_outcome (stationNumber : string) (w : World) :
  fst (realtimeLatest stationNumber w)
  = realtimeOutcome Date_parse Number_toString network stationNumber.
Proof. apply realtimeLatest_result. Qed.

Lemma selectFeature_In (feats : list Feature) (stationNumber : string) (f : Feature) :
  select feats stationNumber = Some f ->
  In f feats
  /\ ((exists g, In g feats /\ idOf g = stationNumber) -> idOf f = stationNumber).
Proof.
  unfold selectFeature.
  destruct (find _ feats) as [x|] eqn:Hfind.
  - intros [= <-]. apply find_some in Hfind as [Hin Hx].
    split; auto. intros _. now apply String.eqb_eq.
  - intros Hhd. split.
    + destruct feats; simpl in Hhd; [discriminate|]. injection Hhd as <-. now left.
    + intros (g & Hg & Hid). exfalso.
      pose proof (find_none _ _ Hfind g Hg) as Hneq. simpl in Hneq.
      apply String.eqb_neq in Hneq. now apply Hneq.
Qed.

(** X7: a record returned by the station helper is made of a feature of the
    collection the helper works on (the primary one, or the fallback one
    when the primary attempt fails): its latitude and longitude are the
    second and first coordinate of that feature and its attributes are the
    feature's.  When a feature of that collection has the requested station
    number, the record is made of a feature that has it. *)
Theorem stationMeta_record_of_response (stationNumber : string) (w : World)
    (m : StationMeta) :
  fst (stationMeta stationNumber w) = Return m ->
  exists c f,
    meta_collection network stationNumber = Return c
    /\ In f (featuresOrEmpty c)
    /\ located f = true
    /\ m = recordOf f
    /\ ((exists g, In g (featuresOrEmpty c) /\ idOf g = stationNumber) ->
        idOf f = stationNumber).
Proof.
  rewrite stationMeta_result. unfold metaOutcome.
  destruct (meta_collection network stationNumber) as [c|e]; [|discriminate].
  destruct (select (featuresOrEmpty c) stationNumber) as [f|] eqn:Hsel;
    [|discriminate].
  destruct (located f) eqn:Hloc; [|discriminate].
  intros [= <-]. exists c, f.
  destruct (selectFeature_In _ _ Hsel) as [Hin Hmatch]. auto.
Qed.

(** X8: the two failures of the station helper.  When the collection it
    works on is empty, or the feature selected in it has no geometry, the
    helper fails with the error naming the station; when the primary attempt
    fails and the fallback attempt fails too, it fails with the failure of
    the fallback request. *)
Theorem stationMeta_failures (stationNumber : string) (w : World) :
  (forall c, meta_collection network stationNumber = Return c ->
     match select (featuresOrEmpty c) stationNumber with
     | Some f => located f = false
     | None => True
     end ->
     fst (stationMeta stationNumber w) = Throw (noGeometry stationNumber))
  /\ (settled (network (meta_cqlRequest stationNumber)) = None ->
      forall e, attempt ("stations meta (fallback) " ++ stationNumber)
                        (network meta_unfilteredRequest) = Throw e ->
                fst (stationMeta stationNumber w) = Throw e).
Proof.
  rewrite stationMeta_result. unfold metaOutcome. split.
  - intros c -> Hsel.
    destruct (select (featuresOrEmpty c) stationNumber) as [f|]; [|reflexivity].
    now rewrite Hsel.
  - intros Hprimary e He. unfold meta_collection. now rewrite Hprimary, He.
Qed.

(** X9: the rows returned by the real-time helper are rows of the
    collection it works on; and when the first row of that collection has a
    station number, every returned row has the requested station number. *)
Theorem realtimeLatest_rows_of_station (stationNumber : string) (w : World)
    (out : list row) :
  fst (realtimeLatest stationNumber w) = Return out ->
  exists c,
    realtime_collection network stationNumber = Return c
    /\ forall o, In o out ->
         In o (rowsOf c)
         /\ (keepsAll (rowsOf c) = false ->
             rowMatches Number_toString stationNumber o = true).
Proof.
  rewrite realtimeLatest_outcome. unfold realtimeOutcome.
  destruct (realtime_collection network stationNumber) as [c|e]; [|discriminate].
  intros [= <-]. exists c. split; auto.
  intros o Ho. apply keepLatest_In in Ho. unfold localRows in Ho.
  destruct (keepsAll (rowsOf c)).
  - split; auto. discriminate.
  - apply filter_In in Ho as [Hin Hmatch]. auto.
Qed.

Lemma filter_all {A : Type} (f : A -> bool) (l : list A) :
  (forall x, In x l -> f x = true) -> filter f l = l.
Proof.
  induction l as [|x l IH]; simpl; intros H; auto.
  rewrite (H x) by now left. f_equal. apply IH. intros y Hy. apply H. now right.
Qed.

(** X10: on a collection that the server filtered (every row has the
    requested station number) the local filter keeps every row, and the
    helper returns what the helper before the fallback returns for the same
    collection: the latest row of each parameter among all the rows. *)
Theorem realtimeLatest_agrees_with_earlier (stationNumber : string) (w w' : World)
    (network' : Request -> FetchOutcome FeatureCollection) (c : FeatureCollection) :
  realtime_collection network stationNumber = Return c ->
  settled (network' (Earlier.realtimeRequest stationNumber)) = Some c ->
  (forall r, In r (rowsOf c) -> rowMatches Number_toString stationNumber r = true) ->
  localRows Number_toString stationNumber (rowsOf c) = rowsOf c
  /\ fst (realtimeLatest stationNumber w) = Return (keepLatest Date_parse (rowsOf c))
  /\ fst (Earlier.fetchHydrometricRealtimeLatest Date_parse network' stationNumber w')
     = fst (realtimeLatest stationNumber w).
Proof.
  intros Hc Hc' Hall.
  assert (Hlocal : localRows Number_toString stationNumber (rowsOf c) = rowsOf c).
  { unfold localRows. destruct (keepsAll (rowsOf c)); auto. now apply filter_all. }
  assert (Hnew : fst (realtimeLatest stationNumber w)
                 = Return (keepLatest Date_parse (rowsOf c))).
  { rewrite realtimeLatest_outcome. unfold realtimeOutcome. now rewrite Hc, Hlocal. }
  split; [exact Hlocal|]. split; [exact Hnew|].
  rewrite Hnew. unfold Earlier.fetchHydrometricRealtimeLatest.
  unfold bind at 1.
  unfold fetch. unfold settled in Hc'.
  destruct (network' (Earlier.realtimeRequest stationNumber))
    as [message|status [c0|message]]; try discriminate.
  destruct (ok status) eqn:Hok; [|discriminate]. injection Hc' as ->.
  simpl. rewrite Hok. reflexivity.
Qed.

End Outcomes.

(** ** The station the helper returns *)

Section StationReturned.

Variable Number_toString : float -> string.
Variable network : Request -> FetchOutcome FeatureCollection.

Local Abbreviation stationMeta := (fetchHydrometricStationMeta Number_toString network).
Local Abbreviation idOf := (stationIdOf Number_toString).
Local Abbreviation textOf := (identifierText Number_toString).

(** On an identifier that is not a falsy number or [false], the code reads
    what the amended statement reads. *)
Lemma stationIdOf_identifierText (x : Feature) :
  falsyIdentifier (idAttribute x) = false -> idOf x = textOf x.
Proof.
  unfold stationIdOf, stationOf, identifierText, idAttribute, prim_or.
  destruct (properties x) as [r|]; [|reflexivity].
  destruct (get r "STATION_NUMBER") as [| |b|n|id]; simpl; auto.
  - destruct b; [reflexivity | discriminate].
  - destruct (negb (PrimFloat.is_zero n || PrimFloat.is_nan n));
      [reflexivity | discriminate].
  - destruct (String.eqb_spec id EmptyString) as [->|]; reflexivity.
Qed.

Lemma stationMeta_on_collection (stationNumber : string) (w : World)
    (c : FeatureCollection) :
  meta_collection network stationNumber = Return c ->
  fst (stationMeta stationNumber w)
  = match selectFeature Number_toString (featuresOrEmpty c) stationNumber with
    | Some f => recordOrNoGeometry stationNumber f
    | None => Throw (noGeometry stationNumber)
    end.
Proof.
  intros Hc. rewrite stationMeta_result. unfold metaOutcome. now rewrite Hc.
Qed.


(** C2 (the code at the failing input): when the primary request is
    answered with a success whose result set does not hold the requested
    station first, the helper makes that one request and no other: the
    fallback request is not made.  When the rest of the set does not hold
    the station either, the first feature of the set, which is another
    station's, is selected, and the record returned for the requested
    station is made of it. *)
Theorem ignored_filter_goes_unnoticed (stationNumber : string) (w : World)
    (c : FeatureCollection) :
  settled (network (meta_cqlRequest stationNumber)) = Some c ->
  ineffective Number_toString stationNumber c ->
  requests (snd (stationMeta stationNumber w))
  = (requests w ++ [meta_cqlRequest stationNumber])%list
  /\ ~ In meta_unfilteredRequest [meta_cqlRequest stationNumber]
  /\ (forall first rest,
        featuresOrEmpty c = first :: rest ->
        Forall (fun y => idOf y <> stationNumber) rest ->
        idOf first <> stationNumber
        /\ fst (stationMeta stationNumber w) = recordOrNoGeometry stationNumber first).
Proof.
  intros Hc Hineffective.
  rewrite (stationMeta_primary Number_toString network _ w Hc).
  split; [now rewrite meta_resolve_requests|].
  split; [intros [H|[]]; discriminate|].
  intros first rest Hfeats Hrest.
  unfold ineffective in Hineffective. rewrite Hfeats in Hineffective.
  split; [exact Hineffective|].
  rewrite meta_resolve_result, Hfeats. unfold selectFeature.
  rewrite (find_no_match Number_toString) by (constructor; auto).
  reflexivity.
Qed.

End StationReturned.



(** C2 at the failing input: the server ignores the filter and answers the
    request for station B with station A, and it would answer the unfiltered
    request with the stations A, B and C. *)
Lemma ignored_filter_goes_unnoticed_witness :
  settled (filterIgnoringServer meta_unfilteredRequest)
  = Some (collectionOf [station_A; station_B; station_C])
  /\ requests (snd (fetchHydrometricStationMeta ReferenceHost.Number_toString
                      filterIgnoringServer "B" freshPage))
     = (requests freshPage ++ [meta_cqlRequest "B"])%list
  /\ stationIdOf ReferenceHost.Number_toString station_A <> "B"
  /\ fst (fetchHydrometricStationMeta ReferenceHost.Number_toString
            filterIgnoringServer "B" freshPage)
     = recordOrNoGeometry "B" station_A.
Proof.
  split; [reflexivity|].
  destruct (@ignored_filter_goes_unnoticed ReferenceHost.Number_toString
              filterIgnoringServer "B" freshPage (collectionOf [station_A]))
    as (Hrequests & _ & Hfirst).
  - reflexivity.
  - simpl. discriminate.
  - split; [exact Hrequests|].
    apply (Hfirst station_A []); [reflexivity | constructor].
Defined.

(** X7 on the fallback set of stations A, B and C and a request for B. *)
Lemma stationMeta_record_of_response_witness :
  exists c f,
    meta_collection filterRefusingServer "B" = Return c
    /\ In f (featuresOrEmpty c)
    /\ located f = true
    /\ {| lat := JPrim (PNum 50.2); lon := JPrim (PNum (-104.2));
          props := [("STATION_NUMBER", PStr "B")] |} = recordOf f
    /\ ((exists g, In g (featuresOrEmpty c)
                   /\ stationIdOf ReferenceHost.Number_toString g = "B") ->
        stationIdOf ReferenceHost.Number_toString f = "B").
Proof.
  apply (stationMeta_record_of_response ReferenceHost.Number_toString
           filterRefusingServer "B" freshPage).
  vm_compute. reflexivity.
Defined.

(** X8 on a server whose feature of the station has no geometry, and on a
    server that is down. *)
Lemma stationMeta_failures_witness :
  fst (fetchHydrometricStationMeta ReferenceHost.Number_toString
         (serverWith [observation level_0000]) "05JF003" freshPage)
  = Throw (noGeometry "05JF003")
  /\ fst (fetchHydrometricStationMeta ReferenceHost.Number_toString
            serverDown "05JF003" freshPage)
     = Throw (Error "stations meta (fallback) 05JF003: 503").
Proof.
  destruct (stationMeta_failures ReferenceHost.Number_toString
              (serverWith [observation level_0000]) "05JF003" freshPage)
    as (Hgeometry & _).
  destruct (stationMeta_failures ReferenceHost.Number_toString
              serverDown "05JF003" freshPage)
    as (_ & Hfallback).
  split.
  - apply (Hgeometry (collectionOf [observation level_0000])); reflexivity.
  - apply Hfallback; reflexivity.
Defined.

(** X9 on scenario B. *)
Lemma realtimeLatest_rows_of_station_witness :
  exists c,
    realtime_collection
      (serverWith [observation level_0000; observation level_0100;
                   observation flow_0030]) "05JF003" = Return c
    /\ forall o, In o [level_0100; flow_0030] ->
         In o (rowsOf c)
         /\ (keepsAll (rowsOf c) = false ->
             rowMatches ReferenceHost.Number_toString "05JF003" o = true).
Proof.
  apply (realtimeLatest_rows_of_station ReferenceHost.Date_parse
           ReferenceHost.Number_toString _ "05JF003" freshPage).
  vm_compute. reflexivity.
Defined.

(** X10 on scenario B. *)
Lemma realtimeLatest_agrees_with_earlier_witness :
  fst (Earlier.fetchHydrometricRealtimeLatest ReferenceHost.Date_parse
         (serverWith [observation level_0000; observation level_0100;
                      observation flow_0030]) "05JF003" freshPage)
  = fst (fetchHydrometricRealtimeLatest ReferenceHost.Date_parse
           ReferenceHost.Number_toString
           (serverWith [observation level_0000; observation level_0100;
                        observation flow_0030]) "05JF003" freshPage).
Proof.
  apply (realtimeLatest_agrees_with_earlier ReferenceHost.Date_parse
           ReferenceHost.Number_toString
           (serverWith [observation level_0000; observation level_0100;
                        observation flow_0030]) "05JF003" freshPage freshPage
           (serverWith [observation level_0000; observation level_0100;
                        observation flow_0030])
           (c := collectionOf [observation level_0000; observation level_0100;
                               observation flow_0030])).
  - reflexivity.
  - reflexivity.
  - intros r [<-|[<-|[<-|[]]]]; reflexivity.
Defined.

(** ** Guarded calls *)

Section Guarded.

Variable Date_parse : string -> option Z.
Variable Number_toString : float -> string.

(** Closes a goal that says that what was thrown is an error object. *)
Ltac thrown :=
  let H := fresh in
  intros H; try discriminate H; injection H as <-;
  unfold noGeometry, Error, TypeError, SyntaxError; eauto; fail.

Lemma attempt_throws_error {B : Type} (label : string) (outcome : FetchOutcome B)
    (e : jsval) :
  attempt label outcome = Throw e -> exists name message, e = JError name message.
Proof.
  unfold attempt, Error, TypeError, SyntaxError.
  destruct outcome as [message|status [value|message]];
    try destruct (ok status); intros [= <-]; eauto.
Qed.

Lemma stationMeta_rejects_with_errors
    (network : Request -> FetchOutcome FeatureCollection) (stationNumber : string) :
  rejectsWithErrors (fetchHydrometricStationMeta Number_toString network stationNumber).
Proof.
  intros w e. rewrite stationMeta_result. unfold metaOutcome, meta_collection.
  destruct (settled (network (meta_cqlRequest stationNumber))) as [c|].
  - destruct (selectFeature _ _ _) as [f|]; [destruct (located f)|]; thrown.
  - destruct (attempt _ (network meta_unfilteredRequest)) as [c|e'] eqn:Ha.
    + destruct (selectFeature _ _ _) as [f|]; [destruct (located f)|]; thrown.
    + intros [= <-]. eapply attempt_throws_error; eauto.
Qed.

Lemma realtimeLatest_rejects_with_errors
    (network : Request -> FetchOutcome FeatureCollection) (stationNumber : string) :
  rejectsWithErrors
    (fetchHydrometricRealtimeLatest Date_parse Number_toString network stationNumber).
Proof.
  intros w e. rewrite realtimeLatest_outcome.
  unfold realtimeOutcome, realtime_collection.
  destruct (settled (network (realtime_cqlRequest stationNumber))) as [c|];
    [discriminate|].
  destruct (attempt _ (network realtime_unfilteredRequest)) as [c|e'] eqn:Ha;
    [discriminate|].
  intros [= <-]. eapply attempt_throws_error; eauto.
Qed.

Lemma fetchLayer_rejects_with_errors
    (layerNetwork : Request -> FetchOutcome jsval)
    (featureServerUrl : string) (bbox : list float) :
  rejectsWithErrors
    (fetchArcGISLayerGeoJSON Number_toString layerNetwork featureServerUrl bbox).
Proof. intros w e. rewrite fetchLayer_run. simpl. apply attempt_throws_error. Qed.

(** X11: every helper of data.js, in each of its versions, is rejected with
    error objects only: the [TypeError] of [fetch], the [SyntaxError] of
    [json] or an [Error] of its own. *)
Theorem helpers_reject_with_errors
    (network : Request -> FetchOutcome FeatureCollection)
    (layerNetwork : Request -> FetchOutcome jsval)
    (stationNumber featureServerUrl : string) (bbox : list float) :
  rejectsWithErrors (fetchHydrometricStationMeta Number_toString network stationNumber)
  /\ rejectsWithErrors
       (fetchHydrometricRealtimeLatest Date_parse Number_toString network stationNumber)
  /\ rejectsWithErrors
       (fetchArcGISLayerGeoJSON Number_toString layerNetwork featureServerUrl bbox)
  /\ rejectsWithErrors (Earlier.fetchHydrometricStationMeta network stationNumber)
  /\ rejectsWithErrors
       (Earlier.fetchHydrometricRealtimeLatest Date_parse network stationNumber)
  /\ rejectsWithErrors (First.fetchHydrometricRealtime Date_parse network stationNumber).
Proof.
  split; [apply stationMeta_rejects_with_errors|].
  split; [apply realtimeLatest_rejects_with_errors|].
  split; [apply fetchLayer_rejects_with_errors|].
  repeat split; intros w e.
  - unfold Earlier.fetchHydrometricStationMeta, bind, fetch, json, ret, throw.
    destruct (network (Earlier.metaRequest stationNumber))
      as [message|status [c|message]]; simpl; try thrown;
      destruct (ok status); simpl; try thrown.
    destruct (featuresOrEmpty c) as [|f rest]; simpl;
      [|destruct (negb (js_truthy (geometry f)) || negb (isArray (coordinatesOf f)))];
      simpl; thrown.
  - unfold Earlier.fetchHydrometricRealtimeLatest, bind, fetch, json, ret, throw.
    destruct (network (Earlier.realtimeRequest stationNumber))
      as [message|status [c|message]]; simpl; try thrown;
      destruct (ok status); simpl; thrown.
  - unfold First.fetchHydrometricRealtime, bind, fetch, json, ret, throw.
    destruct (network (First.realtimeRequest stationNumber))
      as [message|status [c|message]]; simpl; try thrown;
      destruct (ok status); simpl; try thrown.
    rewrite First_loop_agrees. discriminate.
Qed.

Lemma tryOrNullAt_fulfilled {A : Type} (promise : Async A) (label : string)
    (w w' : World) (v : A) :
  promise w = (Return v, w') ->
  tryOrNullAt Number_toString promise label w = (Return (Some v), w').
Proof. intros H. unfold tryOrNullAt, catch, bind. now rewrite H. Qed.

Lemma tryOrNullAt_rejected_error {A : Type} (promise : Async A) (label : string)
    (w w' : World) (name message : string) :
  promise w = (Throw (JError name message), w') ->
  exists s, describe Number_toString (JError name message) = Return s
            /\ tryOrNullAt Number_toString promise label w
               = (Return None, logged w' ("⚠️ " ++ label ++ " " ++ s)).
Proof.
  intros H. destruct (describe_error Number_toString name message) as (s & Hs).
  exists s. split; auto. unfold tryOrNullAt, catch. unfold bind at 1. rewrite H.
  unfold bind at 1, lift. now rewrite Hs.
Qed.

(** The guard on a promise of values of this file is the typed guard, with
    [null] for [None]. *)
Lemma tryOrNull_tryOrNullAt (promise : Async jsval) (label : string) (w : World) :
  tryOrNull Number_toString promise label w
  = bind (tryOrNullAt Number_toString promise label)
         (fun o => ret (match o with Some v => v | None => null end)) w.
Proof.
  unfold tryOrNull, tryOrNullAt, catch, ret.
  unfold bind at 3. unfold bind at 3.
  destruct (promise w) as [[v|e] w1]; auto.
  unfold bind, lift. destruct (describe Number_toString e); reflexivity.
Qed.

(** The guard on a promise that is rejected with error objects only is
    fulfilled: with the value of the promise, or with nothing. *)
Lemma tryOrNullAt_result {A : Type} (promise : Async A) (label : string) (w : World) :
  rejectsWithErrors promise ->
  fst (tryOrNullAt Number_toString promise label w)
  = Return (match fst (promise w) with Return v => Some v | Throw _ => None end).
Proof.
  intros Herr. destruct (promise w) as [[v|e] w'] eqn:H.
  - now rewrite (tryOrNullAt_fulfilled _ label _ H).
  - destruct (Herr w e) as (name & message & ->); [now rewrite H|].
    destruct (tryOrNullAt_rejected_error _ label _ H) as (s & _ & ->). reflexivity.
Qed.

Lemma tryOrNull_result (promise : Async jsval) (label : string) (w : World) :
  rejectsWithErrors promise ->
  fst (tryOrNull Number_toString promise label w)
  = Return (match fst (promise w) with Return v => v | Throw _ => null end).
Proof.
  intros Herr. rewrite tryOrNull_tryOrNullAt. unfold bind.
  pose proof (tryOrNullAt_result label w Herr) as H.
  destruct (tryOrNullAt Number_toString promise label w) as [[o|e] w'];
    simpl in H; [|discriminate].
  injection H as ->. unfold ret. simpl. destruct (fst (promise w)); reflexivity.
Qed.

(** X12: guarding a promise that is rejected with error objects only, as the
    helpers are, gives a promise that is never rejected.  It is fulfilled
    with the value of the promise and the world the promise left, or, when
    the promise is rejected, with [null] after one more line: the warning
    sign, the label and the text of the error. *)
Theorem tryOrNull_never_rejects (promise : Async jsval) (label : string) (w : World) :
  rejectsWithErrors promise ->
  match promise w with
  | (Return v, w') => tryOrNull Number_toString promise label w = (Return v, w')
  | (Throw e, w') =>
      exists s, describe Number_toString e = Return s
                /\ tryOrNull Number_toString promise label w
                   = (Return null, logged w' ("⚠️ " ++ label ++ " " ++ s))
  end.
Proof.
  intros Herr. destruct (promise w) as [[v|e] w'] eqn:H.
  - unfold tryOrNull, catch. now rewrite H.
  - destruct (Herr w e) as (name & message & ->); [now rewrite H|].
    destruct (describe_error Number_toString name message) as (s & Hs).
    exists s. split; auto. unfold tryOrNull, catch. rewrite H.
    unfold bind at 1, lift. now rewrite Hs.
Qed.

End Guarded.

(** X12 on the layer helper and a server that answers with status 500. *)
Lemma tryOrNull_never_rejects_witness :
  exists s,
    describe ReferenceHost.Number_toString (Error "ArcGIS layer: 500") = Return s
    /\ tryOrNull ReferenceHost.Number_toString
         (fetchArcGISLayerGeoJSON ReferenceHost.Number_toString layerServerFailing
            dams_endpoint regina_bbox)
         "WSA layer:" freshPage
       = (Return null,
          logged (issued freshPage (layerRequest ReferenceHost.Number_toString
                                      dams_endpoint regina_bbox))
                 ("⚠️ " ++ "WSA layer:" ++ " " ++ s)).
Proof.
  apply (@tryOrNull_never_rejects ReferenceHost.Number_toString
           (fetchArcGISLayerGeoJSON ReferenceHost.Number_toString layerServerFailing
              dams_endpoint regina_bbox)
           "WSA layer:" freshPage).
  intros w e. rewrite fetchLayer_run. simpl. intros [= <-].
  unfold Error. eauto.
Defined.

(** ** What the helpers leave of the page *)

Lemma append_nil_r (s : string) : s ++ EmptyString = s.
Proof. induction s as [|c s IH]; simpl; congruence. Qed.

Lemma append_assoc (a b c : string) : (a ++ b) ++ c = a ++ b ++ c.
Proof. induction a as [|x a IH]; simpl; congruence. Qed.

Lemma panelText_app (a b : list string) :
  panelText (a ++ b)%list = panelText a ++ panelText b.
Proof.
  induction a as [|x a IH]; simpl; auto.
  now rewrite IH, !append_assoc.
Qed.

Lemma extends_refl (w : World) : extends w w.
Proof.
  exists [], []. unfold extends_with. rewrite !app_nil_r. simpl.
  destruct (debugElement w); now rewrite ?append_nil_r.
Qed.

Lemma extends_trans (w1 w2 w3 : World) :
  extends w1 w2 -> extends w2 w3 -> extends w1 w3.
Proof.
  intros (r1 & m1 & Hr1 & Hc1 & Hd1) (r2 & m2 & Hr2 & Hc2 & Hd2).
  exists (r1 ++ r2)%list, (m1 ++ m2)%list. unfold extends_with.
  rewrite Hr2, Hr1, Hc2, Hc1, Hd2, Hd1, !app_assoc. repeat split.
  destruct (debugElement w1); auto.
  now rewrite panelText_app, append_assoc.
Qed.

Lemma extends_logged (w : World) (msg : string) : extends w (logged w msg).
Proof.
  exists [], [msg]. unfold extends_with, logged. simpl.
  rewrite app_nil_r. repeat split.
Qed.

Lemma extends_issued (w : World) (req : Request) : extends w (issued w req).
Proof.
  exists [req], []. unfold extends_with, issued. simpl.
  rewrite app_nil_r. repeat split.
  destruct (debugElement w); auto. now rewrite append_nil_r.
Qed.

Lemma appends_ret {A : Type} (a : A) : appends (ret a).
Proof. intros w. apply extends_refl. Qed.

Lemma appends_throw {A : Type} (e : jsval) : appends (throw (A := A) e).
Proof. intros w. apply extends_refl. Qed.

Lemma appends_lift {A : Type} (c : Completion A) : appends (lift c).
Proof. intros w. apply extends_refl. Qed.

Lemma appends_logDebug (msg : string) : appends (logDebug msg).
Proof. intros w. apply extends_logged. Qed.

Lemma appends_fetch {B : Type} (network : Request -> FetchOutcome B) (req : Request) :
  appends (fetch network req).
Proof.
  intros w. unfold fetch. destruct (network req); apply extends_issued.
Qed.

Lemma appends_json {B : Type} (body : Body B) : appends (json body).
Proof. destruct body; [apply appends_ret | apply appends_throw]. Qed.

Lemma appends_bind {A B : Type} (m : Async A) (k : A -> Async B) :
  appends m -> (forall a, appends (k a)) -> appends (bind m k).
Proof.
  intros Hm Hk w. unfold bind. specialize (Hm w).
  destruct (m w) as [[a|e] w1]; simpl in *; auto.
  eapply extends_trans; [exact Hm | apply Hk].
Qed.

Lemma appends_catch {A : Type} (m : Async A) (handler : jsval -> Async A) :
  appends m -> (forall e, appends (handler e)) -> appends (catch m handler).
Proof.
  intros Hm Hh w. unfold catch. specialize (Hm w).
  destruct (m w) as [[a|e] w1]; simpl in *; auto.
  eapply extends_trans; [exact Hm | apply Hh].
Qed.

(** Takes a goal [appends m] apart along the structure of [m]. *)
Ltac appends_step :=
  first
    [ apply appends_ret | apply appends_throw | apply appends_lift
    | apply appends_logDebug | apply appends_fetch | apply appends_json
    | apply appends_bind; [|intros ?]
    | apply appends_catch; [|intros ?]
    | match goal with
      | |- appends (if ?b then _ else _) => destruct b
      | |- appends (match ?x with _ => _ end) => destruct x
      end ].

Lemma appends_tryOrNull (Number_toString : float -> string)
    (promise : Async jsval) (label : string) :
  appends promise -> appends (tryOrNull Number_toString promise label).
Proof. intros H. unfold tryOrNull. appends_step; auto. repeat appends_step. Qed.

Lemma appends_tryOrNullAt {A : Type} (Number_toString : float -> string)
    (promise : Async A) (label : string) :
  appends promise -> appends (tryOrNullAt Number_toString promise label).
Proof.
  intros H. unfold tryOrNullAt. appends_step; [|repeat appends_step].
  appends_step; auto. appends_step.
Qed.

Lemma stationMeta_appends (Number_toString : float -> string)
    (network : Request -> FetchOutcome FeatureCollection) (stationNumber : string) :
  appends (fetchHydrometricStationMeta Number_toString network stationNumber).
Proof.
  unfold fetchHydrometricStationMeta, meta_tryCql, meta_tryUnfiltered, meta_resolve.
  repeat appends_step.
Qed.

Lemma realtimeLatest_appends (Date_parse : string -> option Z)
    (Number_toString : float -> string)
    (network : Request -> FetchOutcome FeatureCollection) (stationNumber : string) :
  appends (fetchHydrometricRealtimeLatest Date_parse Number_toString network
             stationNumber).
Proof.
  unfold fetchHydrometricRealtimeLatest, realtime_tryCql, realtime_tryUnfiltered,
    realtime_resolve.
  repeat appends_step.
Qed.

Lemma fetchLayer_appends (Number_toString : float -> string)
    (layerNetwork : Request -> FetchOutcome jsval)
    (featureServerUrl : string) (bbox : list float) :
  appends (fetchArcGISLayerGeoJSON Number_toString layerNetwork featureServerUrl bbox).
Proof. unfold fetchArcGISLayerGeoJSON. repeat appends_step. Qed.

(** X13: whatever the network answers, a helper of data.js, guarded or not,
    leaves the page as it found it but for what it adds at the end: requests
    to the record of requests, lines to the console and, when the page has a
    debug panel, the same lines to the panel, each followed by a line break.
    Nothing logged before is lost or rewritten, and a page without a panel
    stays without one. *)
Theorem helpers_append (Date_parse : string -> option Z)
    (Number_toString : float -> string)
    (network : Request -> FetchOutcome FeatureCollection)
    (layerNetwork : Request -> FetchOutcome jsval)
    (stationNumber featureServerUrl label : string) (bbox : list float) :
  appends (fetchHydrometricStationMeta Number_toString network stationNumber)
  /\ appends (fetchHydrometricRealtimeLatest Date_parse Number_toString network
                stationNumber)
  /\ appends (fetchArcGISLayerGeoJSON Number_toString layerNetwork featureServerUrl bbox)
  /\ appends (tryOrNullAt Number_toString
                (fetchHydrometricStationMeta Number_toString network stationNumber)
                label)
  /\ appends (tryOrNullAt Number_toString
                (fetchHydrometricRealtimeLatest Date_parse Number_toString network
                   stationNumber) label)
  /\ appends (tryOrNull Number_toString
                (fetchArcGISLayerGeoJSON Number_toString layerNetwork
                   featureServerUrl bbox) label)
  /\ appends (Earlier.fetchHydrometricStationMeta network stationNumber)
  /\ appends (Earlier.fetchHydrometricRealtimeLatest Date_parse network stationNumber)
  /\ appends (First.fetchHydrometricRealtime Date_parse network stationNumber).
Proof.
  split; [apply stationMeta_appends|].
  split; [apply realtimeLatest_appends|].
  split; [apply fetchLayer_appends|].
  split; [apply appends_tryOrNullAt, stationMeta_appends|].
  split; [apply appends_tryOrNullAt, realtimeLatest_appends|].
  split; [apply appends_tryOrNull, fetchLayer_appends|].
  repeat split.
  - unfold Earlier.fetchHydrometricStationMeta. repeat appends_step.
  - unfold Earlier.fetchHydrometricRealtimeLatest. repeat appends_step.
  - unfold First.fetchHydrometricRealtime. repeat appends_step.
Qed.

(** ** Trailing slashes of a layer endpoint *)

Lemma list_ascii_of_string_app (a b : string) :
  list_ascii_of_string (a ++ b) = (list_ascii_of_string a ++ list_ascii_of_string b)%list.
Proof. induction a as [|c a IH]; simpl; congruence. Qed.

Lemma string_of_list_ascii_app (a b : list ascii) :
  string_of_list_ascii (a ++ b)%list = string_of_list_ascii a ++ string_of_list_ascii b.
Proof. induction a as [|c a IH]; simpl; congruence. Qed.

Lemma rev_repeat {A : Type} (x : A) (n : nat) : rev (repeat x n) = repeat x n.
Proof.
  induction n as [|n IH]; simpl; auto.
  rewrite IH. clear IH. induction n as [|n IH]; simpl; congruence.
Qed.

Lemma dropSlashes_run (l : list ascii) :
  exists n, l = (repeat "/"%char n ++ dropSlashes l)%list.
Proof.
  induction l as [|c l (n & IH)]; [now exists 0|].
  simpl. destruct (Ascii.eqb_spec c "/"%char) as [->|Hc].
  - exists (S n). simpl. now rewrite <- IH.
  - exists 0. simpl.
    destruct c as [[] [] [] [] [] [] [] []]; try reflexivity. now elim Hc.
Qed.

Lemma dropSlashes_head (l rest : list ascii) : dropSlashes l <> ("/"%char :: rest).
Proof.
  induction l as [|c l IH]; simpl; [discriminate|].
  destruct (Ascii.eqb_spec c "/"%char) as [->|Hc]; auto.
  destruct c as [[] [] [] [] [] [] [] []]; try congruence.
Qed.

Lemma dropSlashes_repeat (n : nat) (l : list ascii) :
  dropSlashes (repeat "/"%char n ++ l) = dropSlashes l.
Proof. induction n as [|n IH]; simpl; auto. Qed.

Lemma dropSlashes_idempotent (l : list ascii) :
  dropSlashes (dropSlashes l) = dropSlashes l.
Proof.
  induction l as [|c l IH]; simpl; auto.
  destruct (Ascii.eqb_spec c "/"%char) as [->|Hc]; auto.
  destruct c as [[] [] [] [] [] [] [] []]; try reflexivity. now elim Hc.
Qed.

Lemma stripTrailingSlashes_slashes (s : string) (n : nat) :
  stripTrailingSlashes (s ++ slashes n) = stripTrailingSlashes s.
Proof.
  unfold stripTrailingSlashes, slashes.
  rewrite list_ascii_of_string_app, list_ascii_of_string_of_list_ascii,
    rev_app_distr, rev_repeat.
  now rewrite dropSlashes_repeat.
Qed.

(** X14: [stripTrailingSlashes] removes a run of slashes from the end of a
    string and nothing else; what it returns does not end with a slash; it
    returns the same for a string and for that string followed by slashes;
    and applying it again changes nothing. *)
Theorem stripTrailingSlashes_spec (s : string) :
  (exists n, s = stripTrailingSlashes s ++ slashes n)
  /\ (forall t, stripTrailingSlashes s <> t ++ "/")
  /\ (forall n, stripTrailingSlashes (s ++ slashes n) = stripTrailingSlashes s)
  /\ stripTrailingSlashes (stripTrailingSlashes s) = stripTrailingSlashes s.
Proof.
  unfold stripTrailingSlashes, slashes. repeat split.
  - destruct (dropSlashes_run (rev (list_ascii_of_string s))) as (n & Hn).
    exists n. rewrite <- string_of_list_ascii_app.
    rewrite <- (rev_repeat "/"%char n), <- rev_app_distr, <- Hn, rev_involutive.
    now rewrite string_of_list_ascii_of_string.
  - intros t H.
    apply (f_equal list_ascii_of_string) in H.
    rewrite list_ascii_of_string_of_list_ascii, list_ascii_of_string_app in H.
    apply (f_equal (@rev ascii)) in H.
    rewrite rev_involutive, rev_app_distr in H. simpl in H.
    now apply dropSlashes_head in H.
  - intros n. apply stripTrailingSlashes_slashes.
  - rewrite list_ascii_of_string_of_list_ascii, rev_involutive.
    now rewrite dropSlashes_idempotent.
Qed.

(** X15: a layer endpoint written with slashes at its end is queried as the
    endpoint without them: the helper makes the same request and settles in
    the same way. *)
Theorem fetchLayer_ignores_trailing_slashes (Number_toString : float -> string)
    (network : Request -> FetchOutcome jsval)
    (featureServerUrl : string) (n : nat) (bbox : list float) :
  layerRequest Number_toString (featureServerUrl ++ slashes n) bbox
  = layerRequest Number_toString featureServerUrl bbox
  /\ fetchArcGISLayerGeoJSON Number_toString network (featureServerUrl ++ slashes n) bbox
     = fetchArcGISLayerGeoJSON Number_toString network featureServerUrl bbox.
Proof.
  assert (H : layerRequest Number_toString (featureServerUrl ++ slashes n) bbox
              = layerRequest Number_toString featureServerUrl bbox).
  { unfold layerRequest. now rewrite stripTrailingSlashes_slashes. }
  split; auto. unfold fetchArcGISLayerGeoJSON. now rewrite H.
Qed.

(** ** The name of a layer *)

Lemma split_nonempty (s : string) : Main.split s <> [].
Proof.
  induction s as [|c s IH]; simpl; [discriminate|].
  destruct (Ascii.eqb c "/"); [discriminate|].
  destruct (Main.split s); discriminate.
Qed.

Lemma join_cons (x : string) (l : list string) :
  l <> [] -> Main.join (x :: l) = x ++ "/" ++ Main.join l.
Proof. destruct l; [congruence | reflexivity]. Qed.

Lemma join_split (s : string) : Main.join (Main.split s) = s.
Proof.
  induction s as [|c s IH]; simpl; auto.
  pose proof (split_nonempty s) as Hne.
  destruct (Ascii.eqb_spec c "/"%char) as [->|Hc].
  - rewrite join_cons by assumption. simpl. now rewrite IH.
  - destruct (Main.split s) as [|first others]; [congruence|].
    rewrite <- IH. unfold Main.join. simpl. destruct others; reflexivity.
Qed.

Lemma split_app (a t : string) :
  Main.split (a ++ "/" ++ t) = (Main.split a ++ Main.split t)%list.
Proof.
  induction a as [|c a IH]; simpl in *; auto.
  destruct (Ascii.eqb c "/"); [now rewrite IH|].
  rewrite IH. pose proof (split_nonempty a) as Hne.
  destruct (Main.split a); [congruence | reflexivity].
Qed.

Lemma join_app (l1 l2 : list string) :
  l1 <> [] -> l2 <> [] ->
  Main.join (l1 ++ l2) = Main.join l1 ++ "/" ++ Main.join l2.
Proof.
  intros H1 H2. induction l1 as [|x l1 IH]; [congruence|].
  destruct l1 as [|y l1].
  - simpl app. now rewrite join_cons.
  - change ((x :: y :: l1) ++ l2)%list with (x :: ((y :: l1) ++ l2))%list.
    rewrite (join_cons x (l := (y :: l1) ++ l2)) by discriminate.
    rewrite IH by discriminate.
    rewrite (join_cons x (l := y :: l1)) by discriminate.
    now rewrite !append_assoc.
Qed.

(** X16: the name of a layer is the text of its last three segments: for an
    endpoint that ends, after a slash, with a text of three segments, it is
    that text, whatever comes before.  Endpoints that end alike get the same
    name. *)
Theorem layerName_last_three (a t : string) :
  length (Main.split t) = 3 ->
  Main.layerName (a ++ "/" ++ t) = t.
Proof.
  intros H. unfold Main.layerName, Main.slice_last.
  rewrite split_app, length_app, H.
  replace (length (Main.split a) + 3 - 3) with (length (Main.split a) + 0) by lia.
  rewrite skipn_app, Nat.add_0_r, skipn_all, Nat.sub_diag. simpl.
  apply join_split.
Qed.

(** X16 on the endpoint of the dams. *)
Lemma layerName_last_three_witness :
  Main.layerName ("https://geohub.example/arcgis/rest/services" ++ "/"
                  ++ "Dams/FeatureServer/0")
  = "Dams/FeatureServer/0".
Proof. apply layerName_last_three. reflexivity. Defined.

(** X17: the name of a layer is the end of its endpoint: the endpoint is
    the name itself, or the name after a text that ends with a slash. *)
Theorem layerName_suffix (url : string) :
  Main.layerName url = url
  \/ exists prefix, url = (prefix ++ "/") ++ Main.layerName url.
Proof.
  unfold Main.layerName, Main.slice_last.
  pose proof (split_nonempty url) as Hne.
  pose proof (join_split url) as Hjoin.
  revert Hne Hjoin. generalize (Main.split url). intros l Hne Hjoin.
  assert (Hlen : 0 < length l) by (destruct l; [congruence | simpl; lia]).
  remember (length l - 3) as k eqn:Hk.
  destruct (firstn k l) as [|x front] eqn:Hfront.
  - left. rewrite <- (firstn_skipn k l) in Hjoin at 1. rewrite Hfront in Hjoin.
    exact Hjoin.
  - right. exists (Main.join (x :: front)).
    rewrite <- Hjoin at 1. rewrite <- (firstn_skipn k l) at 1. rewrite Hfront.
    rewrite join_app; [now rewrite append_assoc | discriminate |].
    intros Hskip. apply (f_equal (@length string)) in Hskip.
    rewrite length_skipn in Hskip. simpl in Hskip. lia.
Qed.

(** ** The station helper and its earlier version *)

Section EarlierStationMeta.

Variable Number_toString : float -> string.
Variable network : Request -> FetchOutcome FeatureCollection.

Local Abbreviation stationMeta := (fetchHydrometricStationMeta Number_toString network).

(** X18: on a collection that the server filtered (every feature has the
    requested station number) the helper selects the first feature, and it
    settles as the helper before the fallback settles on the same
    collection: on the record of the first feature, or on the error naming
    the station. *)
Theorem stationMeta_agrees_with_earlier (stationNumber : string) (w w' : World)
    (network' : Request -> FetchOutcome FeatureCollection) (c : FeatureCollection) :
  meta_collection network stationNumber = Return c ->
  settled (network' (Earlier.metaRequest stationNumber)) = Some c ->
  (forall f, In f (featuresOrEmpty c) ->
             stationIdOf Number_toString f = stationNumber) ->
  selectFeature Number_toString (featuresOrEmpty c) stationNumber
  = nth_error (featuresOrEmpty c) 0
  /\ fst (Earlier.fetchHydrometricStationMeta network' stationNumber w')
     = fst (stationMeta stationNumber w).
Proof.
  intros Hc Hc' Hall.
  assert (Hsel : selectFeature Number_toString (featuresOrEmpty c) stationNumber
                 = nth_error (featuresOrEmpty c) 0).
  { unfold selectFeature. destruct (featuresOrEmpty c) as [|f rest]; [reflexivity|].
    simpl. specialize (Hall f (or_introl eq_refl)). unfold stationIdOf in Hall.
    rewrite Hall, String.eqb_refl. reflexivity. }
  split; [exact Hsel|].
  rewrite stationMeta_result. unfold metaOutcome. rewrite Hc, Hsel.
  unfold Earlier.fetchHydrometricStationMeta. unfold bind at 1.
  unfold fetch. unfold settled in Hc'.
  destruct (network' (Earlier.metaRequest stationNumber))
    as [message|status [c0|message]]; try discriminate.
  destruct (ok status) eqn:Hok; [|discriminate]. injection Hc' as ->.
  cbn [fst snd]. rewrite Hok. cbn [negb]. unfold json, bind, ret.
  destruct (nth_error (featuresOrEmpty c) 0) as [f|]; [|reflexivity].
  unfold located, recordOf. rewrite <- negb_andb.
  destruct (js_truthy (geometry f) && isArray (coordinatesOf f)); reflexivity.
Qed.

End EarlierStationMeta.

(** ** main.js: the stations and the layers *)

Section MainScript.

Variable Date_parse : string -> option Z.
Variable Number_toString : float -> string.
Variable Date_toLocaleString : Z -> string.
Variable L_marker : jsval -> jsval -> option jsval.
Variable L_geoJSON : jsval -> option jsval.
Variable network : Request -> FetchOutcome FeatureCollection.
Variable layerNetwork : Request -> FetchOutcome jsval.
Variable bbox : list float.

Local Abbreviation stationMeta := (fetchHydrometricStationMeta Number_toString network).
Local Abbreviation realtimeLatest :=
  (fetchHydrometricRealtimeLatest Date_parse Number_toString network).
Local Abbreviation fetchLayer := (fetchArcGISLayerGeoJSON Number_toString layerNetwork).
Local Abbreviation stationLoop :=
  (Main.stationLoop Date_parse Number_toString Date_toLocaleString L_marker network).
Local Abbreviation layerLoop :=
  (Main.layerLoop Number_toString L_geoJSON layerNetwork bbox).
Local Abbreviation loadData :=
  (Main.loadData Date_parse Number_toString Date_toLocaleString L_marker L_geoJSON
     network layerNetwork bbox).
Local Abbreviation popupHtml :=
  (Main.popupHtml Date_parse Number_toString Date_toLocaleString).

Lemma stationLoop_step (stn : string) (rest : list string) (p : Main.Page) :
  let w1 := snd (tryOrNullAt Number_toString (stationMeta stn)
                   ("station meta " ++ stn ++ ":")
                   (logged (Main.world p) ("⏳ Loading station " ++ stn ++ " meta…"))) in
  let w2 := snd (tryOrNullAt Number_toString (realtimeLatest stn)
                   ("realtime " ++ stn ++ ":")
                   (logged w1 ("⏳ Loading station " ++ stn ++ " realtime…"))) in
  stationLoop (stn :: rest) p
  = match metaOutcome Number_toString network stn with
    | Throw _ => stationLoop rest (Main.onWorld p w1)
    | Return m =>
        let marker :=
          {| Main.position := (lat m, lon m);
             Main.title := "WSC " ++ stn;
             Main.popup :=
               popupHtml stn
                 (match realtimeOutcome Date_parse Number_toString network stn with
                  | Return rows => Some rows
                  | Throw _ => None
                  end) |} in
        match L_marker (lat m) (lon m) with
        | Some e => (Throw e, Main.onWorld p w2)
        | None =>
            stationLoop rest
              {| Main.world := w2;
                 Main.hydroLayer := Main.hydroLayer p ++ [marker];
                 Main.mapLayers := Main.mapLayers p |}
        end
    end.
Proof.
  intros w1 w2. cbn [Main.stationLoop].
  unfold Main.bind at 1. unfold Main.await at 1. unfold logDebug at 1. cbn [fst snd].
  unfold Main.bind at 1. unfold Main.await at 1.
  cbn [Main.world Main.onWorld].
  rewrite (tryOrNullAt_result Number_toString _ _
             (stationMeta_rejects_with_errors Number_toString network stn)).
  rewrite stationMeta_result. fold w1.
  destruct (metaOutcome Number_toString network stn) as [m|e]; cbn [fst snd].
  - unfold Main.bind at 1. unfold Main.await at 1. unfold logDebug at 1.
    cbn [fst snd Main.world Main.onWorld].
    unfold Main.bind at 1. unfold Main.await at 1.
    cbn [Main.world Main.onWorld Main.hydroLayer Main.mapLayers].
    rewrite (tryOrNullAt_result Number_toString _ _
               (realtimeLatest_rejects_with_errors Date_parse Number_toString network stn)).
    rewrite realtimeLatest_outcome. fold w2. cbn [fst snd].
    unfold Main.bind at 1. unfold Main.addMarker at 1. cbn [Main.position fst snd].
    destruct (L_marker (lat m) (lon m)); reflexivity.
  - reflexivity.
Qed.


Lemma tryOrNullAt_requests {A : Type} (promise : Async A) (label : string) (w : World) :
  requests (snd (tryOrNullAt Number_toString promise label w))
  = requests (snd (promise w)).
Proof.
  unfold tryOrNullAt, catch. unfold bind at 1.
  destruct (promise w) as [[v|e] w']; auto.
  unfold bind, lift, logDebug, ret.
  destruct (describe Number_toString e); reflexivity.
Qed.

Lemma stationMeta_requests (stationNumber : string) (w : World) :
  exists reqs,
    requests (snd (stationMeta stationNumber w)) = (requests w ++ reqs)%list
    /\ Forall (fun r => url r = OGC_BASE ++ "/hydrometric-stations/items") reqs.
Proof.
  destruct (settled (network (meta_cqlRequest stationNumber))) as [c|] eqn:H.
  - exists [meta_cqlRequest stationNumber].
    rewrite (stationMeta_primary Number_toString network _ w H).
    rewrite meta_resolve_requests. split; [reflexivity|].
    repeat constructor.
  - exists [meta_cqlRequest stationNumber; meta_unfilteredRequest].
    destruct (stationMeta_fallback Number_toString network stationNumber w H)
      as (s & ->).
    split; [|repeat constructor].
    destruct (attempt _ (network meta_unfilteredRequest)); cbn zeta;
      rewrite ?meta_resolve_requests; simpl; now rewrite <- app_assoc.
Qed.

(** X19: a station for which the station helper fails is passed over: the
    loop goes on with the next station on a page that differs from the one
    it found only by what the guarded helper logged and requested; nothing
    is put on the map for it, and every request made for it went to the
    collection of the stations: its real-time values are not asked for. *)
Theorem stationLoop_skips_station_without_record (stn : string)
    (rest : list string) (p : Main.Page) (e : jsval) :
  metaOutcome Number_toString network stn = Throw e ->
  exists w' reqs,
    stationLoop (stn :: rest) p = stationLoop rest (Main.onWorld p w')
    /\ extends (Main.world p) w'
    /\ requests w' = (requests (Main.world p) ++ reqs)%list
    /\ Forall (fun r => url r = OGC_BASE ++ "/hydrometric-stations/items") reqs.
Proof.
  intros Hmeta. pose proof (stationLoop_step stn rest p) as Hstep.
  cbn zeta in Hstep. rewrite Hmeta in Hstep.
  set (w0 := logged (Main.world p) ("⏳ Loading station " ++ stn ++ " meta…")) in *.
  destruct (stationMeta_requests stn w0) as (reqs & Hreqs & Hurls).
  eexists. exists reqs. split; [exact Hstep|]. split; [|split; [|exact Hurls]].
  - eapply extends_trans; [apply (extends_logged (Main.world p))|].
    apply appends_tryOrNullAt.
    apply stationMeta_appends.
  - rewrite tryOrNullAt_requests. exact Hreqs.
Qed.


Lemma guardedMeta_extends (stn : string) (w : World) :
  extends w (snd (tryOrNullAt Number_toString (stationMeta stn)
                    ("station meta " ++ stn ++ ":")
                    (logged w ("⏳ Loading station " ++ stn ++ " meta…")))).
Proof.
  eapply extends_trans; [apply extends_logged|].
  apply appends_tryOrNullAt, stationMeta_appends.
Qed.

Lemma guardedRealtime_extends (stn : string) (w : World) :
  extends w (snd (tryOrNullAt Number_toString (realtimeLatest stn)
                    ("realtime " ++ stn ++ ":")
                    (logged w ("⏳ Loading station " ++ stn ++ " realtime…")))).
Proof.
  eapply extends_trans; [apply extends_logged|].
  apply appends_tryOrNullAt, realtimeLatest_appends.
Qed.

Lemma grown_refl (p : Main.Page) : Main.grown p p.
Proof.
  split; [apply extends_refl|].
  split; exists []; now rewrite app_nil_r.
Qed.

Lemma grown_trans (p1 p2 p3 : Main.Page) :
  Main.grown p1 p2 -> Main.grown p2 p3 -> Main.grown p1 p3.
Proof.
  intros (Hw1 & (m1 & Hm1) & (l1 & Hl1)) (Hw2 & (m2 & Hm2) & (l2 & Hl2)).
  split; [eapply extends_trans; eauto|].
  split; [exists (m1 ++ m2)%list | exists (l1 ++ l2)%list];
    rewrite ?Hm2, ?Hm1, ?Hl2, ?Hl1; now rewrite app_assoc.
Qed.

Lemma grown_onWorld (p : Main.Page) (w : World) :
  extends (Main.world p) w -> Main.grown p (Main.onWorld p w).
Proof.
  intros H. split; [exact H|].
  split; exists []; simpl; now rewrite app_nil_r.
Qed.

(** The table of a popup has a row for every one of the latest values. *)
Lemma popupTable_rows (r : row) (rest : list row) :
  Main.popupTable Date_parse Number_toString Date_toLocaleString (Some (r :: rest))
  = "<table style=" ++ Main.dq ++ "width:100%; font-size:12px" ++ Main.dq ++ ">"
    ++ newline
    ++ "        <thead><tr><th>Param</th><th>Value</th><th>Time</th></tr></thead><tbody>"
    ++ String.concat EmptyString
         (map (Main.tableRow Date_parse Number_toString Date_toLocaleString)
              (r :: rest))
    ++ "</tbody></table>".
Proof. reflexivity. Qed.

(** X20: a station for which the station helper returns a record, at
    coordinates that Leaflet takes, gets one marker, after the markers
    already there: at the latitude and longitude of the record, titled with
    the station number, with a popup made of what the real-time helper
    settles on, its rows or, when it fails, nothing.  A failure of the
    real-time helper does not cost the station its marker. *)
Theorem stationLoop_places_marker (stn : string) (rest : list string)
    (p : Main.Page) (m : StationMeta) :
  metaOutcome Number_toString network stn = Return m ->
  L_marker (lat m) (lon m) = None ->
  exists w',
    stationLoop (stn :: rest) p
    = stationLoop rest
        {| Main.world := w';
           Main.hydroLayer :=
             (Main.hydroLayer p
              ++ [{| Main.position := (lat m, lon m);
                     Main.title := ("WSC " ++ stn)%string;
                     Main.popup :=
                       popupHtml stn
                         (match realtimeOutcome Date_parse Number_toString network stn with
                          | Return rows => Some rows
                          | Throw _ => None
                          end) |}])%list;
           Main.mapLayers := Main.mapLayers p |}
    /\ extends (Main.world p) w'.
Proof.
  intros Hmeta Hok. pose proof (stationLoop_step stn rest p) as Hstep.
  cbn zeta in Hstep. rewrite Hmeta, Hok in Hstep.
  eexists. split; [exact Hstep|].
  eapply extends_trans; [apply guardedMeta_extends | apply guardedRealtime_extends].
Qed.

(** X21: the loop over the stations is rejected only with what Leaflet
    throws for the coordinates of one of the stations; no failure of a
    helper ends it. *)
Theorem stationLoop_rejected_by_Leaflet_only (stations : list string)
    (p : Main.Page) (e : jsval) :
  fst (stationLoop stations p) = Throw e ->
  exists stn m,
    In stn stations
    /\ metaOutcome Number_toString network stn = Return m
    /\ L_marker (lat m) (lon m) = Some e.
Proof.
  revert p. induction stations as [|stn rest IH]; intros p; [discriminate|].
  rewrite stationLoop_step. cbn zeta.
  destruct (metaOutcome Number_toString network stn) as [m|e'] eqn:Hmeta.
  - destruct (L_marker (lat m) (lon m)) as [e'|] eqn:Hl.
    + intros [= <-]. exists stn, m. repeat split; auto. now left.
    + intros H. destruct (IH _ H) as (stn' & m' & Hin & Hm & Hl').
      exists stn', m'. repeat split; auto. now right.
  - intros H. destruct (IH _ H) as (stn' & m' & Hin & Hm & Hl').
    exists stn', m'. repeat split; auto. now right.
Qed.

Lemma stationLoop_grown (stations : list string) (p : Main.Page) :
  Main.grown p (snd (stationLoop stations p)).
Proof.
  revert p. induction stations as [|stn rest IH]; intros p; [apply grown_refl|].
  rewrite stationLoop_step. cbn zeta.
  destruct (metaOutcome Number_toString network stn) as [m|e'] eqn:Hmeta.
  - assert (Hw : extends (Main.world p)
                   (snd (tryOrNullAt Number_toString (realtimeLatest stn)
                           ("realtime " ++ stn ++ ":")
                           (logged (snd (tryOrNullAt Number_toString (stationMeta stn)
                                           ("station meta " ++ stn ++ ":")
                                           (logged (Main.world p)
                                              ("⏳ Loading station " ++ stn ++ " meta…"))))
                                   ("⏳ Loading station " ++ stn ++ " realtime…"))))).
    { eapply extends_trans; [apply guardedMeta_extends | apply guardedRealtime_extends]. }
    destruct (L_marker (lat m) (lon m)) as [e'|] eqn:Hl.
    + now apply grown_onWorld.
    + eapply grown_trans; [|apply IH].
      split; [exact Hw|]. split; simpl; [eauto | exists []; now rewrite app_nil_r].
  - eapply grown_trans; [|apply IH].
    apply grown_onWorld, guardedMeta_extends.
Qed.

(** X22: when Leaflet takes the coordinates of every station that has a
    record, the loop over the stations comes to its end, and the titles of
    the markers are those it found followed by one for each station that has
    a record, in the order of the configuration; the layers of the map are
    as before. *)
Theorem stationLoop_markers (stations : list string) (p : Main.Page) :
  (forall stn m, In stn stations ->
                 metaOutcome Number_toString network stn = Return m ->
                 L_marker (lat m) (lon m) = None) ->
  exists p',
    stationLoop stations p = (Return tt, p')
    /\ map Main.title (Main.hydroLayer p')
       = (map Main.title (Main.hydroLayer p)
          ++ map (fun stn => ("WSC " ++ stn)%string)
               (filter (fun stn =>
                          match metaOutcome Number_toString network stn with
                          | Return _ => true
                          | Throw _ => false
                          end) stations))%list
    /\ Main.mapLayers p' = Main.mapLayers p.
Proof.
  revert p. induction stations as [|stn rest IH]; intros p Hok.
  - exists p. simpl. now rewrite app_nil_r.
  - rewrite stationLoop_step. cbn zeta. cbn [filter].
    destruct (metaOutcome Number_toString network stn) as [m|e'] eqn:Hmeta.
    + rewrite (Hok stn m (or_introl eq_refl) Hmeta).
      edestruct IH as (p' & Hrun & Htitles & Hlayers);
        [intros stn' m' Hin; apply Hok; now right|].
      exists p'. split; [exact Hrun|]. split; [|exact Hlayers].
      rewrite Htitles. cbn [Main.hydroLayer map].
      rewrite map_app. cbn [map Main.title]. now rewrite <- app_assoc.
    + edestruct IH as (p' & Hrun & Htitles & Hlayers);
        [intros stn' m' Hin; apply Hok; now right|].
      exists p'. split; [exact Hrun|]. split; [exact Htitles | exact Hlayers].
Qed.


Local Abbreviation request := (layerRequest Number_toString).

(** What the guarded layer helper hands to the loop. *)
Lemma guardedLayer_run (url label : string) (w : World) :
  exists w',
    tryOrNull Number_toString (fetchLayer url bbox) label w
    = (Return (match attempt "ArcGIS layer" (layerNetwork (request url bbox)) with
               | Return v => v
               | Throw _ => null
               end), w')
    /\ requests w' = (requests w ++ [request url bbox])%list
    /\ extends w w'
    /\ (forall v, attempt "ArcGIS layer" (layerNetwork (request url bbox)) = Return v ->
                  w' = issued w (request url bbox)).
Proof.
  destruct (attempt "ArcGIS layer" (layerNetwork (request url bbox))) as [v|e] eqn:Ha.
  - exists (issued w (request url bbox)).
    split; [|split; [reflexivity | split; [apply extends_issued | auto]]].
    apply tryOrNull_fulfilled. now rewrite fetchLayer_run, Ha.
  - destruct (attempt_throws_error _ _ Ha) as (name & message & ->).
    destruct (@tryOrNull_rejected_error Number_toString (fetchLayer url bbox) label
                w (issued w (request url bbox)) name message)
      as (s & Hs); [now rewrite fetchLayer_run, Ha|].
    eexists. split; [exact Hs|]. split; [reflexivity|]. split; [|discriminate].
    eapply extends_trans; [apply extends_issued | apply extends_logged].
Qed.

Lemma layerLoop_step (url : string) (rest : list string) (p : Main.Page) :
  url <> EmptyString ->
  let w1 := snd (tryOrNull Number_toString (fetchLayer url bbox)
                   ("WSA layer " ++ url ++ ":")
                   (logged (Main.world p) ("⏳ Loading WSA layer: " ++ url))) in
  let body := match attempt "ArcGIS layer" (layerNetwork (request url bbox)) with
              | Return v => v
              | Throw _ => null
              end in
  layerLoop (url :: rest) p
  = (if Main.hasFeatures body
     then match L_geoJSON body with
          | Some e => (Throw e, Main.onWorld p w1)
          | None =>
              layerLoop rest
                {| Main.world := w1;
                   Main.hydroLayer := Main.hydroLayer p;
                   Main.mapLayers :=
                     (Main.mapLayers p
                      ++ [{| Main.name := Main.layerName url; Main.data := body |}])%list |}
          end
     else layerLoop rest (Main.onWorld p (logged w1 ("(no features) " ++ url)))).
Proof.
  intros Hurl w1 body.
  destruct (guardedLayer_run url ("WSA layer " ++ url ++ ":")
              (logged (Main.world p) ("⏳ Loading WSA layer: " ++ url)))
    as (w' & Hrun & _).
  cbn [Main.layerLoop].
  apply String.eqb_neq in Hurl. rewrite Hurl.
  unfold Main.bind at 1. unfold Main.await at 1. unfold logDebug. cbn [fst snd].
  unfold Main.bind at 1. unfold Main.await at 1. cbn [Main.world Main.onWorld].
  subst w1. rewrite Hrun. cbn [fst snd]. fold body.
  destruct (Main.hasFeatures body); cbn [negb].
  - unfold Main.bind at 1. unfold Main.addGeoJSON at 1. cbn [Main.data].
    destruct (L_geoJSON body); reflexivity.
  - unfold Main.bind at 1. unfold Main.await at 1. reflexivity.
Qed.

(** X23: an endpoint whose server delivers a collection with features,
    one that Leaflet takes, costs one line and one request, and puts that
    collection on the map, as it came, under the name made of the end of the
    endpoint. *)
Theorem layerLoop_adds_layer (url : string) (rest : list string) (p : Main.Page)
    (v : jsval) :
  url <> EmptyString ->
  attempt "ArcGIS layer" (layerNetwork (request url bbox)) = Return v ->
  Main.hasFeatures v = true ->
  L_geoJSON v = None ->
  layerLoop (url :: rest) p
  = layerLoop rest
      {| Main.world := issued (logged (Main.world p) ("⏳ Loading WSA layer: " ++ url))
                              (request url bbox);
         Main.hydroLayer := Main.hydroLayer p;
         Main.mapLayers :=
           (Main.mapLayers p
            ++ [{| Main.name := Main.layerName url; Main.data := v |}])%list |}.
Proof.
  intros Hurl Ha Hfeatures Hok.
  rewrite (layerLoop_step rest p Hurl). cbn zeta. rewrite Ha, Hfeatures, Hok.
  destruct (guardedLayer_run url ("WSA layer " ++ url ++ ":")
              (logged (Main.world p) ("⏳ Loading WSA layer: " ++ url)))
    as (w' & Hrun & _ & _ & Hexact).
  rewrite Hrun. cbn [snd]. now rewrite (Hexact v Ha).
Qed.

(** X24: an endpoint whose request fails, or whose collection has no
    features, puts nothing on the map: after its one request the loop logs
    that there are no features, with the endpoint, and goes on with the next
    endpoint. *)
Theorem layerLoop_skips_layer_without_features (url : string)
    (rest : list string) (p : Main.Page) :
  url <> EmptyString ->
  (forall v, attempt "ArcGIS layer" (layerNetwork (request url bbox)) = Return v ->
             Main.hasFeatures v = false) ->
  exists w1,
    layerLoop (url :: rest) p
    = layerLoop rest (Main.onWorld p (logged w1 ("(no features) " ++ url)))
    /\ requests w1 = (requests (Main.world p) ++ [request url bbox])%list
    /\ extends (Main.world p) w1.
Proof.
  intros Hurl Hnone.
  rewrite (layerLoop_step rest p Hurl). cbn zeta.
  destruct (guardedLayer_run url ("WSA layer " ++ url ++ ":")
              (logged (Main.world p) ("⏳ Loading WSA layer: " ++ url)))
    as (w' & Hrun & Hreqs & Hext & _).
  rewrite Hrun. cbn [snd]. exists w'.
  split; [|split; [exact Hreqs|]].
  - destruct (attempt "ArcGIS layer" (layerNetwork (request url bbox))) as [v|e].
    + now rewrite (Hnone v eq_refl).
    + reflexivity.
  - eapply extends_trans; [apply extends_logged | exact Hext].
Qed.

(** X25: the empty entries of the list of endpoints are ignored: the loop
    runs as on the list without them. *)
Theorem layerLoop_ignores_empty_entries (urls : list string) (p : Main.Page) :
  layerLoop urls p
  = layerLoop (filter (fun url => negb (String.eqb url EmptyString)) urls) p.
Proof.
  revert p. induction urls as [|url rest IH]; intros p; [reflexivity|].
  cbn [filter]. destruct (String.eqb_spec url EmptyString) as [->|Hurl]; cbn [negb].
  - cbn [Main.layerLoop]. simpl String.eqb. apply IH.
  - rewrite !(layerLoop_step _ p Hurl). cbn zeta.
    destruct (Main.hasFeatures _); [destruct (L_geoJSON _)|]; auto.
Qed.

(** X26: the loop over the layers is rejected only with what Leaflet
    throws for a collection with features that a server delivered; no
    failure of a request ends it. *)
Theorem layerLoop_rejected_by_Leaflet_only (urls : list string) (p : Main.Page)
    (e : jsval) :
  fst (layerLoop urls p) = Throw e ->
  exists url v,
    In url urls
    /\ attempt "ArcGIS layer" (layerNetwork (request url bbox)) = Return v
    /\ Main.hasFeatures v = true
    /\ L_geoJSON v = Some e.
Proof.
  revert p. induction urls as [|url rest IH]; intros p; [discriminate|].
  assert (Hrest : forall p', fst (layerLoop rest p') = Throw e ->
            exists url' v, In url' (url :: rest)
              /\ attempt "ArcGIS layer" (layerNetwork (request url' bbox)) = Return v
              /\ Main.hasFeatures v = true /\ L_geoJSON v = Some e).
  { intros p' H. destruct (IH _ H) as (url' & v & Hin & Hrest).
    exists url', v. split; [now right | exact Hrest]. }
  destruct (String.eqb_spec url EmptyString) as [->|Hurl].
  - cbn [Main.layerLoop]. simpl String.eqb. apply Hrest.
  - rewrite (layerLoop_step rest p Hurl). cbn zeta.
    destruct (attempt "ArcGIS layer" (layerNetwork (request url bbox))) as [v|e'] eqn:Ha.
    + destruct (Main.hasFeatures v) eqn:Hf; [|apply Hrest].
      destruct (L_geoJSON v) as [e'|] eqn:Hl; [|apply Hrest].
      intros [= <-]. exists url, v. repeat split; auto. now left.
    + change (Main.hasFeatures null) with false. cbn iota. apply Hrest.
Qed.

Lemma guardedLayer_extends (url : string) (w : World) :
  extends w (snd (tryOrNull Number_toString (fetchLayer url bbox)
                    ("WSA layer " ++ url ++ ":")
                    (logged w ("⏳ Loading WSA layer: " ++ url)))).
Proof.
  eapply extends_trans; [apply extends_logged|].
  apply appends_tryOrNull, fetchLayer_appends.
Qed.

Lemma layerLoop_grown (urls : list string) (p : Main.Page) :
  Main.grown p (snd (layerLoop urls p)).
Proof.
  revert p. induction urls as [|url rest IH]; intros p; [apply grown_refl|].
  destruct (String.eqb_spec url EmptyString) as [->|Hurl].
  - cbn [Main.layerLoop]. simpl String.eqb. apply IH.
  - rewrite (layerLoop_step rest p Hurl). cbn zeta.
    pose proof (guardedLayer_extends url (Main.world p)) as Hext.
    destruct (Main.hasFeatures _); [destruct (L_geoJSON _)|].
    + now apply grown_onWorld.
    + eapply grown_trans; [|apply IH].
      split; [exact Hext|]. split; simpl; [exists []; now rewrite app_nil_r | eauto].
    + eapply grown_trans; [|apply IH].
      apply grown_onWorld. eapply extends_trans; [exact Hext | apply extends_logged].
Qed.

Lemma stationLoop_accepted (stations : list string) (p : Main.Page) :
  (forall lat lon, L_marker lat lon = None) ->
  fst (stationLoop stations p) = Return tt.
Proof.
  intros Hok. revert p. induction stations as [|stn rest IH]; intros p; [reflexivity|].
  rewrite stationLoop_step. cbn zeta.
  destruct (metaOutcome Number_toString network stn) as [m|e]; [rewrite Hok|]; apply IH.
Qed.

Lemma layerLoop_accepted (urls : list string) (p : Main.Page) :
  (forall v, L_geoJSON v = None) ->
  fst (layerLoop urls p) = Return tt.
Proof.
  intros Hok. revert p. induction urls as [|url rest IH]; intros p; [reflexivity|].
  destruct (String.eqb_spec url EmptyString) as [->|Hurl].
  - cbn [Main.layerLoop]. simpl String.eqb. apply IH.
  - rewrite (layerLoop_step rest p Hurl). cbn zeta.
    destruct (Main.hasFeatures _); [rewrite Hok|]; apply IH.
Qed.

Lemma loadData_run (stations urls : list string) (p : Main.Page) :
  loadData stations urls p
  = match stationLoop stations p with
    | (Return _, p1) =>
        match layerLoop urls p1 with
        | (Return _, p2) =>
            (Return tt, Main.onWorld p2 (logged (Main.world p2) "✅ Finished loading"))
        | (Throw e, p2) => (Throw e, p2)
        end
    | (Throw e, p1) => (Throw e, p1)
    end.
Proof.
  unfold Main.loadData. unfold Main.bind at 1.
  destruct (stationLoop stations p) as [[[]|e] p1]; reflexivity.
Qed.

(** X27: however the script ends, it has only added to the page: the
    requests, the console and the debug panel are those it found followed
    by its own, and the markers and the layers it found are still there,
    before the new ones. *)
Theorem loadData_grown (stations urls : list string) (p : Main.Page) :
  Main.grown p (snd (loadData stations urls p)).
Proof.
  rewrite loadData_run.
  pose proof (stationLoop_grown stations p) as H1.
  destruct (stationLoop stations p) as [[[]|e] p1]; simpl in H1; auto.
  pose proof (layerLoop_grown urls p1) as H2.
  destruct (layerLoop urls p1) as [[[]|e] p2]; simpl in H2.
  - eapply grown_trans; [exact H1|]. eapply grown_trans; [exact H2|].
    apply grown_onWorld, extends_logged.
  - eapply grown_trans; eauto.
Qed.

(** X28: when Leaflet refuses nothing, the script comes to its end
    whatever the servers answer, and the last line of the console says that
    loading has finished. *)
Theorem loadData_finishes (stations urls : list string) (p : Main.Page) :
  (forall lat lon, L_marker lat lon = None) ->
  (forall v, L_geoJSON v = None) ->
  exists p',
    loadData stations urls p = (Return tt, p')
    /\ last (console (Main.world p')) EmptyString = "✅ Finished loading".
Proof.
  intros Hmarker Hlayer. rewrite loadData_run.
  pose proof (stationLoop_accepted stations p Hmarker) as H1.
  destruct (stationLoop stations p) as [[[]|e] p1]; [|discriminate].
  pose proof (layerLoop_accepted urls p1 Hlayer) as H2.
  destruct (layerLoop urls p1) as [[[]|e] p2]; [|discriminate].
  eexists. split; [reflexivity|].
  simpl. apply last_last.
Qed.


End MainScript.

(** ** The script on sample servers *)

(** X18 on a server that answers with the station asked for. *)
Lemma stationMeta_agrees_with_earlier_witness :
  selectFeature ReferenceHost.Number_toString
    (featuresOrEmpty (collectionOf [wascana])) "05JF003"
  = nth_error (featuresOrEmpty (collectionOf [wascana])) 0
  /\ fst (Earlier.fetchHydrometricStationMeta (serverWith [wascana]) "05JF003" freshPage)
     = fst (fetchHydrometricStationMeta ReferenceHost.Number_toString
              (serverWith [wascana]) "05JF003" freshPage).
Proof.
  apply (@stationMeta_agrees_with_earlier ReferenceHost.Number_toString
           (serverWith [wascana]) "05JF003" freshPage freshPage
           (serverWith [wascana]) (collectionOf [wascana])).
  - reflexivity.
  - reflexivity.
  - intros f [<-|[]]. reflexivity.
Defined.

(** X19 on a server that is down. *)
Lemma stationLoop_skips_station_without_record_witness :
  exists w' reqs,
    Main.stationLoop ReferenceHost.Date_parse ReferenceHost.Number_toString
      sample_toLocaleString Leaflet_strict serverDown ["05JF003"; "05JF008"] emptyMap
    = Main.stationLoop ReferenceHost.Date_parse ReferenceHost.Number_toString
        sample_toLocaleString Leaflet_strict serverDown ["05JF008"]
        (Main.onWorld emptyMap w')
    /\ extends (Main.world emptyMap) w'
    /\ requests w' = (requests (Main.world emptyMap) ++ reqs)%list
    /\ Forall (fun r => url r = OGC_BASE ++ "/hydrometric-stations/items") reqs.
Proof.
  apply (@stationLoop_skips_station_without_record ReferenceHost.Date_parse
           ReferenceHost.Number_toString sample_toLocaleString Leaflet_strict
           serverDown "05JF003" ["05JF008"] emptyMap
           (Error "stations meta (fallback) 05JF003: 503")).
  vm_compute. reflexivity.
Defined.

(** X20 on a server that has the station and no reading of it. *)
Lemma stationLoop_places_marker_witness :
  exists w',
    Main.stationLoop ReferenceHost.Date_parse ReferenceHost.Number_toString
      sample_toLocaleString Leaflet_strict (serverWith [wascana]) ["05JF003"] emptyMap
    = Main.stationLoop ReferenceHost.Date_parse ReferenceHost.Number_toString
        sample_toLocaleString Leaflet_strict (serverWith [wascana]) []
        {| Main.world := w';
           Main.hydroLayer :=
             (Main.hydroLayer emptyMap
              ++ [{| Main.position := (lat (recordOf wascana), lon (recordOf wascana));
                     Main.title := "WSC " ++ "05JF003";
                     Main.popup :=
                       Main.popupHtml ReferenceHost.Date_parse
                         ReferenceHost.Number_toString sample_toLocaleString "05JF003"
                         (match realtimeOutcome ReferenceHost.Date_parse
                                  ReferenceHost.Number_toString
                                  (serverWith [wascana]) "05JF003" with
                          | Return rows => Some rows
                          | Throw _ => None
                          end) |}])%list;
           Main.mapLayers := Main.mapLayers emptyMap |}
    /\ extends (Main.world emptyMap) w'.
Proof.
  apply (@stationLoop_places_marker ReferenceHost.Date_parse
           ReferenceHost.Number_toString sample_toLocaleString Leaflet_strict
           (serverWith [wascana]) "05JF003" [] emptyMap (recordOf wascana)).
  - vm_compute. reflexivity.
  - reflexivity.
Defined.

(** X21 on a server whose station has a point without coordinates. *)
Lemma stationLoop_rejected_by_Leaflet_only_witness :
  exists stn m,
    In stn ["05JF003"]
    /\ metaOutcome ReferenceHost.Number_toString (serverWith [station_nowhere]) stn
       = Return m
    /\ Leaflet_strict (lat m) (lon m) = Some (Error "Invalid LatLng object").
Proof.
  apply (@stationLoop_rejected_by_Leaflet_only ReferenceHost.Date_parse
           ReferenceHost.Number_toString sample_toLocaleString Leaflet_strict
           (serverWith [station_nowhere]) ["05JF003"] emptyMap
           (Error "Invalid LatLng object")).
  vm_compute. reflexivity.
Defined.

(** X22 on the two stations of the configuration and a server that refuses
    the filter. *)
Lemma stationLoop_markers_witness :
  exists p',
    Main.stationLoop ReferenceHost.Date_parse ReferenceHost.Number_toString
      sample_toLocaleString Leaflet_accepting filterRefusingServer
      ["05JF003"; "05JF008"] emptyMap
    = (Return tt, p')
    /\ map Main.title (Main.hydroLayer p')
       = (map Main.title (Main.hydroLayer emptyMap)
          ++ map (fun stn => ("WSC " ++ stn)%string)
               (filter (fun stn =>
                          match metaOutcome ReferenceHost.Number_toString
                                  filterRefusingServer stn with
                          | Return _ => true
                          | Throw _ => false
                          end) ["05JF003"; "05JF008"]))%list
    /\ Main.mapLayers p' = Main.mapLayers emptyMap.
Proof.
  apply (@stationLoop_markers ReferenceHost.Date_parse
           ReferenceHost.Number_toString sample_toLocaleString Leaflet_accepting
           filterRefusingServer ["05JF003"; "05JF008"] emptyMap).
  intros stn m _ _. reflexivity.
Defined.

(** X23 on the layer of the dams. *)
Lemma layerLoop_adds_layer_witness :
  Main.layerLoop ReferenceHost.Number_toString geoJSON_accepting
    (layerServerWith dams_layer) regina_bbox [dams_endpoint] emptyMap
  = Main.layerLoop ReferenceHost.Number_toString geoJSON_accepting
      (layerServerWith dams_layer) regina_bbox []
      {| Main.world :=
           issued (logged (Main.world emptyMap)
                          ("⏳ Loading WSA layer: " ++ dams_endpoint))
                  (layerRequest ReferenceHost.Number_toString dams_endpoint regina_bbox);
         Main.hydroLayer := Main.hydroLayer emptyMap;
         Main.mapLayers :=
           (Main.mapLayers emptyMap
            ++ [{| Main.name := Main.layerName dams_endpoint;
                   Main.data := dams_layer |}])%list |}.
Proof.
  apply (@layerLoop_adds_layer ReferenceHost.Number_toString geoJSON_accepting
           (layerServerWith dams_layer) regina_bbox dams_endpoint [] emptyMap
           dams_layer).
  - discriminate.
  - reflexivity.
  - reflexivity.
  - reflexivity.
Defined.

(** X24 on a layer server that answers with status 500. *)
Lemma layerLoop_skips_layer_without_features_witness :
  exists w1,
    Main.layerLoop ReferenceHost.Number_toString geoJSON_accepting
      layerServerFailing regina_bbox [dams_endpoint] emptyMap
    = Main.layerLoop ReferenceHost.Number_toString geoJSON_accepting
        layerServerFailing regina_bbox []
        (Main.onWorld emptyMap (logged w1 ("(no features) " ++ dams_endpoint)))
    /\ requests w1
       = (requests (Main.world emptyMap)
          ++ [layerRequest ReferenceHost.Number_toString dams_endpoint regina_bbox])%list
    /\ extends (Main.world emptyMap) w1.
Proof.
  apply (@layerLoop_skips_layer_without_features ReferenceHost.Number_toString
           geoJSON_accepting layerServerFailing regina_bbox dams_endpoint []
           emptyMap).
  - discriminate.
  - intros v H. vm_compute in H. discriminate.
Defined.

(** X26 on the layer of the dams and a Leaflet that refuses it. *)
Lemma layerLoop_rejected_by_Leaflet_only_witness :
  exists url v,
    In url [dams_endpoint]
    /\ attempt "ArcGIS layer"
         (layerServerWith dams_layer
            (layerRequest ReferenceHost.Number_toString url regina_bbox))
       = Return v
    /\ Main.hasFeatures v = true
    /\ geoJSON_refusing v = Some (Error "Invalid GeoJSON object.").
Proof.
  apply (@layerLoop_rejected_by_Leaflet_only ReferenceHost.Number_toString
           geoJSON_refusing (layerServerWith dams_layer) regina_bbox
           [dams_endpoint] emptyMap (Error "Invalid GeoJSON object.")).
  vm_compute. reflexivity.
Defined.

(** X28 on the two stations of the configuration, the layer of the dams and
    servers that are down. *)
Lemma loadData_finishes_witness :
  exists p',
    Main.loadData ReferenceHost.Date_parse ReferenceHost.Number_toString
      sample_toLocaleString Leaflet_accepting geoJSON_accepting
      serverDown layerServerFailing regina_bbox
      ["05JF003"; "05JF008"] [dams_endpoint] emptyMap
    = (Return tt, p')
    /\ last (console (Main.world p')) EmptyString = "✅ Finished loading".
Proof.
  apply (@loadData_finishes ReferenceHost.Date_parse ReferenceHost.Number_toString
           sample_toLocaleString Leaflet_accepting geoJSON_accepting
           serverDown layerServerFailing regina_bbox
           ["05JF003"; "05JF008"] [dams_endpoint] emptyMap).
  - intros lat lon. reflexivity.
  - intros v. reflexivity.
Defined.
